(** * Google Contacts MCP server: the OAuth bridge and its two stores

    A shallow embedding of the token bridge of the server
    ([GoogleOAuthProvider], oauth-provider.ts), of the two DynamoDB-backed
    stores it drives ([SessionManager], session-manager.ts and
    [AuthCodeStore], auth-code-store.ts) and of the refresh and the
    revocation of the older [OAuthService] (oauth-service.ts).

    Modelling conventions.
    - A DynamoDB table is a finite map from the key attribute to the
      remaining attributes of the item; [PutCommand] is insertion,
      [GetCommand] is lookup, [DeleteCommand] is deletion and
      [UpdateCommand ... SET] overwrites the listed attributes of the item,
      creating the item when the key is absent.  The key attribute of an
      item read back from a table ([session.sessionId]) is the key it is
      stored under.  A request to a table succeeds unless DynamoDB or the
      document client refuses the request as it is written, which they do
      in two cases.  DynamoDB rejects an update expression that names a
      reserved word as an attribute without an alias from
      [ExpressionAttributeNames].  The document client, made here without
      [removeUndefinedValues], leaves out an attribute of the item whose
      value is [undefined], but throws when a member of a nested object
      is [undefined].  The deletion that DynamoDB performs on its own
      once the [ttl] of an item has passed is not modelled: an item
      leaves a table only when the code deletes it.
    - Timestamps are integers (milliseconds, or seconds for [ttl]); every
      [Date.now()] of one request reads the same instant [now], except in
      the callback of Google, which compares the age of one record with
      the clock before and after it waits for Google: there every lookup
      has its own instant.
    - The replies of Google (token refresh, revocation, code exchange,
      user info) and the bytes of [crypto.randomBytes] are inputs of the
      operation that consumes them.
    - An [await]ed call that rejects is a thrown error: operations live in
      a state-and-exception monad whose state is never rolled back. *)

From Stdlib Require Import ZArith NArith Lia Ascii String Strings.Byte.
From stdpp Require Import base option strings list gmap fin_maps.

Local Open Scope Z_scope.
Local Open Scope string_scope.

(** ** JavaScript values *)

Module Js.

(** [if (s)] on a value of type [string | undefined]: the empty string
    and [undefined] are falsy. *)
Definition truthy (s : option string) : bool :=
  match s with
  | Some v => negb (String.eqb v "")
  | None => false
  end.

(** [a || b] on strings. *)
Definition or_string (a : option string) (b : string) : string :=
  match a with
  | Some v => if String.eqb v "" then b else v
  | None => b
  end.

(** [a || undefined] on strings. *)
Definition or_undefined (a : option string) : option string :=
  if truthy a then a else None.

(** [a || b] on numbers: [undefined] and [0] are falsy. *)
Definition or_number (a : option Z) (b : Z) : Z :=
  match a with
  | Some v => if Z.eqb v 0 then b else v
  | None => b
  end.

(** [undefined < n] is [false]. *)
Definition lt (a : option Z) (n : Z) : bool :=
  match a with
  | Some v => Z.ltb v n
  | None => false
  end.

(** [s.split(' ')]: cut at every space, empty pieces kept. *)
Fixpoint split_acc (cur : string) (s : string) : list string :=
  match s with
  | EmptyString => [String.rev cur]
  | String c rest =>
      if Ascii.eqb c " "%char
      then String.rev cur :: split_acc "" rest
      else split_acc (String c cur) rest
  end.

Definition split (s : string) : list string := split_acc "" s.

(** [a.join(' ')]. *)
Fixpoint join (l : list string) : string :=
  match l with
  | [] => ""
  | [x] => x
  | x :: rest => x ++ " " ++ join rest
  end.

End Js.

(** ** [Buffer.toString('base64url')] *)

Module Base64Url.

Definition alphabet : list ascii :=
  list_ascii_of_string
    "ABCDEFGHIJKLMNOPQRSTUVWXYZabcdefghijklmnopqrstuvwxyz0123456789-_".

Definition digit (n : N) : ascii := nth (N.to_nat n) alphabet "A"%char.

(** Three bytes give four digits; a last group of one or two bytes gives
    two or three digits, without padding. *)
Fixpoint encodeN (bs : list N) : string :=
  match bs with
  | [] => ""
  | [a] =>
      String (digit (N.shiftr a 2))
        (String (digit (N.shiftl (N.land a 3) 4)) "")
  | [a; b] =>
      String (digit (N.shiftr a 2))
        (String (digit (N.lor (N.shiftl (N.land a 3) 4) (N.shiftr b 4)))
           (String (digit (N.shiftl (N.land b 15) 2)) ""))
  | a :: b :: c :: rest =>
      String (digit (N.shiftr a 2))
        (String (digit (N.lor (N.shiftl (N.land a 3) 4) (N.shiftr b 4)))
           (String (digit (N.lor (N.shiftl (N.land b 15) 2) (N.shiftr c 6)))
              (String (digit (N.land c 63)) (encodeN rest))))
  end.

Definition encode (bs : list byte) : string := encodeN (map Byte.to_N bs).

(** The characters a token may contain. *)
Definition is_digit (c : ascii) : Prop := In c alphabet.

Fixpoint all_digits (s : string) : Prop :=
  match s with
  | EmptyString => True
  | String c rest => is_digit c /\ all_digits rest
  end.

End Base64Url.

(** ** Errors and the request monad *)

(** How a call to a remote service can fail: Google answers that the
    token it was given is revoked or invalid ([invalid_grant]), or the
    call fails for a passing reason (network, timeout, the Google client
    credentials not loadable from the parameter store). *)
Inductive UpstreamFailure : Type :=
| TokenRevoked
| Transient.

(** The errors the code throws, one constructor per message. *)
Inductive Error : Type :=
| InvalidAuthorizationCode            (* 'Invalid authorization code' *)
| GoogleAuthenticationNotCompleted    (* 'Google authentication not completed' *)
| InvalidCodeVerifier                 (* 'Invalid code verifier' *)
| InvalidRefreshToken                 (* 'Invalid refresh token' *)
| FailedToRefreshGoogleAccessToken    (* 'Failed to refresh Google access token' *)
| InvalidOrExpiredAccessToken         (* 'Invalid or expired access token' *)
| InvalidStateParameter               (* 'Invalid state parameter' *)
| NoAccessTokenReceivedFromGoogle     (* 'No access token received from Google' *)
| AuthorizationCodeNotFoundOrExpired  (* 'Authorization code not found or expired' *)
| SessionNotFoundOrExpired            (* 'Session not found or expired' *)
| NoRefreshTokenAvailable             (* 'No refresh token available' *)
| NoAccessTokenReceivedFromRefresh    (* 'No access token received from refresh' *)
| FailedToRefreshToken                (* 'Failed to refresh token: ...' *)
| TypeError                           (* a property read on undefined *)
| ValidationException                 (* 'Invalid UpdateExpression: Attribute name is a reserved keyword; reserved keyword: ttl' *)
| UndefinedValue                      (* 'Pass options.removeUndefinedValues=true to remove undefined values from map/array/set.' *)
| Rejected (f : UpstreamFailure).     (* the rejection of a remote call *)

Inductive Outcome (A : Type) : Type :=
| Returned (a : A)
| Thrown (e : Error).
Arguments Returned {A} a.
Arguments Thrown {A} e.

(** A request over a store of type [S]: the store after the request comes
    with its outcome, also when the request throws. *)
Definition M (S A : Type) : Type := S -> Outcome A * S.

#[export] Instance M_ret {S} : MRet (M S) := fun A a s => (Returned a, s).

#[export] Instance M_bind {S} : MBind (M S) := fun A B k m s =>
  match m s with
  | (Returned a, s') => k a s'
  | (Thrown e, s') => (Thrown e, s')
  end.

Definition throw {S A} (e : Error) : M S A := fun s => (Thrown e, s).

(** [try { m } catch (error) { h error }]. *)
Definition try_catch {S A} (m : M S A) (h : Error -> M S A) : M S A := fun s =>
  match m s with
  | (Returned a, s') => (Returned a, s')
  | (Thrown e, s') => h e s'
  end.

(** The reply of a remote service, awaited. *)
Definition await {S A} (reply : UpstreamFailure + A) : M S A :=
  match reply with
  | inl f => throw (Rejected f)
  | inr a => mret a
  end.

Definition outcome {S A} (r : Outcome A * S) : Outcome A := fst r.
Definition store_of {S A} (r : Outcome A * S) : S := snd r.

(** ** A DynamoDB table *)

Section Table.
Context {V : Type}.

Definition dbGet (k : string) : M (gmap string V) (option V) :=
  fun t => (Returned (t !! k), t).

Definition dbPut (k : string) (v : V) : M (gmap string V) unit :=
  fun t => (Returned tt, <[k := v]> t).

Definition dbDelete (k : string) : M (gmap string V) unit :=
  fun t => (Returned tt, delete k t).

(** Whether DynamoDB reserves the word.  Of the attribute names that the
    code writes in an expression ([accessToken], [expiresAt], [ttl] and
    [updatedAt]) only [ttl] is on the list of reserved words. *)
Definition reservedWord (name : string) : bool := String.eqb name "ttl".

(** An [UpdateCommand] without [ExpressionAttributeNames] whose
    [UpdateExpression] is ['SET ' + names]: DynamoDB rejects it with a
    ValidationException, before it reads or writes the item, when one of
    the names is a reserved word; otherwise it overwrites those
    attributes, as [set] does, in the item of the key or in a new one. *)
Definition dbUpdate (names : list string) (k : string) (set : V -> V)
    (new : V) : M (gmap string V) unit :=
  if existsb reservedWord names
  then throw ValidationException
  else
    item ← dbGet k;
    dbPut k (set (default new item)).

End Table.

(** ** session-manager.ts *)

Module SessionManager.

(** An item of the sessions table without its key [sessionId].  The
    table holds [SessionData] items and, under the keys
    ['refresh:' + token], the items that map a refresh token to a
    session; the code reads both through the same cast, so one record
    with every attribute optional stands for both.  [mcpTokenExpiresAt]
    is not declared in [SessionData] but is passed by the provider and
    stored by the spread in [saveSession]. *)
Record Item : Type := mkItem {
  clientId : option string;
  userEmail : option string;
  accessToken : option string;
  refreshToken : option string;
  mcpRefreshToken : option string;
  expiresAt : option Z;
  mcpTokenExpiresAt : option Z;
  tokenType : option string;
  scope : option string;
  accessTokenSessionId : option string;
  ttl : option Z;
  createdAt : option Z;
  updatedAt : option Z
}.

(** The item an update creates when the key is absent, before its [SET]. *)
Definition noAttributes : Item :=
  mkItem None None None None None None None None None None None None None.

Definition NINETY_DAYS : Z := 90 * 24 * 60 * 60.

(** [Math.floor(now / 1000) + NINETY_DAYS] *)
Definition ttlFrom (now : Z) : Z := now / 1000 + NINETY_DAYS.

Definition refreshKey (mcpRefreshToken : string) : string :=
  "refresh:" ++ mcpRefreshToken.

(** [{ ...sessionData, ttl, createdAt: now, updatedAt: now }] *)
Definition stamp (now : Z) (sessionData : Item) : Item :=
  mkItem (clientId sessionData) (userEmail sessionData)
    (accessToken sessionData) (refreshToken sessionData)
    (mcpRefreshToken sessionData) (expiresAt sessionData)
    (mcpTokenExpiresAt sessionData) (tokenType sessionData)
    (scope sessionData) (accessTokenSessionId sessionData)
    (Some (ttlFrom now)) (Some now) (Some now).

(** [{ accessTokenSessionId: sessionData.sessionId, ttl, createdAt: now,
    updatedAt: now }], the item put under ['refresh:' + mcpRefreshToken]. *)
Definition refreshMapping (now : Z) (sessionId : string) : Item :=
  mkItem None None None None None None None None None (Some sessionId)
    (Some (ttlFrom now)) (Some now) (Some now).

(** Two puts: the session under its id and then, under
    [if (sessionData.mcpRefreshToken)], the mapping from the refresh
    token. *)
Definition saveSession (now : Z) (sessionId : string) (sessionData : Item)
  : M (gmap string Item) unit :=
  dbPut sessionId (stamp now sessionData) ;;
  if Js.truthy (mcpRefreshToken sessionData)
  then dbPut (refreshKey (default "" (mcpRefreshToken sessionData)))
         (refreshMapping now sessionId)
  else mret tt.

Definition deleteSession (sessionId : string) : M (gmap string Item) unit :=
  dbDelete sessionId.

(** [if (session.expiresAt < Date.now())] the item is deleted and [null]
    is returned. *)
Definition getSession (now : Z) (sessionId : string)
  : M (gmap string Item) (option Item) :=
  item ← dbGet sessionId;
  match item with
  | None => mret None
  | Some session =>
      if Js.lt (expiresAt session) now
      then deleteSession sessionId ;; mret None
      else mret (Some session)
  end.

(** ['SET accessToken = :token, expiresAt = :expires, ttl = :ttl,
    updatedAt = :updated'] *)
Definition withAccessToken (now : Z) (token : string) (expires : Z)
    (i : Item) : Item :=
  mkItem (clientId i) (userEmail i) (Some token) (refreshToken i)
    (mcpRefreshToken i) (Some expires) (mcpTokenExpiresAt i) (tokenType i)
    (scope i) (accessTokenSessionId i) (Some (ttlFrom now)) (createdAt i)
    (Some now).

(** The expression names [ttl], which DynamoDB reserves, and the command
    has no [ExpressionAttributeNames]. *)
Definition updateAccessToken (now : Z) (sessionId token : string)
    (expires : Z) : M (gmap string Item) unit :=
  dbUpdate ["accessToken"; "expiresAt"; "ttl"; "updatedAt"] sessionId
    (withAccessToken now token expires) noAttributes.

Definition isSessionValid (now : Z) (sessionId : string)
  : M (gmap string Item) bool :=
  session ← getSession now sessionId;
  mret (bool_decide (is_Some session)).

(** The session comes back with its key, which the caller reads as
    [session.sessionId]. *)
Definition getSessionByRefreshToken (now : Z) (token : string)
  : M (gmap string Item) (option (string * Item)) :=
  item ← dbGet (refreshKey token);
  match item with
  | None => mret None
  | Some mapping =>
      if Js.truthy (accessTokenSessionId mapping)
      then
        let sessionId := default "" (accessTokenSessionId mapping) in
        session ← getSession now sessionId;
        mret (pair sessionId <$> session)
      else mret None
  end.

Definition withMcpTokenExpiresAt (expires : Z) (i : Item) : Item :=
  mkItem (clientId i) (userEmail i) (accessToken i) (refreshToken i)
    (mcpRefreshToken i) (expiresAt i) (Some expires) (tokenType i)
    (scope i) (accessTokenSessionId i) (ttl i) (createdAt i) (updatedAt i).

Definition DAY_MS : Z := 24 * 60 * 60 * 1000.

(** Modelled from the spec: [extendSession], which [verifyAccessToken]
    calls and session-manager.ts does not define.  It is the [touch] of
    the session store: it sets the downstream expiry of the session to
    [now] plus [days] days, and leaves every other attribute and every
    other item as they are. *)
Definition extendSession (now : Z) (sessionId : string) (days : Z)
  : M (gmap string Item) unit :=
  fun t => (Returned tt,
            alter (withMcpTokenExpiresAt (now + days * DAY_MS)) sessionId t).

End SessionManager.

(** ** auth-code-store.ts *)

Module AuthCodeStore.

Record GoogleTokens : Type := mkGoogleTokens {
  accessToken : string;
  refreshToken : option string;
  expiresAt : Z;
  userEmail : option string
}.

(** An item of the authorization codes table without its key
    [authCode]. *)
Record AuthorizationCodeData : Type := mkAuthorizationCodeData {
  clientId : string;
  codeChallenge : string;
  redirectUri : string;
  state : option string;
  googleAuthCode : option string;
  googleTokens : option GoogleTokens;
  scopes : option (list string);
  createdAt : Z;
  ttl : Z
}.

Definition TEN_MINUTES : Z := 10 * 60.
Definition TEN_MINUTES_MS : Z := 10 * 60 * 1000.

(** [{ authCode, ...data, createdAt: now, ttl }] *)
Definition saveAuthCode (now : Z) (authCode : string)
    (data : AuthorizationCodeData)
  : M (gmap string AuthorizationCodeData) unit :=
  dbPut authCode
    (mkAuthorizationCodeData (clientId data) (codeChallenge data)
       (redirectUri data) (state data) (googleAuthCode data)
       (googleTokens data) (scopes data) now (now / 1000 + TEN_MINUTES)).

Definition deleteAuthCode (authCode : string)
  : M (gmap string AuthorizationCodeData) unit :=
  dbDelete authCode.

Definition getAuthCode (now : Z) (authCode : string)
  : M (gmap string AuthorizationCodeData) (option AuthorizationCodeData) :=
  item ← dbGet authCode;
  match item with
  | None => mret None
  | Some data =>
      if Z.ltb TEN_MINUTES_MS (now - createdAt data)
      then deleteAuthCode authCode ;; mret None
      else mret (Some data)
  end.

(** [{ ...existingData, googleAuthCode, googleTokens }] *)
Definition withGoogleTokens (code : string) (tokens : GoogleTokens)
    (existingData : AuthorizationCodeData) : AuthorizationCodeData :=
  mkAuthorizationCodeData (clientId existingData)
    (codeChallenge existingData) (redirectUri existingData)
    (state existingData) (Some code) (Some tokens) (scopes existingData)
    (createdAt existingData) (ttl existingData).

Definition updateWithGoogleTokens (now : Z) (authCode googleCode : string)
    (tokens : GoogleTokens) : M (gmap string AuthorizationCodeData) unit :=
  existingData ← getAuthCode now authCode;
  match existingData with
  | None => throw AuthorizationCodeNotFoundOrExpired
  | Some existingData =>
      dbPut authCode (withGoogleTokens googleCode tokens existingData)
  end.

End AuthCodeStore.

(** ** What Google answers *)

Module Google.

(** The credentials of a token response; every field may be missing. *)
Record Credentials : Type := mkCredentials {
  access_token : option string;
  refresh_token : option string;
  expiry_date : option Z
}.

End Google.

(** ** The store of the server: both tables *)

Record Store : Type := mkStore {
  sessions : gmap string SessionManager.Item;
  authCodes : gmap string AuthCodeStore.AuthorizationCodeData
}.

Definition onSessions {A} (m : M (gmap string SessionManager.Item) A)
  : M Store A := fun st =>
  let (r, t) := m (sessions st) in (r, mkStore t (authCodes st)).

Definition onAuthCodes {A}
    (m : M (gmap string AuthCodeStore.AuthorizationCodeData) A)
  : M Store A := fun st =>
  let (r, t) := m (authCodes st) in (r, mkStore (sessions st) t).

(** ** oauth-provider.ts *)

Module GoogleOAuthProvider.

Record OAuthTokens : Type := mkOAuthTokens {
  access_token : string;
  token_type : string;
  expires_in : Z;
  refresh_token : option string;
  scope : option string
}.

Record AuthInfo : Type := mkAuthInfo {
  token : string;
  clientId : string;
  scopes : list string
}.

Definition GOOGLE_SCOPE : string :=
  "https://www.googleapis.com/auth/contacts.readonly".

(** In every operation below the awaited reply of Google stands for
    [getGoogleOAuthClient()] followed by the call on the client: the
    first of the two that rejects is the rejection thrown, and nothing is
    written between them.  [API_ENDPOINT] is set, as app.ts refuses to
    start without it. *)

Section WithDigest.

(** [crypto.createHash('sha256').update(v).digest('base64url')] *)
Variable sha256_b64url : string -> string.

(** [authorize]: the generated code ([crypto.randomUUID()]) is the
    [state] of the redirection to Google.  The request carries neither
    [createdAt] nor [ttl]: [saveAuthCode] sets both. *)
Definition authorize (now : Z) (client_id : string)
    (codeChallenge redirectUri : string) (state : option string)
    (scopes : option (list string))
    (oauth2Client : UpstreamFailure + unit) (authCode : string)
  : M Store string :=
  await oauth2Client ;;
  onAuthCodes
    (AuthCodeStore.saveAuthCode now authCode
       (AuthCodeStore.mkAuthorizationCodeData client_id codeChallenge
          redirectUri state None None scopes 0 0)) ;;
  mret authCode.

Definition challengeForAuthorizationCode (now : Z)
    (client_id authorizationCode : string) : M Store string :=
  authData ← onAuthCodes (AuthCodeStore.getAuthCode now authorizationCode);
  match authData with
  | None => throw InvalidAuthorizationCode
  | Some authData =>
      if negb (String.eqb (AuthCodeStore.clientId authData) client_id)
      then throw InvalidAuthorizationCode
      else mret (AuthCodeStore.codeChallenge authData)
  end.

(** The block under [// Verify PKCE challenge]: whether it lets the
    exchange go on. *)
Definition pkceAccepted (codeVerifier : option string)
    (codeChallenge : string) : bool :=
  if Js.truthy codeVerifier
  then String.eqb (sha256_b64url (default "" codeVerifier)) codeChallenge
  else true.

Definition expiresIn : Z := 30 * 24 * 60 * 60.

Definition exchangeAuthorizationCode (now : Z)
    (client_id authorizationCode : string) (codeVerifier : option string)
    (accessBytes refreshBytes : list byte) : M Store OAuthTokens :=
  authData ← onAuthCodes (AuthCodeStore.getAuthCode now authorizationCode);
  match authData with
  | None => throw InvalidAuthorizationCode
  | Some authData =>
      if negb (String.eqb (AuthCodeStore.clientId authData) client_id)
      then throw InvalidAuthorizationCode
      else
        match AuthCodeStore.googleTokens authData with
        | None => throw GoogleAuthenticationNotCompleted
        | Some googleTokens =>
            if negb (pkceAccepted codeVerifier
                       (AuthCodeStore.codeChallenge authData))
            then throw InvalidCodeVerifier
            else
              let accessToken := Base64Url.encode accessBytes in
              let mcpRefreshToken := Base64Url.encode refreshBytes in
              let mcpTokenExpiresAt := now + expiresIn * 1000 in
              (if Js.truthy (AuthCodeStore.userEmail googleTokens)
               then
                 onSessions
                   (SessionManager.saveSession now accessToken
                      (SessionManager.mkItem
                         (Some client_id)
                         (AuthCodeStore.userEmail googleTokens)
                         (Some (AuthCodeStore.accessToken googleTokens))
                         (AuthCodeStore.refreshToken googleTokens)
                         (Some mcpRefreshToken)
                         (Some (AuthCodeStore.expiresAt googleTokens))
                         (Some mcpTokenExpiresAt)
                         (Some "Bearer")
                         (Some GOOGLE_SCOPE)
                         None None None None))
               else mret tt) ;;
              onAuthCodes (AuthCodeStore.deleteAuthCode authorizationCode) ;;
              mret (mkOAuthTokens accessToken "Bearer" expiresIn
                      (Some mcpRefreshToken)
                      (Js.join <$> AuthCodeStore.scopes authData))
        end
  end.

(** [credentials.expiry_date || Date.now() + (3600 * 1000)] *)
Definition googleExpiry (now : Z) (credentials : Google.Credentials) : Z :=
  Js.or_number (Google.expiry_date credentials) (now + 3600 * 1000).

Definition exchangeRefreshToken (now : Z) (refreshToken : string)
    (refreshed : UpstreamFailure + Google.Credentials)
    (accessBytes : list byte) : M Store OAuthTokens :=
  session ← onSessions
              (SessionManager.getSessionByRefreshToken now refreshToken);
  match session with
  | None => throw InvalidRefreshToken
  | Some (sessionId, session) =>
      credentials ← await refreshed;
      if negb (Js.truthy (Google.access_token credentials))
      then throw FailedToRefreshGoogleAccessToken
      else
        let googleAccessToken :=
          default "" (Google.access_token credentials) in
        let newAccessToken := Base64Url.encode accessBytes in
        let googleTokenExpiresAt := googleExpiry now credentials in
        let mcpTokenExpiresAt := now + expiresIn * 1000 in
        onSessions
          (SessionManager.updateAccessToken now sessionId
             googleAccessToken googleTokenExpiresAt) ;;
        onSessions
          (SessionManager.saveSession now newAccessToken
             (SessionManager.mkItem
                (SessionManager.clientId session)
                (SessionManager.userEmail session)
                (Some googleAccessToken)
                (SessionManager.refreshToken session)
                (Some refreshToken)
                (Some googleTokenExpiresAt)
                (Some mcpTokenExpiresAt)
                (Some "Bearer")
                (SessionManager.scope session)
                None None None None)) ;;
        mret (mkOAuthTokens newAccessToken "Bearer" expiresIn
                (Some refreshToken) (SessionManager.scope session))
  end.

Definition expiryBuffer : Z := 5 * 60 * 1000.

(** [session.expiresAt - Date.now() < expiryBuffer], which is [false]
    (a comparison with [NaN]) when [expiresAt] is missing. *)
Definition needsRefresh (now : Z) (session : SessionManager.Item) : bool :=
  match SessionManager.expiresAt session with
  | Some e => Z.ltb (e - now) expiryBuffer
  | None => false
  end.

Definition verifyAccessToken (now : Z) (token : string)
    (refreshed : UpstreamFailure + Google.Credentials) : M Store AuthInfo :=
  session ← onSessions (SessionManager.getSession now token);
  match session with
  | None => throw InvalidOrExpiredAccessToken
  | Some session =>
      (if needsRefresh now session
          && Js.truthy (SessionManager.refreshToken session)
       then
         try_catch
           (credentials ← await refreshed;
            if Js.truthy (Google.access_token credentials)
            then
              onSessions
                (SessionManager.updateAccessToken now token
                   (default "" (Google.access_token credentials))
                   (googleExpiry now credentials))
            else mret tt)
           (fun _ => mret tt)
       else mret tt) ;;
      onSessions (SessionManager.extendSession now token 30) ;;
      match SessionManager.scope session with
      | None => throw TypeError
      | Some scope =>
          mret (mkAuthInfo token
                  (Js.or_string (SessionManager.clientId session) "unknown")
                  (Js.split scope))
      end
  end.

Definition revokeToken (now : Z) (token : string)
    (revoked : UpstreamFailure + unit) : M Store unit :=
  try_catch
    (session ← onSessions (SessionManager.getSession now token);
     match session with
     | Some session =>
         await revoked ;;
         onSessions (SessionManager.deleteSession token)
     | None => mret tt
     end)
    (fun _ => mret tt).

Definition getAuthCodeData (now : Z) (authCode : string)
  : M Store (option AuthCodeStore.AuthorizationCodeData) :=
  onAuthCodes (AuthCodeStore.getAuthCode now authCode).

(** [updateWithGoogleTokens(state, code, { accessToken, refreshToken,
    expiresAt, userEmail })] as [handleGoogleCallback] calls it: the
    object literal has all four members, so a missing refresh token or
    email is a member whose value is [undefined].  The item that
    [updateWithGoogleTokens] puts then holds [undefined] inside a nested
    object, and the put throws, after the lookup and before anything is
    written. *)
Definition updateWithTokensLiteral (now : Z) (authCode googleCode : string)
    (tokens : AuthCodeStore.GoogleTokens)
  : M (gmap string AuthCodeStore.AuthorizationCodeData) unit :=
  if bool_decide (is_Some (AuthCodeStore.refreshToken tokens))
     && bool_decide (is_Some (AuthCodeStore.userEmail tokens))
  then AuthCodeStore.updateWithGoogleTokens now authCode googleCode tokens
  else
    existingData ← AuthCodeStore.getAuthCode now authCode;
    match existingData with
    | None => throw AuthorizationCodeNotFoundOrExpired
    | Some _ => throw UndefinedValue
    end.

(** [handleGoogleCallback]: [now] is the instant of the lookup of the
    state, [later] the instant at which Google has answered both
    requests, when the expiry is computed and the record is looked up
    again to be completed. *)
Definition handleGoogleCallback (now later : Z) (code state : string)
    (tokens : UpstreamFailure + Google.Credentials)
    (userEmail : UpstreamFailure + option string) : M Store unit :=
  authData ← onAuthCodes (AuthCodeStore.getAuthCode now state);
  match authData with
  | None => throw InvalidStateParameter
  | Some _ =>
      tokens ← await tokens;
      if negb (Js.truthy (Google.access_token tokens))
      then throw NoAccessTokenReceivedFromGoogle
      else
        email ← await userEmail;
        onAuthCodes
          (updateWithTokensLiteral later state code
             (AuthCodeStore.mkGoogleTokens
                (default "" (Google.access_token tokens))
                (Js.or_undefined (Google.refresh_token tokens))
                (googleExpiry later tokens)
                (Js.or_undefined email)))
  end.

End WithDigest.

End GoogleOAuthProvider.

(** ** oauth-service.ts: the older session flow *)

Module OAuthService.

Definition refreshAccessToken (now : Z) (sessionId : string)
    (oauth2Client : UpstreamFailure + unit)
    (refreshed : UpstreamFailure + Google.Credentials)
  : M (gmap string SessionManager.Item) string :=
  session ← SessionManager.getSession now sessionId;
  match session with
  | None => throw SessionNotFoundOrExpired
  | Some session =>
      if negb (Js.truthy (SessionManager.refreshToken session))
      then throw NoRefreshTokenAvailable
      else
        await oauth2Client ;;
        try_catch
          (credentials ← await refreshed;
           if negb (Js.truthy (Google.access_token credentials))
           then throw NoAccessTokenReceivedFromRefresh
           else
             let token := default "" (Google.access_token credentials) in
             SessionManager.updateAccessToken now sessionId token
               (GoogleOAuthProvider.googleExpiry now credentials) ;;
             mret token)
          (fun _ =>
             SessionManager.deleteSession sessionId ;;
             throw FailedToRefreshToken)
  end.

Definition revokeSession (now : Z) (sessionId : string)
    (revoked : UpstreamFailure + unit)
  : M (gmap string SessionManager.Item) unit :=
  session ← SessionManager.getSession now sessionId;
  match session with
  | Some session =>
      try_catch (await revoked) (fun _ => mret tt) ;;
      SessionManager.deleteSession sessionId
  | None => mret tt
  end.

End OAuthService.

(** ** Errors of the callers of the stores *)

(** The errors thrown by the code below that the provider does not
    throw, one constructor per message, beside the errors above. *)
Inductive ServiceError : Type :=
| ProviderError (e : Error)
| SessionNotFoundPleaseAuthenticate (* 'Session not found. Please authenticate.' *)
| FailedToExchangeCodeForTokens     (* 'Failed to exchange code for tokens: ...' *)
| MissingAuthentication             (* 'Missing authentication. Please authenticate via OAuth.' *)
| FailedToRefreshAccessToken        (* 'Failed to refresh access token' *)
| ApiEndpointIsRequired.            (* 'API_ENDPOINT environment variable is required' *)

Inductive ServiceOutcome (A : Type) : Type :=
| Done (a : A)
| Failed (e : ServiceError).
Arguments Done {A} a.
Arguments Failed {A} e.

(** A request that may throw any of them. *)
Definition Svc (S A : Type) : Type := S -> ServiceOutcome A * S.

#[export] Instance Svc_ret {S} : MRet (Svc S) := fun A a s => (Done a, s).

#[export] Instance Svc_bind {S} : MBind (Svc S) := fun A B k m s =>
  match m s with
  | (Done a, s') => k a s'
  | (Failed e, s') => (Failed e, s')
  end.

Definition fail {S A} (e : ServiceError) : Svc S A := fun s => (Failed e, s).

(** A request of the kind above, its errors kept. *)
Definition run {S A} (m : M S A) : Svc S A := fun s =>
  match m s with
  | (Returned a, s') => (Done a, s')
  | (Thrown e, s') => (Failed (ProviderError e), s')
  end.

(** [try { m } catch (error) { throw e }], with [m] a request of the
    kind above. *)
Definition rethrow_as {S A} (e : ServiceError) (m : M S A) : Svc S A :=
  fun s =>
  match m s with
  | (Returned a, s') => (Done a, s')
  | (Thrown _, s') => (Failed e, s')
  end.

(** ** oauth-service.ts, continued *)

Module OAuthServiceFlow.

(** The tokens of a code exchange: the credentials, with the token type
    and the scope Google granted. *)
Record Tokens : Type := mkTokens {
  credentials : Google.Credentials;
  token_type : option string;
  scope : option string
}.

Record ExchangedTokens : Type := mkExchangedTokens {
  sessionId : string;
  accessToken : string;
  refreshToken : string;
  expiresAt : Z
}.

(** The session data [exchangeCodeForTokens] passes to [saveSession]. *)
Definition exchangedSession (now : Z) (tokens : Tokens)
    (email : option string) : SessionManager.Item :=
  SessionManager.mkItem None (Js.or_undefined email)
    (Some (default "" (Google.access_token (credentials tokens))))
    (Js.or_undefined (Google.refresh_token (credentials tokens)))
    None
    (Some (GoogleOAuthProvider.googleExpiry now (credentials tokens)))
    None
    (Some (Js.or_string (token_type tokens) "Bearer"))
    (Some (Js.or_string (scope tokens) GoogleOAuthProvider.GOOGLE_SCOPE))
    None None None None.

(** [createOAuth2Client()] is awaited before the [try]; whatever is thrown
    inside the [try] is thrown again as 'Failed to exchange code for
    tokens'.  The session id is the [crypto.randomUUID()] drawn. *)
Definition exchangeCodeForTokens (now : Z)
    (oauth2Client : UpstreamFailure + unit)
    (tokens : UpstreamFailure + Tokens)
    (userEmail : UpstreamFailure + option string) (uuid : string)
  : Svc (gmap string SessionManager.Item) ExchangedTokens :=
  run (await oauth2Client) ;;
  rethrow_as FailedToExchangeCodeForTokens
    (tokens ← await tokens;
     if negb (Js.truthy (Google.access_token (credentials tokens)))
     then throw NoAccessTokenReceivedFromGoogle
     else
       email ← await userEmail;
       SessionManager.saveSession now uuid
         (exchangedSession now tokens email) ;;
       mret (mkExchangedTokens uuid
               (default "" (Google.access_token (credentials tokens)))
               (Js.or_string (Google.refresh_token (credentials tokens)) "")
               (GoogleOAuthProvider.googleExpiry now (credentials tokens)))).

(** The access token of the session, refreshed first when less than five
    minutes of it are left; [undefined] when the item has none. *)
Definition getValidAccessToken (now : Z) (sessionId : string)
    (oauth2Client : UpstreamFailure + unit)
    (refreshed : UpstreamFailure + Google.Credentials)
  : Svc (gmap string SessionManager.Item) (option string) :=
  session ← run (SessionManager.getSession now sessionId);
  match session with
  | None => fail SessionNotFoundPleaseAuthenticate
  | Some session =>
      if GoogleOAuthProvider.needsRefresh now session
      then
        token ← run (OAuthService.refreshAccessToken now sessionId
                       oauth2Client refreshed);
        mret (Some token)
      else mret (SessionManager.accessToken session)
  end.

End OAuthServiceFlow.

(** ** mcp-service.ts: the credentials of a tool call *)

Module McpService.

(** What [refreshAccessToken] answers here: the credentials, and the
    lifetime in seconds that the handler falls back on. *)
Record Refreshed : Type := mkRefreshed {
  credentials : Google.Credentials;
  expires_in : option Z
}.

(** [credentials.expiry_date ||
     Date.now() + ((credentials.expires_in || 3600) * 1000)] *)
Definition refreshedExpiry (now : Z) (r : Refreshed) : Z :=
  Js.or_number (Google.expiry_date (credentials r))
    (now + Js.or_number (expires_in r) 3600 * 1000).

(** The head of the [CallToolRequestSchema] handler, up to
    [const auth = googleOAuthClient]: the credentials set on the Google
    client that the tool then calls with. *)
Definition toolCallCredentials (now : Z) (authInfoToken : option string)
    (oauth2Client : UpstreamFailure + unit)
    (refreshed : UpstreamFailure + Refreshed)
  : Svc (gmap string SessionManager.Item) Google.Credentials :=
  if negb (Js.truthy authInfoToken)
  then fail MissingAuthentication
  else
    let token := default "" authInfoToken in
    session ← run (SessionManager.getSession now token);
    match session with
    | None => fail (ProviderError SessionNotFoundOrExpired)
    | Some session =>
        run (await oauth2Client) ;;
        let stored :=
          Google.mkCredentials (SessionManager.accessToken session)
            (SessionManager.refreshToken session) None in
        if GoogleOAuthProvider.needsRefresh now session
           && Js.truthy (SessionManager.refreshToken session)
        then
          rethrow_as FailedToRefreshAccessToken
            (r ← await refreshed;
             if Js.truthy (Google.access_token (credentials r))
             then
               SessionManager.updateAccessToken now token
                 (default "" (Google.access_token (credentials r)))
                 (refreshedExpiry now r) ;;
               mret (credentials r)
             else mret stored)
        else mret stored
    end.

End McpService.

(** ** app.ts: the routes that reach the provider *)

Module App.

(** A value of [req.query]: a string, or an array or object of them. *)
Inductive QueryValue : Type :=
| QString (s : string)
| QNested.

(** [!v]: a missing value and the empty string are falsy. *)
Definition present (v : option QueryValue) : bool :=
  match v with
  | Some (QString s) => negb (String.eqb s "")
  | Some QNested => true
  | None => false
  end.

(** [!v || typeof v !== 'string'] fails: the non-empty string. *)
Definition nonEmptyString (v : option QueryValue) : option string :=
  match v with
  | Some (QString s) => if String.eqb s "" then None else Some s
  | _ => None
  end.

Inductive CallbackFailure : Type :=
| ProviderThrew (e : Error)
| AuthorizationSessionExpired   (* 'Authorization session expired' *)
| InvalidRedirectUri.           (* [new URL(...)] throws *)

Inductive CallbackResponse : Type :=
| BadRequest                                   (* 400 *)
| AuthenticationErrorPage (f : CallbackFailure) (* 500 *)
| RedirectTo (redirectUri code state : string).

Section WithUrl.

(** Whether [new URL(s)] accepts [s]. *)
Variable isUrl : string -> bool.

(** [GET /google/callback].  The redirection is given by the stored
    redirect URI and the two search parameters set on it.  [now] and
    [later] are the two instants of [handleGoogleCallback], [last] the
    instant at which the completed record is read back. *)
Definition googleCallback (now later last : Z)
    (code state error : option QueryValue)
    (tokens : UpstreamFailure + Google.Credentials)
    (userEmail : UpstreamFailure + option string)
  : Store -> CallbackResponse * Store := fun st =>
  if present error then (BadRequest, st)
  else
    match nonEmptyString code, nonEmptyString state with
    | Some code, Some state =>
        match GoogleOAuthProvider.handleGoogleCallback now later code state
                tokens userEmail st with
        | (Thrown e, st') => (AuthenticationErrorPage (ProviderThrew e), st')
        | (Returned _, st') =>
            match GoogleOAuthProvider.getAuthCodeData last state st' with
            | (Thrown e, st'') =>
                (AuthenticationErrorPage (ProviderThrew e), st'')
            | (Returned None, st'') =>
                (AuthenticationErrorPage AuthorizationSessionExpired, st'')
            | (Returned (Some authData), st'') =>
                if isUrl (AuthCodeStore.redirectUri authData)
                then (RedirectTo (AuthCodeStore.redirectUri authData) state
                        (Js.or_string (AuthCodeStore.state authData) ""),
                      st'')
                else (AuthenticationErrorPage InvalidRedirectUri, st'')
            end
        end
    | _, _ => (BadRequest, st)
    end.

End WithUrl.

(** [authHeader.startsWith('Bearer ')] and [authHeader.substring(7)]. *)
Definition bearerToken (authHeader : option string) : option string :=
  match authHeader with
  | Some header =>
      if String.eqb header "" then None
      else if String.prefix "Bearer " header
      then Some (String.substring 7 (String.length header - 7) header)
      else None
  | None => None
  end.

Inductive McpAccess : Type :=
| Unauthorized                                  (* 401, 'unauthorized' *)
| InvalidToken                                  (* 401, 'invalid_token' *)
| Authorized (authInfo : GoogleOAuthProvider.AuthInfo).

(** [POST /mcp], up to [mcpService.handleRequest]. *)
Definition mcpAccess (now : Z) (authHeader : option string)
    (refreshed : UpstreamFailure + Google.Credentials)
  : Store -> McpAccess * Store := fun st =>
  match bearerToken authHeader with
  | None => (Unauthorized, st)
  | Some token =>
      match GoogleOAuthProvider.verifyAccessToken now token refreshed st with
      | (Returned authInfo, st') => (Authorized authInfo, st')
      | (Thrown _, st') => (InvalidToken, st')
      end
  end.

End App.

(** ** contacts.ts: the errors of the Google API *)

Module Contacts.

(** A property that holds a number or a string. *)
Inductive JsValue : Type :=
| JsNumber (n : Z)
| JsString (s : string).

(** What the handler reads of a caught error. *)
Record ApiFailure : Type := mkApiFailure {
  message : option string;
  code : option JsValue;
  responseStatus : option JsValue
}.

Record GoogleAPIError : Type := mkGoogleAPIError {
  errorMessage : string;
  statusCode : option JsValue
}.

Definition truthyValue (v : option JsValue) : bool :=
  match v with
  | Some (JsNumber n) => negb (Z.eqb n 0)
  | Some (JsString s) => negb (String.eqb s "")
  | None => false
  end.

(** [v === n] *)
Definition isNumber (v : option JsValue) (n : Z) : bool :=
  match v with
  | Some (JsNumber m) => Z.eqb m n
  | _ => false
  end.

(** [handleGoogleAPIError]: the error it throws. *)
Definition handleGoogleAPIError (error : ApiFailure) (operation : string)
  : GoogleAPIError :=
  let message := Js.or_string (message error) "Unknown error" in
  let statusCode :=
    if truthyValue (code error) then code error else responseStatus error in
  if isNumber statusCode 401
  then mkGoogleAPIError
         "Authentication failed. Token may be invalid or expired."
         (Some (JsNumber 401))
  else if isNumber statusCode 403
  then mkGoogleAPIError
         "Access forbidden. Check OAuth scopes and permissions."
         (Some (JsNumber 403))
  else if isNumber statusCode 404
  then mkGoogleAPIError "Resource not found." (Some (JsNumber 404))
  else if isNumber statusCode 429
  then mkGoogleAPIError "Rate limit exceeded. Please try again later."
         (Some (JsNumber 429))
  else mkGoogleAPIError (operation ++ " failed: " ++ message) statusCode.

(** The [catch] of [searchDirectoryContacts]. *)
Definition searchDirectoryError (error : ApiFailure) : GoogleAPIError :=
  if isNumber (code error) 403 || isNumber (code error) 400
  then mkGoogleAPIError
         "Directory search is only available for Google Workspace accounts."
         (code error)
  else handleGoogleAPIError error "Search directory contacts".

End Contacts.

(** ** oauth-client-store.ts *)

Module OAuthClientStore.

Section WithMetadata.

(** The client metadata the store copies without reading it. *)
Variable Metadata : Type.

(** What [registerClient] is given. *)
Record Registration : Type := mkRegistration {
  metadata : Metadata;
  requested_auth_method : option string;
  requested_logo_uri : option string
}.

(** An item of the clients table without its key [client_id]. *)
Record Client : Type := mkClient {
  client_metadata : Metadata;
  client_id_issued_at : Z;
  client_secret : string;
  client_secret_expires_at : Z;
  token_endpoint_auth_method : string;
  logo_uri : string
}.

Definition getClient (clientId : string)
  : M (gmap string Client) (option Client) :=
  dbGet clientId.

(** The client comes back with its [client_id], the
    [crypto.randomUUID()] drawn; [apiEndpoint] is
    [process.env.API_ENDPOINT]. *)
Definition registerClient (now : Z) (apiEndpoint : option string)
    (client : Registration) (uuid : string) (secretBytes : list byte)
  : Svc (gmap string Client) (string * Client) :=
  let clientId := uuid in
  let clientSecret := Base64Url.encode secretBytes in
  let issuedAt := now / 1000 in
  let expiresAt := issuedAt + 365 * 24 * 60 * 60 in
  if negb (Js.truthy apiEndpoint)
  then fail ApiEndpointIsRequired
  else
    let fullClient :=
      mkClient (metadata client) issuedAt clientSecret expiresAt
        (Js.or_string (requested_auth_method client) "client_secret_post")
        (Js.or_string (requested_logo_uri client)
           (default "" apiEndpoint ++ "/logo.png")) in
    run (dbPut clientId fullClient) ;;
    mret (clientId, fullClient).

End WithMetadata.

End OAuthClientStore.

(** ** Definitions the statements below are written with *)

Module Derived.
Import GoogleOAuthProvider.

(** Whether a lookup at [now] finds the code. *)
Definition found (now : Z) (authCode : string)
    (t : gmap string AuthCodeStore.AuthorizationCodeData) : bool :=
  match outcome (AuthCodeStore.getAuthCode now authCode t) with
  | Returned (Some _) => true
  | _ => false
  end.

(** Whether [getSession] at [now] returns a session for the key. *)
Definition reachable (now : Z) (sessionId : string)
    (t : gmap string SessionManager.Item) : bool :=
  match outcome (SessionManager.getSession now sessionId t) with
  | Returned (Some _) => true
  | _ => false
  end.

(** The session data the exchange passes to [saveSession]. *)
Definition issuedSession (now : Z) (client_id : string)
    (googleTokens : AuthCodeStore.GoogleTokens) (mcpRefreshToken : string)
  : SessionManager.Item :=
  SessionManager.mkItem (Some client_id)
    (AuthCodeStore.userEmail googleTokens)
    (Some (AuthCodeStore.accessToken googleTokens))
    (AuthCodeStore.refreshToken googleTokens)
    (Some mcpRefreshToken)
    (Some (AuthCodeStore.expiresAt googleTokens))
    (Some (now + 30 * 24 * 60 * 60 * 1000))
    (Some "Bearer") (Some GOOGLE_SCOPE) None None None None.

(** The sessions table after the opportunistic refresh of
    [verifyAccessToken] on the session found under [token]. *)
Definition afterOpportunisticRefresh (now : Z) (token : string)
    (refreshed : UpstreamFailure + Google.Credentials)
    (session : SessionManager.Item)
    (t : gmap string SessionManager.Item) : gmap string SessionManager.Item :=
  if needsRefresh now session
     && Js.truthy (SessionManager.refreshToken session)
  then
    match refreshed with
    | inr credentials =>
        if Js.truthy (Google.access_token credentials)
        then store_of
               (SessionManager.updateAccessToken now token
                  (default "" (Google.access_token credentials))
                  (googleExpiry now credentials) t)
        else t
    | inl _ => t
    end
  else t.

(** The stores the provider can leave behind: the empty one at first,
    then the store after any of its operations, whether the operation
    returns or throws, whatever its arguments, the instants and the
    answers of Google.  The provider is the only code that writes the
    table of authorization codes. *)
Inductive Reachable (sha256_b64url : string -> string) : Store -> Prop :=
| reach_empty :
    Reachable sha256_b64url (mkStore ∅ ∅)
| reach_authorize now client_id codeChallenge redirectUri state scopes
    oauth2Client authCode st :
    Reachable sha256_b64url st ->
    Reachable sha256_b64url
      (store_of (authorize now client_id codeChallenge redirectUri state
                   scopes oauth2Client authCode st))
| reach_challenge now client_id authorizationCode st :
    Reachable sha256_b64url st ->
    Reachable sha256_b64url
      (store_of (challengeForAuthorizationCode now client_id
                   authorizationCode st))
| reach_callback now later code state tokens userEmail st :
    Reachable sha256_b64url st ->
    Reachable sha256_b64url
      (store_of (handleGoogleCallback now later code state tokens userEmail
                   st))
| reach_getAuthCodeData now authCode st :
    Reachable sha256_b64url st ->
    Reachable sha256_b64url (store_of (getAuthCodeData now authCode st))
| reach_exchange now client_id authorizationCode codeVerifier
    accessBytes refreshBytes st :
    Reachable sha256_b64url st ->
    Reachable sha256_b64url
      (store_of (exchangeAuthorizationCode sha256_b64url now client_id
                   authorizationCode codeVerifier accessBytes refreshBytes
                   st))
| reach_refresh now refreshToken refreshed accessBytes st :
    Reachable sha256_b64url st ->
    Reachable sha256_b64url
      (store_of (exchangeRefreshToken now refreshToken refreshed
                   accessBytes st))
| reach_verify now token refreshed st :
    Reachable sha256_b64url st ->
    Reachable sha256_b64url
      (store_of (verifyAccessToken now token refreshed st))
| reach_revoke now token revoked st :
    Reachable sha256_b64url st ->
    Reachable sha256_b64url (store_of (revokeToken now token revoked st)).

(** The Google tokens of a record are complete: they come with a refresh
    token and a user email. *)
Definition completeTokens (g : AuthCodeStore.GoogleTokens) : Prop :=
  Js.truthy (AuthCodeStore.refreshToken g) = true /\
  Js.truthy (AuthCodeStore.userEmail g) = true.

(** The records of [t'] are records of [t] or hold no Google tokens or
    complete ones. *)
Definition codesFrom
    (t t' : gmap string AuthCodeStore.AuthorizationCodeData) : Prop :=
  forall code d g,
    t' !! code = Some d -> AuthCodeStore.googleTokens d = Some g ->
    t !! code = Some d \/ completeTokens g.

(** A request that writes no authorization code. *)
Definition keepsCodes {A} (m : M Store A) : Prop :=
  forall st, authCodes (store_of (m st)) = authCodes st.

End Derived.

(** ** A run of the flow, for the examples *)

Module Scenario.
Import GoogleOAuthProvider.

(** A stand-in for the SHA-256 digest where an example needs one. *)
Definition digest (v : string) : string := "sha256:" ++ v.

Definition bytesA : list byte := repeat x00 32.
Definition bytesB : list byte := repeat x01 32.
Definition bytesR : list byte := repeat xff 32.

Definition A1 : string := Base64Url.encode bytesA.
Definition A2 : string := Base64Url.encode bytesB.
Definition R1 : string := Base64Url.encode bytesR.

Definition firstCredentials : Google.Credentials :=
  Google.mkCredentials (Some "ya29.first") (Some "1//refresh") (Some 3601000).

Definition nextCredentials : Google.Credentials :=
  Google.mkCredentials (Some "ya29.next") None (Some 7201000).

(** [authorize] at instant 0 for the client [client-1], with code [C1]. *)
Definition authorized (codeChallenge : string) : Store :=
  store_of
    (authorize 0 "client-1" codeChallenge "https://app/callback" (Some "xyz")
       (Some ["contacts.readonly"; "profile"]) (inr tt) "C1" (mkStore ∅ ∅)).

(** The callback of Google one second later, with code [U1], Google
    answering within half a second. *)
Definition completed (codeChallenge : string) (email : option string)
  : Store :=
  store_of
    (handleGoogleCallback 1000 1500 "U1" "C1" (inr firstCredentials)
       (inr email) (authorized codeChallenge)).

(** The exchange of [C1] one second later, with the verifier [v]. *)
Definition issued : Store :=
  store_of
    (exchangeAuthorizationCode digest 2000 "client-1" "C1" (Some "v")
       bytesA bytesR (completed (digest "v") (Some "ada@example.com"))).

(** Two completed codes that differ in their challenge. *)
Definition twoChallenges : Store :=
  store_of
    (handleGoogleCallback 1000 1500 "U2" "C2" (inr firstCredentials)
       (inr (Some "ada@example.com"))
       (store_of
          (authorize 0 "client-1" "challenge-2" "https://app/callback"
             None None (inr tt) "C2"
             (completed "challenge-1" (Some "ada@example.com"))))).

(** The record of [C1] once completed. *)
Definition googleTokens1 : AuthCodeStore.GoogleTokens :=
  AuthCodeStore.mkGoogleTokens "ya29.first" (Some "1//refresh") 3601000
    (Some "ada@example.com").

Definition completedRecord (codeChallenge : string)
  : AuthCodeStore.AuthorizationCodeData :=
  AuthCodeStore.mkAuthorizationCodeData "client-1" codeChallenge
    "https://app/callback" (Some "xyz") (Some "U1") (Some googleTokens1)
    (Some ["contacts.readonly"; "profile"]) 0 600.

(** The session stored under [A1] by the exchange. *)
Definition issuedItem : SessionManager.Item :=
  SessionManager.stamp 2000
    (Derived.issuedSession 2000 "client-1" googleTokens1 R1).

(** Single records, for the stores taken alone. *)
Definition pendingCode : AuthCodeStore.AuthorizationCodeData :=
  AuthCodeStore.mkAuthorizationCodeData "client-1" "challenge" "https://app/callback"
    (Some "xyz") None None (Some ["contacts.readonly"]) 1000 601.


Definition someSession : SessionManager.Item :=
  SessionManager.mkItem (Some "client-1") (Some "ada@example.com") (Some "ya29.token")
    (Some "1//refresh") (Some "R1") (Some 3601000) (Some 2592002000)
    (Some "Bearer") (Some "contacts.readonly") None None None None.

End Scenario.

(** ** Definitions the further statements are written with *)

Module Observed.

(** The Google tokens [handleGoogleCallback] stores for a reply. *)
Definition callbackTokens (now : Z) (credentials : Google.Credentials)
    (email : option string) : AuthCodeStore.GoogleTokens :=
  AuthCodeStore.mkGoogleTokens
    (default "" (Google.access_token credentials))
    (Js.or_undefined (Google.refresh_token credentials))
    (GoogleOAuthProvider.googleExpiry now credentials)
    (Js.or_undefined email).

(** The status [handleGoogleAPIError] goes by:
    [error.code || error.response?.status]. *)
Definition statusOf (error : Contacts.ApiFailure)
  : option Contacts.JsValue :=
  if Contacts.truthyValue (Contacts.code error)
  then Contacts.code error
  else Contacts.responseStatus error.

End Observed.

(** * Properties *)

Import Derived.

Module JsFacts.

Lemma truthy_Some_iff (v : string) : Js.truthy (Some v) = true <-> v <> "".
Proof.
  unfold Js.truthy. destruct (String.eqb_spec v ""); simpl; split; congruence.
Qed.

Lemma truthy_is_Some (s : option string) :
  Js.truthy s = true -> exists v, s = Some v /\ v <> "".
Proof.
  destruct s as [v|]; [|discriminate].
  intros H. exists v. split; [reflexivity | now apply truthy_Some_iff].
Qed.

(** [split] and [join] on the scope strings of the server. *)
Example split_scopes :
  Js.split "contacts.readonly userinfo.email"
  = ["contacts.readonly"; "userinfo.email"].
Proof. reflexivity. Qed.

Example split_keeps_empty_pieces : Js.split "a  b" = ["a"; ""; "b"].
Proof. reflexivity. Qed.

Example split_empty : Js.split "" = [""].
Proof. reflexivity. Qed.

Example join_scopes : Js.join ["a"; "b"; "c"] = "a b c".
Proof. reflexivity. Qed.

End JsFacts.

(** ** Tokens in base64url *)

Module Base64UrlFacts.
Import Base64Url.

(** Lists taken three elements at a time. *)
Lemma list_ind3 {A} (P : list A -> Prop) :
  P [] ->
  (forall a, P [a]) ->
  (forall a b, P [a; b]) ->
  (forall a b c l, P l -> P (a :: b :: c :: l)) ->
  forall l, P l.
Proof.
  intros H0 H1 H2 H3.
  fix IH 1.
  intros [|a [|b [|c l]]];
    [exact H0 | apply H1 | apply H2 | apply H3, IH].
Qed.

Lemma digit_in_alphabet (n : N) : is_digit (digit n).
Proof.
  unfold is_digit, digit.
  destruct (nth_in_or_default (N.to_nat n) alphabet "A"%char) as [H | H].
  - exact H.
  - rewrite H. left. reflexivity.
Qed.

Lemma encodeN_all_digits (bs : list N) : all_digits (encodeN bs).
Proof.
  induction bs as [|a|a b|a b c l IH] using list_ind3; simpl;
    repeat split; auto using digit_in_alphabet.
Qed.

Lemma encode_all_digits (bs : list byte) : all_digits (encode bs).
Proof. apply encodeN_all_digits. Qed.

Lemma encode_nonempty (bs : list byte) : bs <> [] -> encode bs <> "".
Proof.
  unfold encode. destruct bs as [|a [|b [|c l]]]; simpl; congruence.
Qed.

Lemma colon_not_digit : ~ is_digit ":"%char.
Proof.
  unfold is_digit, alphabet. simpl.
  intros H. repeat (destruct H as [H | H]; [discriminate H |]). exact H.
Qed.

(** A token never collides with the key of a refresh mapping. *)
Lemma all_digits_not_refreshKey (s r : string) :
  all_digits s -> s <> SessionManager.refreshKey r.
Proof.
  intros H ->. unfold SessionManager.refreshKey in H. simpl in H.
  destruct H as (_ & _ & _ & _ & _ & _ & _ & H & _).
  exact (colon_not_digit H).
Qed.

Lemma encode_not_refreshKey (bs : list byte) (r : string) :
  encode bs <> SessionManager.refreshKey r.
Proof. apply all_digits_not_refreshKey, encode_all_digits. Qed.

Lemma randomBytes_nonempty (bs : list byte) (n : nat) :
  length bs = S n -> bs <> [].
Proof. destruct bs; simpl; congruence. Qed.

End Base64UrlFacts.

(** ** Running requests *)

Ltac run_monad :=
  unfold mbind, M_bind, mret, M_ret, throw, try_catch, await,
    onSessions, onAuthCodes, dbGet, dbPut, dbDelete in *.

(** The update of [updateAccessToken] is rejected whatever it is given. *)
Lemma dbUpdate_reserved {V : Type} (names : list string) (k : string)
    (set : V -> V) (new : V) (t : gmap string V) :
  existsb reservedWord names = true ->
  dbUpdate names k set new t = (Thrown ValidationException, t).
Proof. intros H. unfold dbUpdate. rewrite H. reflexivity. Qed.

Module SessionManagerFacts.
Import SessionManager.

Lemma getSession_eq now sessionId (t : gmap string Item) :
  getSession now sessionId t =
  match t !! sessionId with
  | None => (Returned None, t)
  | Some session =>
      if Js.lt (expiresAt session) now
      then (Returned None, delete sessionId t)
      else (Returned (Some session), t)
  end.
Proof.
  unfold getSession, deleteSession. run_monad.
  destruct (t !! sessionId) as [s|]; [|reflexivity].
  destruct (Js.lt (expiresAt s) now); reflexivity.
Qed.

(** What [getSession] returns is the stored item, and then the table is
    left as it was. *)
Lemma getSession_Some now sessionId (t t' : gmap string Item) session :
  getSession now sessionId t = (Returned (Some session), t') ->
  t' = t /\ t !! sessionId = Some session /\
  Js.lt (expiresAt session) now = false.
Proof.
  rewrite getSession_eq.
  destruct (t !! sessionId) as [s|]; [|discriminate].
  destruct (Js.lt (expiresAt s) now) eqn:E; [discriminate|].
  intros H. injection H as -> ->. auto.
Qed.

Lemma getSession_live now sessionId (t : gmap string Item) session :
  t !! sessionId = Some session ->
  Js.lt (expiresAt session) now = false ->
  getSession now sessionId t = (Returned (Some session), t).
Proof. intros H E. rewrite getSession_eq, H, E. reflexivity. Qed.

Lemma getSession_never_throws now sessionId (t : gmap string Item) :
  exists r, outcome (getSession now sessionId t) = Returned r.
Proof.
  rewrite getSession_eq. destruct (t !! sessionId) as [s|]; [|eauto].
  destruct (Js.lt (expiresAt s) now); eauto.
Qed.

Lemma saveSession_eq now sessionId sessionData (t : gmap string Item) :
  saveSession now sessionId sessionData t =
  (Returned tt,
   if Js.truthy (mcpRefreshToken sessionData)
   then <[refreshKey (default "" (mcpRefreshToken sessionData))
            := refreshMapping now sessionId]>
          (<[sessionId := stamp now sessionData]> t)
   else <[sessionId := stamp now sessionData]> t).
Proof.
  unfold saveSession. run_monad.
  destruct (Js.truthy (mcpRefreshToken sessionData)); reflexivity.
Qed.

(** DynamoDB rejects the update of [updateAccessToken]: nothing is
    written. *)
Lemma updateAccessToken_eq now sessionId token expires (t : gmap string Item) :
  updateAccessToken now sessionId token expires t
  = (Thrown ValidationException, t).
Proof. apply dbUpdate_reserved. reflexivity. Qed.

Lemma getSessionByRefreshToken_eq now token (t : gmap string Item) :
  getSessionByRefreshToken now token t =
  match t !! refreshKey token with
  | None => (Returned None, t)
  | Some mapping =>
      match accessTokenSessionId mapping with
      | Some sessionId =>
          if String.eqb sessionId ""
          then (Returned None, t)
          else
            let (r, t') := getSession now sessionId t in
            match r with
            | Returned session => (Returned (pair sessionId <$> session), t')
            | Thrown e => (Thrown e, t')
            end
      | None => (Returned None, t)
      end
  end.
Proof.
  unfold getSessionByRefreshToken. run_monad.
  destruct (t !! refreshKey token) as [m|]; [|reflexivity].
  destruct (accessTokenSessionId m) as [k|]; simpl; [|reflexivity].
  destruct (String.eqb k ""); simpl; [reflexivity|].
  destruct (getSession now k t) as [[s|e] t']; reflexivity.
Qed.

(** A refresh token resolves through its mapping to a live session. *)
Lemma getSessionByRefreshToken_Some now token (t t' : gmap string Item)
    sessionId session :
  getSessionByRefreshToken now token t
    = (Returned (Some (sessionId, session)), t') ->
  t' = t /\
  (exists mapping, t !! refreshKey token = Some mapping /\
                   accessTokenSessionId mapping = Some sessionId) /\
  sessionId <> "" /\
  t !! sessionId = Some session /\
  Js.lt (expiresAt session) now = false.
Proof.
  rewrite getSessionByRefreshToken_eq.
  destruct (t !! refreshKey token) as [m|] eqn:Hm; [|discriminate].
  destruct (accessTokenSessionId m) as [k|] eqn:Hk; [|discriminate].
  destruct (String.eqb_spec k ""); [discriminate|].
  destruct (getSession now k t) as [[s|e] t''] eqn:Hg; [|discriminate].
  destruct s as [s|]; simpl; [|discriminate].
  intros H. injection H as -> -> ->.
  apply getSession_Some in Hg as (-> & Hs & Hlive).
  repeat split; eauto.
Qed.

Lemma getSessionByRefreshToken_live now token (t : gmap string Item)
    mapping sessionId session :
  t !! refreshKey token = Some mapping ->
  accessTokenSessionId mapping = Some sessionId ->
  sessionId <> "" ->
  t !! sessionId = Some session ->
  Js.lt (expiresAt session) now = false ->
  getSessionByRefreshToken now token t
    = (Returned (Some (sessionId, session)), t).
Proof.
  intros Hm Hk Hne Hs Hlive.
  rewrite getSessionByRefreshToken_eq, Hm, Hk.
  destruct (String.eqb_spec sessionId ""); [contradiction|].
  rewrite (getSession_live _ _ _ _ Hs Hlive). reflexivity.
Qed.

Lemma extendSession_eq now sessionId days (t : gmap string Item) :
  extendSession now sessionId days t =
  (Returned tt,
   alter (withMcpTokenExpiresAt (now + days * DAY_MS)) sessionId t).
Proof. reflexivity. Qed.

End SessionManagerFacts.

Module AuthCodeStoreFacts.
Import AuthCodeStore.

Lemma getAuthCode_eq now authCode (t : gmap string AuthorizationCodeData) :
  getAuthCode now authCode t =
  match t !! authCode with
  | None => (Returned None, t)
  | Some data =>
      if Z.ltb TEN_MINUTES_MS (now - createdAt data)
      then (Returned None, delete authCode t)
      else (Returned (Some data), t)
  end.
Proof.
  unfold getAuthCode, deleteAuthCode. run_monad.
  destruct (t !! authCode) as [d|]; [|reflexivity].
  destruct (Z.ltb TEN_MINUTES_MS (now - createdAt d)); reflexivity.
Qed.

Lemma getAuthCode_live now authCode (t : gmap string AuthorizationCodeData) data :
  t !! authCode = Some data ->
  now - createdAt data <= TEN_MINUTES_MS ->
  getAuthCode now authCode t = (Returned (Some data), t).
Proof.
  intros H Hage. rewrite getAuthCode_eq, H.
  destruct (Z.ltb_spec TEN_MINUTES_MS (now - createdAt data)); [lia|reflexivity].
Qed.

Lemma getAuthCode_expired now authCode (t : gmap string AuthorizationCodeData) data :
  t !! authCode = Some data ->
  TEN_MINUTES_MS < now - createdAt data ->
  getAuthCode now authCode t = (Returned None, delete authCode t).
Proof.
  intros H Hage. rewrite getAuthCode_eq, H.
  destruct (Z.ltb_spec TEN_MINUTES_MS (now - createdAt data)); [reflexivity|lia].
Qed.

Lemma getAuthCode_absent now authCode (t : gmap string AuthorizationCodeData) :
  t !! authCode = None ->
  getAuthCode now authCode t = (Returned None, t).
Proof. intros H. rewrite getAuthCode_eq, H. reflexivity. Qed.


(** ** C9 *)



End AuthCodeStoreFacts.

(** ** The durable time to live of sessions *)

Module SessionTtl.
Import SessionManager SessionManagerFacts.

(** The half of C10 that holds.  Whatever session data [saveSession] is
    given, the item it leaves under the session id carries
    [ttl = floor(now / 1000) + 90 days] (in seconds); when the data has a
    (non-empty) MCP refresh token, the mapping stored under
    ['refresh:' + token] points at the session and carries the same
    [ttl]; no item written carries another one.  The value is a function
    of [now] alone: neither [expiresAt] nor [mcpTokenExpiresAt] enters
    it. *)
Lemma saveSession_ttl_is_ninety_days
    now sessionId sessionData (t : gmap string Item) :
  let ninety_days_on := now / 1000 + 90 * 24 * 60 * 60 in
  let saved := store_of (saveSession now sessionId sessionData t) in
  (exists item, saved !! sessionId = Some item /\
                ttl item = Some ninety_days_on) /\
  (forall r, mcpRefreshToken sessionData = Some r -> r <> "" ->
     exists mapping, saved !! refreshKey r = Some mapping /\
       accessTokenSessionId mapping = Some sessionId /\
       ttl mapping = Some ninety_days_on) /\
  (forall k item, saved !! k = Some item -> t !! k <> Some item ->
     ttl item = Some ninety_days_on).
Proof.
  intros T saved. subst saved.
  rewrite saveSession_eq. unfold store_of. simpl.
  split; [|split].
  - destruct (Js.truthy (mcpRefreshToken sessionData)).
    + destruct (decide (refreshKey (default "" (mcpRefreshToken sessionData))
                        = sessionId)) as [E | E].
      * rewrite E, lookup_insert_eq. eexists. split; reflexivity.
      * rewrite lookup_insert_ne, lookup_insert_eq by exact E.
        eexists. split; reflexivity.
    + rewrite lookup_insert_eq. eexists. split; reflexivity.
  - intros r Hr Hne. rewrite Hr.
    apply JsFacts.truthy_Some_iff in Hne. rewrite Hne. simpl.
    rewrite lookup_insert_eq. eexists. repeat split.
  - intros k item Hk Hold.
    destruct (Js.truthy (mcpRefreshToken sessionData)).
    + rewrite lookup_insert in Hk. case_decide.
      * injection Hk as <-. reflexivity.
      * rewrite lookup_insert in Hk. case_decide.
        -- injection Hk as <-. reflexivity.
        -- contradiction.
    + rewrite lookup_insert in Hk. case_decide.
      * injection Hk as <-. reflexivity.
      * contradiction.
Qed.

(** The other half fails for every call: the update names the reserved
    word [ttl], DynamoDB rejects it, and the table is what it was. *)
Lemma updateAccessToken_writes_nothing
    now sessionId token expires (t : gmap string Item) :
  outcome (updateAccessToken now sessionId token expires t)
    = Thrown ValidationException /\
  store_of (updateAccessToken now sessionId token expires t) = t.
Proof. rewrite updateAccessToken_eq. split; reflexivity. Qed.

(** C10: the code at the failing input.  A session saved at 2 s carries
    the [ttl] of 2 s plus 90 days.  One hour later [updateAccessToken] is
    called on it with a new Google token: the call throws, the session
    keeps the Google token, the expiry and the [ttl] it had, and the
    [ttl] of one hour plus 90 days that the call was to set is
    nowhere. *)
Theorem updateAccessToken_does_not_extend_ttl :
  let saved := store_of (saveSession 2000 "A1" Scenario.someSession ∅) in
  let r := updateAccessToken 3602000 "A1" "ya29.next" 7201000 saved in
  (exists item, saved !! "A1" = Some item /\ ttl item = Some 7776002) /\
  outcome r = Thrown ValidationException /\
  store_of r = saved /\
  (exists item,
     store_of r !! "A1" = Some item /\
     accessToken item = Some "ya29.token" /\
     expiresAt item = Some 3601000 /\
     ttl item = Some 7776002) /\
  (forall k item, store_of r !! k = Some item -> ttl item <> Some 7779602).
Proof.
  intros saved r.
  split; [eexists; split; reflexivity|].
  split; [reflexivity|]. split; [reflexivity|].
  split; [eexists; repeat split; reflexivity|].
  intros k item Hk.
  change (store_of r) with saved in Hk. subst saved.
  rewrite saveSession_eq in Hk. unfold store_of in Hk. simpl in Hk.
  rewrite lookup_insert in Hk. case_decide.
  - injection Hk as <-. discriminate.
  - rewrite lookup_insert in Hk. case_decide; [|discriminate].
    injection Hk as <-. discriminate.
Qed.

End SessionTtl.

(** ** The stores the provider can reach *)

Module Reachability.
Import GoogleOAuthProvider AuthCodeStoreFacts SessionManagerFacts.

Lemma codesFrom_refl t : codesFrom t t.
Proof. intros code d g H _. left. exact H. Qed.

Lemma codesFrom_delete t code : codesFrom t (delete code t).
Proof.
  intros k d g H _. left. apply lookup_delete_Some in H as [_ H]. exact H.
Qed.

Lemma getAuthCode_codesFrom now authCode
    (t : gmap string AuthCodeStore.AuthorizationCodeData) :
  exists found,
    outcome (AuthCodeStore.getAuthCode now authCode t) = Returned found /\
    codesFrom t (store_of (AuthCodeStore.getAuthCode now authCode t)) /\
    (forall d, found = Some d ->
       AuthCodeStore.getAuthCode now authCode t = (Returned (Some d), t) /\
       t !! authCode = Some d).
Proof.
  rewrite getAuthCode_eq. destruct (t !! authCode) as [d|] eqn:Hd.
  - destruct (Z.ltb _ _).
    + exists None. split; [reflexivity|].
      split; [apply codesFrom_delete | discriminate].
    + exists (Some d). split; [reflexivity|].
      split; [apply codesFrom_refl|].
      intros d' H. injection H as <-. auto.
  - exists None. split; [reflexivity|].
    split; [apply codesFrom_refl | discriminate].
Qed.

Lemma keeps_onSessions {A} (m : M (gmap string SessionManager.Item) A) :
  keepsCodes (onSessions m).
Proof.
  intros st. unfold onSessions, store_of. destruct (m (sessions st)).
  reflexivity.
Qed.

Lemma keeps_ret {A} (a : A) : keepsCodes (mret a).
Proof. intros st. reflexivity. Qed.

Lemma keeps_throw {A} (e : Error) : keepsCodes (@throw Store A e).
Proof. intros st. reflexivity. Qed.

Lemma keeps_await {A} (reply : UpstreamFailure + A) :
  keepsCodes (@await Store A reply).
Proof. intros st. destruct reply; reflexivity. Qed.

Lemma keeps_bind {A B} (m : M Store A) (k : A -> M Store B) :
  keepsCodes m -> (forall a, keepsCodes (k a)) -> keepsCodes (m ≫= k).
Proof.
  intros Hm Hk st. specialize (Hm st). unfold store_of in *.
  unfold mbind, M_bind. destruct (m st) as [[a | e] st']; simpl in *.
  - rewrite <- Hm. apply Hk.
  - exact Hm.
Qed.

Lemma keeps_try {A} (m : M Store A) (h : Error -> M Store A) :
  keepsCodes m -> (forall e, keepsCodes (h e)) -> keepsCodes (try_catch m h).
Proof.
  intros Hm Hh st. specialize (Hm st). unfold store_of in *.
  unfold try_catch. destruct (m st) as [[a | e] st']; simpl in *.
  - exact Hm.
  - rewrite <- Hm. apply Hh.
Qed.

Ltac keeps_codes :=
  cbv zeta;
  repeat first
    [ apply keeps_onSessions | apply keeps_ret | apply keeps_throw
    | apply keeps_await
    | apply keeps_bind; [|intros ?]
    | apply keeps_try; [|intros ?]
    | match goal with
      | |- keepsCodes (match ?x with _ => _ end) => destruct x
      end ].

Lemma exchangeRefreshToken_authCodes now refreshToken refreshed ab st :
  authCodes (store_of (exchangeRefreshToken now refreshToken refreshed ab st))
  = authCodes st.
Proof.
  revert st. change (keepsCodes (exchangeRefreshToken now refreshToken
                                   refreshed ab)).
  unfold exchangeRefreshToken. keeps_codes.
Qed.

Lemma verifyAccessToken_authCodes now token refreshed st :
  authCodes (store_of (verifyAccessToken now token refreshed st))
  = authCodes st.
Proof.
  revert st. change (keepsCodes (verifyAccessToken now token refreshed)).
  unfold verifyAccessToken. keeps_codes.
Qed.

Lemma revokeToken_authCodes now token revoked st :
  authCodes (store_of (revokeToken now token revoked st)) = authCodes st.
Proof.
  revert st. change (keepsCodes (revokeToken now token revoked)).
  unfold revokeToken. keeps_codes.
Qed.

Lemma is_Some_or_undefined (x : option string) :
  bool_decide (is_Some (Js.or_undefined x)) = Js.truthy x.
Proof.
  unfold Js.or_undefined. destruct (Js.truthy x) eqn:E.
  - apply bool_decide_eq_true. apply JsFacts.truthy_is_Some in E as (v & -> & _).
    eexists. reflexivity.
  - apply bool_decide_eq_false. intros [v H]. discriminate H.
Qed.

(** The ways [updateWithTokensLiteral] ends. *)
Lemma updateWithTokensLiteral_eq now authCode googleCode tokens
    (t : gmap string AuthCodeStore.AuthorizationCodeData) :
  updateWithTokensLiteral now authCode googleCode tokens t =
  match t !! authCode with
  | None => (Thrown AuthorizationCodeNotFoundOrExpired, t)
  | Some d =>
      if Z.ltb AuthCodeStore.TEN_MINUTES_MS (now - AuthCodeStore.createdAt d)
      then (Thrown AuthorizationCodeNotFoundOrExpired, delete authCode t)
      else
        if bool_decide (is_Some (AuthCodeStore.refreshToken tokens))
           && bool_decide (is_Some (AuthCodeStore.userEmail tokens))
        then (Returned tt,
              <[authCode := AuthCodeStore.withGoogleTokens googleCode tokens d]>
                t)
        else (Thrown UndefinedValue, t)
  end.
Proof.
  unfold updateWithTokensLiteral, AuthCodeStore.updateWithGoogleTokens.
  destruct (_ && _); run_monad; rewrite getAuthCode_eq;
    (destruct (t !! authCode) as [d|]; [|reflexivity]);
    destruct (Z.ltb _ _); reflexivity.
Qed.

(** The ways [handleGoogleCallback] ends. *)
Lemma handleGoogleCallback_eq now later code state tokens userEmail st :
  handleGoogleCallback now later code state tokens userEmail st =
  match authCodes st !! state with
  | None => (Thrown InvalidStateParameter, st)
  | Some d =>
      if Z.ltb AuthCodeStore.TEN_MINUTES_MS (now - AuthCodeStore.createdAt d)
      then (Thrown InvalidStateParameter,
            mkStore (sessions st) (delete state (authCodes st)))
      else
        match tokens with
        | inl f => (Thrown (Rejected f), st)
        | inr credentials =>
            if Js.truthy (Google.access_token credentials)
            then
              match userEmail with
              | inl f => (Thrown (Rejected f), st)
              | inr email =>
                  if Z.ltb AuthCodeStore.TEN_MINUTES_MS
                       (later - AuthCodeStore.createdAt d)
                  then (Thrown AuthorizationCodeNotFoundOrExpired,
                        mkStore (sessions st) (delete state (authCodes st)))
                  else
                    if Js.truthy (Google.refresh_token credentials)
                       && Js.truthy email
                    then
                      (Returned tt,
                       mkStore (sessions st)
                         (<[state := AuthCodeStore.withGoogleTokens code
                                       (Observed.callbackTokens later
                                          credentials email) d]>
                            (authCodes st)))
                    else (Thrown UndefinedValue, st)
              end
            else (Thrown NoAccessTokenReceivedFromGoogle, st)
        end
  end.
Proof.
  unfold handleGoogleCallback. run_monad. rewrite getAuthCode_eq.
  destruct st as [ss cs]. simpl.
  destruct (cs !! state) as [d|] eqn:Hd; [|reflexivity].
  destruct (Z.ltb _ (now - _)); simpl; [reflexivity|].
  destruct tokens as [f | c]; simpl; [reflexivity|].
  destruct (Js.truthy (Google.access_token c)); simpl; [|reflexivity].
  destruct userEmail as [f | email]; simpl; [reflexivity|].
  rewrite updateWithTokensLiteral_eq, Hd. simpl.
  rewrite !is_Some_or_undefined.
  destruct (Z.ltb _ (later - _)); simpl; [reflexivity|].
  destruct (Js.truthy (Google.refresh_token c) && Js.truthy email);
    reflexivity.
Qed.

(** What [handleGoogleCallback] leaves in the table of codes: the table
    as it was, or without the record of the state, or with that record
    completed by tokens that have a refresh token and an email. *)
Lemma handleGoogleCallback_codesFrom now later code state tokens userEmail st :
  codesFrom (authCodes st)
    (authCodes (store_of (handleGoogleCallback now later code state tokens
                            userEmail st))).
Proof.
  rewrite handleGoogleCallback_eq. unfold store_of.
  destruct (authCodes st !! state) as [d|] eqn:Hd; [|apply codesFrom_refl].
  destruct (Z.ltb _ (now - _)); [apply codesFrom_delete|].
  destruct tokens as [f | c]; [apply codesFrom_refl|].
  destruct (Js.truthy (Google.access_token c)); [|apply codesFrom_refl].
  destruct userEmail as [f | email]; [apply codesFrom_refl|].
  destruct (Z.ltb _ (later - _)); [apply codesFrom_delete|].
  destruct (Js.truthy (Google.refresh_token c)) eqn:Hr;
    [|apply codesFrom_refl].
  destruct (Js.truthy email) eqn:He; [|apply codesFrom_refl].
  simpl. intros k x g Hk Hg.
  apply lookup_insert_Some in Hk as [[<- <-] | [_ Hk]]; [|left; exact Hk].
  right. simpl in Hg. injection Hg as <-.
  split; simpl; unfold Js.or_undefined; [rewrite Hr | rewrite He]; assumption.
Qed.

Section WithDigest.
Variable sha256_b64url : string -> string.

Lemma exchangeAuthorizationCode_codesFrom
    now client_id code codeVerifier ab rb st :
  codesFrom (authCodes st)
    (authCodes (store_of (exchangeAuthorizationCode sha256_b64url now
                            client_id code codeVerifier ab rb st))).
Proof.
  unfold exchangeAuthorizationCode, store_of. run_monad.
  destruct (getAuthCode_codesFrom now code (authCodes st))
    as (found & Hout & Hfrom & _).
  destruct (AuthCodeStore.getAuthCode now code (authCodes st)) as [o t1].
  unfold outcome, store_of in *. simpl in *. subst o.
  destruct found as [d|]; simpl; [|exact Hfrom].
  destruct (negb _); simpl; [exact Hfrom|].
  destruct (AuthCodeStore.googleTokens d) as [g|]; simpl; [|exact Hfrom].
  destruct (negb _); simpl; [exact Hfrom|].
  assert (Hdel : codesFrom (authCodes st) (delete code t1)).
  { intros k x y Hk Hy. apply lookup_delete_Some in Hk as [_ Hk].
    exact (Hfrom k x y Hk Hy). }
  destruct (Js.truthy (AuthCodeStore.userEmail g)); simpl.
  - rewrite saveSession_eq. simpl. exact Hdel.
  - exact Hdel.
Qed.

(** In every store the provider can leave behind, the Google tokens of
    a record are complete: [handleGoogleCallback], the only code that
    writes them, throws while storing tokens that lack a refresh token
    or an email. *)
Lemma reachable_tokens_are_complete st code d g :
  Reachable sha256_b64url st ->
  authCodes st !! code = Some d ->
  AuthCodeStore.googleTokens d = Some g ->
  completeTokens g.
Proof.
  intros Hreach. revert code d g.
  induction Hreach as
    [ | now client_id codeChallenge redirectUri state scopes oauth2Client
        authCode st _ IH
      | now client_id authorizationCode st _ IH
      | now later gcode state tokens userEmail st _ IH
      | now authCode st _ IH
      | now client_id authorizationCode codeVerifier ab rb st _ IH
      | now refreshToken refreshed ab st _ IH
      | now token refreshed st _ IH
      | now token revoked st _ IH ];
    intros code d g Hd Hg.
  - simpl in Hd. rewrite lookup_empty in Hd. discriminate.
  - unfold authorize, AuthCodeStore.saveAuthCode, store_of in Hd.
    run_monad. destruct oauth2Client as [f | []]; simpl in Hd.
    + exact (IH code d g Hd Hg).
    + apply lookup_insert_Some in Hd as [[_ <-] | [_ Hd]];
        [discriminate Hg | exact (IH code d g Hd Hg)].
  - unfold challengeForAuthorizationCode, store_of in Hd. run_monad.
    destruct (getAuthCode_codesFrom now authorizationCode (authCodes st))
      as (found & Hout & Hfrom & _).
    destruct (AuthCodeStore.getAuthCode now authorizationCode (authCodes st))
      as [o t1].
    unfold outcome, store_of in *. simpl in *. subst o.
    assert (Ht1 : t1 !! code = Some d).
    { destruct found as [x|]; simpl in Hd; [|exact Hd].
      destruct (negb _); exact Hd. }
    destruct (Hfrom code d g Ht1 Hg) as [H | H];
      [exact (IH code d g H Hg) | exact H].
  - destruct (handleGoogleCallback_codesFrom now later gcode state tokens
                userEmail st code d g Hd Hg) as [H | H];
      [exact (IH code d g H Hg) | exact H].
  - unfold getAuthCodeData, store_of in Hd. run_monad.
    destruct (getAuthCode_codesFrom now authCode (authCodes st))
      as (found & Hout & Hfrom & _).
    destruct (AuthCodeStore.getAuthCode now authCode (authCodes st))
      as [o t1].
    unfold outcome, store_of in *. simpl in *.
    destruct (Hfrom code d g Hd Hg) as [H | H];
      [exact (IH code d g H Hg) | exact H].
  - destruct (exchangeAuthorizationCode_codesFrom now client_id
                authorizationCode codeVerifier ab rb st code d g Hd Hg)
      as [H | H];
      [exact (IH code d g H Hg) | exact H].
  - rewrite exchangeRefreshToken_authCodes in Hd. exact (IH code d g Hd Hg).
  - rewrite verifyAccessToken_authCodes in Hd. exact (IH code d g Hd Hg).
  - rewrite revokeToken_authCodes in Hd. exact (IH code d g Hd Hg).
Qed.

End WithDigest.

End Reachability.

(** ** The exchange of an authorization code *)

Module ExchangeCode.
Import GoogleOAuthProvider.

Section WithDigest.
Variable sha256_b64url : string -> string.

Lemma pkceAccepted_iff (codeVerifier : option string) (codeChallenge : string) :
  pkceAccepted sha256_b64url codeVerifier codeChallenge = true <->
  Js.truthy codeVerifier = false \/
  exists v, codeVerifier = Some v /\ sha256_b64url v = codeChallenge.
Proof.
  unfold pkceAccepted.
  destruct (Js.truthy codeVerifier) eqn:E.
  - apply JsFacts.truthy_is_Some in E as (v & -> & _). simpl.
    rewrite String.eqb_eq. split.
    + intros H. right. eauto.
    + intros [H | (v' & Hv & H)]; [discriminate | congruence].
  - split; auto.
Qed.

(** An unknown code: the exchange throws and writes nothing. *)
Lemma exchange_unknown_code now client_id code codeVerifier ab rb st :
  authCodes st !! code = None ->
  exchangeAuthorizationCode sha256_b64url now client_id code codeVerifier
    ab rb st
  = (Thrown InvalidAuthorizationCode, st).
Proof.
  intros H. unfold exchangeAuthorizationCode. run_monad.
  rewrite (AuthCodeStoreFacts.getAuthCode_absent _ _ _ H).
  destruct st; reflexivity.
Qed.

(** The exchange on a live record of the client, up to the PKCE check. *)
Lemma exchange_live_code now client_id code codeVerifier ab rb st d g :
  authCodes st !! code = Some d ->
  now - AuthCodeStore.createdAt d <= AuthCodeStore.TEN_MINUTES_MS ->
  AuthCodeStore.clientId d = client_id ->
  AuthCodeStore.googleTokens d = Some g ->
  exchangeAuthorizationCode sha256_b64url now client_id code codeVerifier
    ab rb st
  = if pkceAccepted sha256_b64url codeVerifier (AuthCodeStore.codeChallenge d)
    then
      (Returned
         (mkOAuthTokens (Base64Url.encode ab) "Bearer" (30 * 24 * 60 * 60)
            (Some (Base64Url.encode rb))
            (Js.join <$> AuthCodeStore.scopes d)),
       mkStore
         (if Js.truthy (AuthCodeStore.userEmail g)
          then store_of
                 (SessionManager.saveSession now (Base64Url.encode ab)
                    (issuedSession now client_id g (Base64Url.encode rb))
                    (sessions st))
          else sessions st)
         (delete code (authCodes st)))
    else (Thrown InvalidCodeVerifier, st).
Proof.
  intros Hd Hage Hclient Hg.
  unfold exchangeAuthorizationCode. run_monad.
  rewrite (AuthCodeStoreFacts.getAuthCode_live _ _ _ _ Hd Hage).
  rewrite Hclient, String.eqb_refl, Hg. simpl.
  destruct (pkceAccepted _ _ _); simpl.
  - destruct (Js.truthy (AuthCodeStore.userEmail g)); simpl;
      rewrite ?SessionManagerFacts.saveSession_eq; reflexivity.
  - destruct st; reflexivity.
Qed.

(** Whatever the record, a supplied non-empty verifier whose digest is not
    the stored challenge makes the exchange throw. *)
Lemma exchange_digest_mismatch_throws
    now client_id code v ab rb st d :
  v <> "" ->
  authCodes st !! code = Some d ->
  sha256_b64url v <> AuthCodeStore.codeChallenge d ->
  exists e,
    outcome (exchangeAuthorizationCode sha256_b64url now client_id code
               (Some v) ab rb st) = Thrown e.
Proof.
  intros Hv Hd Hne.
  unfold exchangeAuthorizationCode. run_monad.
  rewrite AuthCodeStoreFacts.getAuthCode_eq, Hd.
  destruct (Z.ltb _ _); simpl; [eauto|].
  destruct (String.eqb _ client_id); simpl; [|eauto].
  destruct (AuthCodeStore.googleTokens d); simpl; [|eauto].
  unfold pkceAccepted.
  apply JsFacts.truthy_Some_iff in Hv. rewrite Hv. simpl.
  apply String.eqb_neq in Hne. rewrite Hne. simpl. eauto.
Qed.

End WithDigest.

End ExchangeCode.

(** ** Claims on the exchange of an authorization code *)

Module ExchangeClaims.
Import GoogleOAuthProvider ExchangeCode.

(** Google tokens never reach a record without a user email: the
    callback of Google that brings none throws, and the record stays
    without tokens, so that the exchange of its code is refused. *)
Lemma callback_without_email_stores_no_tokens :
  handleGoogleCallback 1000 1500 "U1" "C1" (inr Scenario.firstCredentials)
    (inr None) (Scenario.authorized "challenge-1")
  = (Thrown UndefinedValue, Scenario.authorized "challenge-1") /\
  forall sha256_b64url : string -> string,
    exchangeAuthorizationCode sha256_b64url 2000 "client-1" "C1" None
      Scenario.bytesA Scenario.bytesR (Scenario.completed "challenge-1" None)
    = (Thrown GoogleAuthenticationNotCompleted,
       Scenario.authorized "challenge-1").
Proof. split; [reflexivity | intros sha; reflexivity]. Qed.

(** C3. In a store that the provider can have left behind, for a record
    that the lookup of the code returns (stored, and not older than ten
    minutes), whose Google tokens are present, whose client is the
    requesting one and whose verifier, when supplied, has the stored
    challenge as digest, the exchange returns the pair made of a new
    access token and a new refresh token (the base64url of the random
    bytes drawn) with the granted scopes joined by spaces; the sessions
    table then holds, under the new access token, the session of the
    client with the Google tokens of the record, the new refresh token
    and a downstream expiry of [now] plus 30 days, and under
    ['refresh:' + refresh token] the mapping to it; the record of the code
    is deleted and no other code is touched. *)
Theorem exchange_issues_session
    (sha256_b64url : string -> string) now client_id code codeVerifier
    ab rb st d g :
  Reachable sha256_b64url st ->
  authCodes st !! code = Some d ->
  now - AuthCodeStore.createdAt d <= 10 * 60 * 1000 ->
  AuthCodeStore.clientId d = client_id ->
  AuthCodeStore.googleTokens d = Some g ->
  (forall v, codeVerifier = Some v ->
             sha256_b64url v = AuthCodeStore.codeChallenge d) ->
  length rb = 32%nat ->
  let accessToken := Base64Url.encode ab in
  let mcpRefreshToken := Base64Url.encode rb in
  let r := exchangeAuthorizationCode sha256_b64url now client_id code
             codeVerifier ab rb st in
  outcome r
    = Returned (mkOAuthTokens accessToken "Bearer" (30 * 24 * 60 * 60)
                  (Some mcpRefreshToken)
                  (Js.join <$> AuthCodeStore.scopes d)) /\
  sessions (store_of r) !! accessToken
    = Some (SessionManager.stamp now
              (issuedSession now client_id g mcpRefreshToken)) /\
  sessions (store_of r) !! SessionManager.refreshKey mcpRefreshToken
    = Some (SessionManager.refreshMapping now accessToken) /\
  authCodes (store_of r) !! code = None /\
  (forall other, other <> code ->
     authCodes (store_of r) !! other = authCodes st !! other).
Proof.
  intros Hreach Hd Hage Hclient Hg Hpkce Hrb accessToken mcpRefreshToken r.
  destruct (Reachability.reachable_tokens_are_complete sha256_b64url
              st code d g Hreach Hd Hg) as [_ Hemail].
  assert (Hacc : pkceAccepted sha256_b64url codeVerifier
                   (AuthCodeStore.codeChallenge d) = true).
  { apply pkceAccepted_iff.
    destruct (Js.truthy codeVerifier) eqn:E; [right | left; reflexivity].
    apply JsFacts.truthy_is_Some in E as (v & -> & _). eauto. }
  subst r. rewrite (exchange_live_code _ _ _ _ _ _ _ _ _ _ Hd Hage Hclient Hg).
  rewrite Hacc, Hemail, SessionManagerFacts.saveSession_eq.
  assert (Hne : mcpRefreshToken <> "").
  { apply Base64UrlFacts.encode_nonempty.
    eapply Base64UrlFacts.randomBytes_nonempty, Hrb. }
  apply JsFacts.truthy_Some_iff in Hne.
  change (SessionManager.mcpRefreshToken
            (issuedSession now client_id g (Base64Url.encode rb)))
    with (Some mcpRefreshToken).
  rewrite Hne. unfold outcome, store_of. cbn [fst snd sessions authCodes default].
  split; [reflexivity|]. split; [|split; [|split]].
  - rewrite lookup_insert_ne, lookup_insert_eq; [reflexivity|].
    intros E. symmetry in E.
    exact (Base64UrlFacts.encode_not_refreshKey _ _ E).
  - rewrite lookup_insert_eq. reflexivity.
  - apply lookup_delete_eq.
  - intros other Hother. apply lookup_delete_ne. congruence.
Qed.

Lemma exchange_issues_session_witness :
  let r := exchangeAuthorizationCode Scenario.digest 2000 "client-1" "C1"
             (Some "v") Scenario.bytesA Scenario.bytesR
             (Scenario.completed (Scenario.digest "v")
                (Some "ada@example.com")) in
  outcome r
    = Returned (mkOAuthTokens Scenario.A1 "Bearer" 2592000
                  (Some Scenario.R1) (Some "contacts.readonly profile")) /\
  (exists session,
     sessions (store_of r) !! Scenario.A1 = Some session /\
     SessionManager.userEmail session = Some "ada@example.com" /\
     SessionManager.mcpTokenExpiresAt session = Some 2592002000) /\
  authCodes (store_of r) !! "C1" = None.
Proof.
  intros r.
  destruct (exchange_issues_session Scenario.digest 2000 "client-1" "C1"
              (Some "v") Scenario.bytesA Scenario.bytesR
              (Scenario.completed (Scenario.digest "v")
                 (Some "ada@example.com"))
              (Scenario.completedRecord (Scenario.digest "v"))
              Scenario.googleTokens1)
    as (Hout & Hsession & _ & Hcode & _).
  - apply reach_callback, reach_authorize, reach_empty.
  - reflexivity.
  - vm_compute. discriminate.
  - reflexivity.
  - reflexivity.
  - intros v Hv. injection Hv as <-. reflexivity.
  - reflexivity.
  - split; [exact Hout|]. split; [|exact Hcode].
    eexists. split; [exact Hsession|]. split; reflexivity.
Defined.

(** C6. When the record of a code is stored, not older than ten minutes,
    completed with Google tokens and owned by the requesting client, and
    the digest of the verifier is the stored challenge, the exchange
    succeeds; it leaves no record under the code, so every later lookup
    of the code finds nothing and every later exchange of the same code,
    whatever its other arguments, throws 'Invalid authorization code'
    and changes nothing. *)
Theorem exchange_succeeds_exactly_once
    (sha256_b64url : string -> string) now client_id code v ab rb st d g :
  authCodes st !! code = Some d ->
  now - AuthCodeStore.createdAt d <= 10 * 60 * 1000 ->
  AuthCodeStore.clientId d = client_id ->
  AuthCodeStore.googleTokens d = Some g ->
  sha256_b64url v = AuthCodeStore.codeChallenge d ->
  exists tokens st1,
    exchangeAuthorizationCode sha256_b64url now client_id code (Some v)
      ab rb st = (Returned tokens, st1) /\
    authCodes st1 !! code = None /\
    (forall later,
       AuthCodeStore.getAuthCode later code (authCodes st1)
       = (Returned None, authCodes st1)) /\
    (forall later client_id' codeVerifier' ab' rb',
       exchangeAuthorizationCode sha256_b64url later client_id' code
         codeVerifier' ab' rb' st1
       = (Thrown InvalidAuthorizationCode, st1)).
Proof.
  intros Hd Hage Hclient Hg Hdigest.
  rewrite (exchange_live_code _ _ _ _ _ _ _ _ _ _ Hd Hage Hclient Hg).
  assert (Hacc : pkceAccepted sha256_b64url (Some v)
                   (AuthCodeStore.codeChallenge d) = true).
  { apply pkceAccepted_iff.
    destruct (Js.truthy (Some v)); [right; eauto | left; reflexivity]. }
  rewrite Hacc. eexists. eexists. split; [reflexivity|].
  assert (Hgone : delete code (authCodes st) !! code = None)
    by apply lookup_delete_eq.
  split; [exact Hgone|]. split.
  - intros later. simpl.
    apply AuthCodeStoreFacts.getAuthCode_absent, Hgone.
  - intros later client_id' codeVerifier' ab' rb'.
    apply exchange_unknown_code. exact Hgone.
Qed.

Lemma exchange_succeeds_exactly_once_witness :
  exists tokens st1,
    exchangeAuthorizationCode Scenario.digest 2000 "client-1" "C1"
      (Some "v") Scenario.bytesA Scenario.bytesR
      (Scenario.completed (Scenario.digest "v") (Some "ada@example.com"))
    = (Returned tokens, st1) /\
    exchangeAuthorizationCode Scenario.digest 3000 "client-1" "C1"
      (Some "v") Scenario.bytesB Scenario.bytesR st1
    = (Thrown InvalidAuthorizationCode, st1).
Proof.
  destruct (exchange_succeeds_exactly_once Scenario.digest 2000 "client-1"
              "C1" "v" Scenario.bytesA Scenario.bytesR
              (Scenario.completed (Scenario.digest "v")
                 (Some "ada@example.com"))
              (Scenario.completedRecord (Scenario.digest "v"))
              Scenario.googleTokens1)
    as (tokens & st1 & Hfirst & _ & _ & Hsecond).
  - reflexivity.
  - vm_compute. discriminate.
  - reflexivity.
  - reflexivity.
  - reflexivity.
  - exists tokens, st1. split; [exact Hfirst | apply Hsecond].
Defined.

End ExchangeClaims.

(** ** The PKCE check of the exchange *)

Module PkceClaims.
Import GoogleOAuthProvider ExchangeCode.

(** C8, as stated, fails for the empty verifier: [if (codeVerifier)]
    skips the check.  The store holds two completed codes whose
    challenges differ, so, whatever the digest function is, the digest of
    the empty verifier differs from the challenge of one of them; that
    code is exchanged all the same. *)
Lemma exchange_accepts_empty_verifier :
  exists st : Store,
    forall sha256_b64url : string -> string,
    exists code d tokens st',
      authCodes st !! code = Some d /\
      sha256_b64url "" <> AuthCodeStore.codeChallenge d /\
      pkceAccepted sha256_b64url (Some "") (AuthCodeStore.codeChallenge d)
        = true /\
      exchangeAuthorizationCode sha256_b64url 2000 "client-1" code (Some "")
        Scenario.bytesA Scenario.bytesR st
      = (Returned tokens, st').
Proof.
  exists Scenario.twoChallenges. intros sha.
  destruct (String.eqb_spec (sha "") "challenge-1") as [E | E].
  - exists "C2". eexists. eexists. eexists.
    split; [reflexivity|]. split; [|split; [reflexivity|]].
    + simpl. rewrite E. discriminate.
    + vm_compute. reflexivity.
  - exists "C1". eexists. eexists. eexists.
    split; [reflexivity|]. split; [|split; [reflexivity|]].
    + simpl. exact E.
    + vm_compute. reflexivity.
Qed.

(** C8 (amended). Whenever a non-empty code verifier is supplied, the
    PKCE check passes exactly when the SHA-256/base64url digest of the
    verifier is the challenge stored with the record of the code; an
    empty verifier is treated as not supplied, and passes.  If the
    verifier is not empty and the two differ, the exchange throws,
    whatever else holds of the record; for a record not older than ten
    minutes, completed and owned by the requesting client, the error is
    'Invalid code verifier' and the store is unchanged, while if the check
    passes the exchange returns tokens. *)
Theorem pkce_check_of_nonempty_verifier
    (sha256_b64url : string -> string) now client_id code v ab rb st d :
  authCodes st !! code = Some d ->
  let challenge := AuthCodeStore.codeChallenge d in
  let r := exchangeAuthorizationCode sha256_b64url now client_id code
             (Some v) ab rb st in
  (pkceAccepted sha256_b64url (Some v) challenge = true
   <-> v = "" \/ sha256_b64url v = challenge) /\
  (v <> "" -> sha256_b64url v <> challenge ->
   exists e, outcome r = Thrown e) /\
  (now - AuthCodeStore.createdAt d <= 10 * 60 * 1000 ->
   AuthCodeStore.clientId d = client_id ->
   is_Some (AuthCodeStore.googleTokens d) ->
   (v <> "" -> sha256_b64url v <> challenge ->
    r = (Thrown InvalidCodeVerifier, st)) /\
   (v = "" \/ sha256_b64url v = challenge ->
    exists tokens, outcome r = Returned tokens)).
Proof.
  intros Hd challenge r.
  assert (Hiff : pkceAccepted sha256_b64url (Some v) challenge = true
                 <-> v = "" \/ sha256_b64url v = challenge).
  { unfold pkceAccepted, Js.truthy.
    destruct (String.eqb_spec v "") as [E | E]; simpl.
    - split; auto.
    - rewrite String.eqb_eq. split; [auto | intros [H | H]; congruence]. }
  split; [exact Hiff|]. split.
  - intros Hv Hne. subst r.
    eapply exchange_digest_mismatch_throws; eassumption.
  - intros Hage Hclient [g Hg]. subst r.
    rewrite (exchange_live_code _ _ _ _ _ _ _ _ _ _ Hd Hage Hclient Hg).
    fold challenge. split.
    + intros Hv Hne.
      destruct (pkceAccepted _ _ _); [|reflexivity].
      exfalso. destruct Hiff as [Hiff _].
      destruct (Hiff eq_refl); contradiction.
    + intros Hpass. apply Hiff in Hpass. rewrite Hpass.
      eexists. reflexivity.
Qed.

Lemma pkce_check_of_nonempty_verifier_witness :
  let st := Scenario.completed (Scenario.digest "v")
              (Some "ada@example.com") in
  exchangeAuthorizationCode Scenario.digest 2000 "client-1" "C1"
    (Some "w") Scenario.bytesA Scenario.bytesR st
  = (Thrown InvalidCodeVerifier, st) /\
  exists tokens,
    outcome (exchangeAuthorizationCode Scenario.digest 2000 "client-1" "C1"
               (Some "v") Scenario.bytesA Scenario.bytesR st)
    = Returned tokens.
Proof.
  intros st.
  pose (d := Scenario.completedRecord (Scenario.digest "v")).
  split.
  - destruct (pkce_check_of_nonempty_verifier Scenario.digest 2000
                "client-1" "C1" "w" Scenario.bytesA Scenario.bytesR st d)
      as (_ & _ & H); [reflexivity |].
    destruct H as (Hmismatch & _);
      [vm_compute; discriminate | reflexivity | eexists; reflexivity |].
    apply Hmismatch; discriminate.
  - destruct (pkce_check_of_nonempty_verifier Scenario.digest 2000
                "client-1" "C1" "v" Scenario.bytesA Scenario.bytesR st d)
      as (_ & _ & H); [reflexivity |].
    destruct H as (_ & Hmatch);
      [vm_compute; discriminate | reflexivity | eexists; reflexivity |].
    apply Hmatch. right. reflexivity.
Defined.

End PkceClaims.

(** ** Verification, refresh and revocation of sessions *)

Module SessionFlow.
Import GoogleOAuthProvider SessionManagerFacts.

Lemma getSession_outcome now sessionId (t : gmap string SessionManager.Item)
    session :
  outcome (SessionManager.getSession now sessionId t)
    = Returned (Some session) ->
  SessionManager.getSession now sessionId t = (Returned (Some session), t) /\
  t !! sessionId = Some session /\
  Js.lt (SessionManager.expiresAt session) now = false.
Proof.
  destruct (SessionManager.getSession now sessionId t) as [o t'] eqn:E.
  unfold outcome. simpl. intros ->.
  apply getSession_Some in E as (-> & Hs & Hlive). auto.
Qed.

(** [getSession] looks at the expiry of the Google token only. *)
Lemma getSession_returns_iff now sessionId
    (t : gmap string SessionManager.Item) session :
  outcome (SessionManager.getSession now sessionId t)
    = Returned (Some session)
  <-> t !! sessionId = Some session /\
      Js.lt (SessionManager.expiresAt session) now = false.
Proof.
  split.
  - intros H. apply getSession_outcome in H. tauto.
  - intros [Hs Hlive]. rewrite (getSession_live _ _ _ _ Hs Hlive).
    reflexivity.
Qed.

Lemma verifyAccessToken_found now token refreshed st session :
  sessions st !! token = Some session ->
  Js.lt (SessionManager.expiresAt session) now = false ->
  verifyAccessToken now token refreshed st =
  (match SessionManager.scope session with
   | Some scope =>
       Returned (mkAuthInfo token
                   (Js.or_string (SessionManager.clientId session) "unknown")
                   (Js.split scope))
   | None => Thrown TypeError
   end,
   mkStore
     (alter (SessionManager.withMcpTokenExpiresAt
               (now + 30 * SessionManager.DAY_MS)) token
        (afterOpportunisticRefresh now token refreshed session (sessions st)))
     (authCodes st)).
Proof.
  intros Hs Hlive. unfold verifyAccessToken, afterOpportunisticRefresh.
  run_monad. rewrite (getSession_live _ _ _ _ Hs Hlive).
  destruct (needsRefresh now session
            && Js.truthy (SessionManager.refreshToken session)); simpl.
  - destruct refreshed as [f | c]; simpl.
    + destruct (SessionManager.scope session); reflexivity.
    + destruct (Js.truthy (Google.access_token c)); simpl.
      * destruct (SessionManager.scope session); reflexivity.
      * destruct (SessionManager.scope session); reflexivity.
  - destruct (SessionManager.scope session); reflexivity.
Qed.

Lemma verifyAccessToken_not_found now token refreshed st :
  outcome (SessionManager.getSession now token (sessions st)) = Returned None ->
  outcome (verifyAccessToken now token refreshed st)
    = Thrown InvalidOrExpiredAccessToken.
Proof.
  unfold verifyAccessToken. run_monad.
  destruct (SessionManager.getSession now token (sessions st)) as [o t'].
  unfold outcome. simpl. intros ->. reflexivity.
Qed.

(** The opportunistic refresh writes nothing: when Google answers with a
    token, the update that is to store it is rejected, and the [catch]
    goes on with the session as it is. *)
Lemma afterOpportunisticRefresh_unchanged now token refreshed session
    (t : gmap string SessionManager.Item) :
  afterOpportunisticRefresh now token refreshed session t = t.
Proof.
  unfold afterOpportunisticRefresh.
  destruct (_ && _); [|reflexivity].
  destruct refreshed as [f | c]; [reflexivity|].
  destruct (Js.truthy _); [|reflexivity].
  rewrite updateAccessToken_eq. reflexivity.
Qed.

(** The opportunistic refresh keeps a session under [token], with the
    attributes that the provider never rewrites. *)
Lemma afterOpportunisticRefresh_lookup now token refreshed session
    (t : gmap string SessionManager.Item) :
  t !! token = Some session ->
  exists kept,
    afterOpportunisticRefresh now token refreshed session t !! token
      = Some kept /\
    SessionManager.clientId kept = SessionManager.clientId session /\
    SessionManager.userEmail kept = SessionManager.userEmail session /\
    SessionManager.refreshToken kept = SessionManager.refreshToken session /\
    SessionManager.mcpRefreshToken kept
      = SessionManager.mcpRefreshToken session /\
    SessionManager.scope kept = SessionManager.scope session.
Proof.
  intros Hs. rewrite afterOpportunisticRefresh_unchanged.
  exists session. auto 10.
Qed.

Lemma afterOpportunisticRefresh_other now token refreshed session
    (t : gmap string SessionManager.Item) other :
  other <> token ->
  afterOpportunisticRefresh now token refreshed session t !! other
    = t !! other.
Proof. intros _. rewrite afterOpportunisticRefresh_unchanged. reflexivity. Qed.

End SessionFlow.

Module VerifyClaims.
Import GoogleOAuthProvider SessionManagerFacts SessionFlow.

(** C1, as stated, fails: what [verifyAccessToken] returns for the session
    of ada@example.com is the presented token, the client id and the
    scopes; the subject identifier (the user email of the session) is in
    none of the three. *)
Lemma verify_returns_token_not_subject :
  let r := verifyAccessToken 3000 Scenario.A1 (inl Transient)
             Scenario.issued in
  (exists session,
     sessions Scenario.issued !! Scenario.A1 = Some session /\
     SessionManager.userEmail session = Some "ada@example.com") /\
  (exists info,
     outcome r = Returned info /\
     token info = Scenario.A1 /\
     clientId info = "client-1" /\
     scopes info = ["https://www.googleapis.com/auth/contacts.readonly"] /\
     token info <> "ada@example.com" /\
     clientId info <> "ada@example.com" /\
     ~ In "ada@example.com" (scopes info)).
Proof.
  intros r. split.
  - eexists. split; reflexivity.
  - eexists. split; [reflexivity|].
    repeat split; try discriminate.
    simpl. intros [H | []]. discriminate H.
Qed.

(** C1 (amended). For every session record (an item with a scope) that
    [getSession] returns for the presented token, [verifyAccessToken]
    returns, whatever Google answers to the opportunistic refresh: the
    auth info holds the presented token, the client id of the session
    ('unknown' when it has none) and the scope split at spaces.  After the
    touch step ([extendSession], modelled from the spec) the session under
    the token has its downstream expiry at [now] plus 30 days and the
    client, user email, refresh tokens and scope it had; no other item and
    no authorization code changes. *)
Theorem verify_slides_expiry_and_returns_auth_info
    now token refreshed st session scope :
  outcome (SessionManager.getSession now token (sessions st))
    = Returned (Some session) ->
  SessionManager.scope session = Some scope ->
  let r := verifyAccessToken now token refreshed st in
  outcome r
    = Returned (mkAuthInfo token
                  (Js.or_string (SessionManager.clientId session) "unknown")
                  (Js.split scope)) /\
  (exists touched,
     sessions (store_of r) !! token = Some touched /\
     SessionManager.mcpTokenExpiresAt touched
       = Some (now + 30 * 24 * 60 * 60 * 1000) /\
     SessionManager.clientId touched = SessionManager.clientId session /\
     SessionManager.userEmail touched = SessionManager.userEmail session /\
     SessionManager.refreshToken touched
       = SessionManager.refreshToken session /\
     SessionManager.mcpRefreshToken touched
       = SessionManager.mcpRefreshToken session /\
     SessionManager.scope touched = Some scope) /\
  (forall other, other <> token ->
     sessions (store_of r) !! other = sessions st !! other) /\
  authCodes (store_of r) = authCodes st.
Proof.
  intros Hfound Hscope r.
  apply getSession_outcome in Hfound as (_ & Hs & Hlive).
  subst r. rewrite (verifyAccessToken_found _ _ _ _ _ Hs Hlive), Hscope.
  unfold outcome, store_of. cbn [fst snd sessions authCodes].
  split; [reflexivity|]. split; [|split; [|reflexivity]].
  - destruct (afterOpportunisticRefresh_lookup now token refreshed session
                (sessions st) Hs)
      as (kept & Hkept & Hclient & Hemail & Hrefresh & Hmcp & Hsc).
    exists (SessionManager.withMcpTokenExpiresAt
              (now + 30 * SessionManager.DAY_MS) kept).
    rewrite lookup_alter_eq, Hkept. simpl.
    rewrite Hclient, Hemail, Hrefresh, Hmcp, Hsc, Hscope.
    repeat split.
  - intros other Hne.
    rewrite lookup_alter_ne by congruence.
    apply afterOpportunisticRefresh_other, Hne.
Qed.

Lemma verify_slides_expiry_and_returns_auth_info_witness :
  let r := verifyAccessToken 3400000 Scenario.A1
             (inr Scenario.nextCredentials) Scenario.issued in
  outcome r
    = Returned (mkAuthInfo Scenario.A1 "client-1"
                  ["https://www.googleapis.com/auth/contacts.readonly"]) /\
  exists touched,
    sessions (store_of r) !! Scenario.A1 = Some touched /\
    SessionManager.mcpTokenExpiresAt touched = Some 2595400000.
Proof.
  intros r.
  destruct (verify_slides_expiry_and_returns_auth_info 3400000 Scenario.A1
              (inr Scenario.nextCredentials) Scenario.issued
              Scenario.issuedItem
              "https://www.googleapis.com/auth/contacts.readonly")
    as (Hout & (touched & Htouched & Hexpiry & _) & _).
  - reflexivity.
  - reflexivity.
  - split; [exact Hout|]. exists touched. split; [exact Htouched|].
    exact Hexpiry.
Defined.

(** C2: the code at the failing input.  A session is issued at 2 s with a
    Google token that expires at 3601 s and a downstream expiry 30 days
    away.  A first verification at 3 s succeeds and slides the downstream
    expiry; the next one, two hours later, finds the session expired,
    deletes it and throws, because [getSession] compares [expiresAt], the
    expiry of the Google token, with the clock. *)
Theorem verify_two_hours_later_fails :
  let first := verifyAccessToken 3000 Scenario.A1
                 (inr Scenario.nextCredentials) Scenario.issued in
  let second := verifyAccessToken 7203000 Scenario.A1
                  (inr Scenario.nextCredentials) (store_of first) in
  (exists info, outcome first = Returned info) /\
  (exists session,
     sessions (store_of first) !! Scenario.A1 = Some session /\
     SessionManager.expiresAt session = Some 3601000 /\
     SessionManager.mcpTokenExpiresAt session = Some 2592003000) /\
  outcome second = Thrown InvalidOrExpiredAccessToken /\
  sessions (store_of second) !! Scenario.A1 = None.
Proof.
  intros first second. split; [|split; [|split]].
  - eexists. reflexivity.
  - eexists. split; [reflexivity|]. split; reflexivity.
  - reflexivity.
  - reflexivity.
Qed.

(** The lookup does not read the downstream expiry: wherever it is moved,
    the session is returned at the same instants. *)
Lemma reachable_ignores_downstream_expiry now sessionId expires
    (t : gmap string SessionManager.Item) session :
  t !! sessionId = Some session ->
  reachable now sessionId
    (<[sessionId := SessionManager.withMcpTokenExpiresAt expires session]> t)
  = reachable now sessionId t.
Proof.
  intros Hs. unfold reachable.
  rewrite !getSession_eq, lookup_insert_eq, Hs. simpl.
  destruct (Js.lt (SessionManager.expiresAt session) now); reflexivity.
Qed.

End VerifyClaims.

(** ** Refresh *)

Module RefreshClaims.
Import GoogleOAuthProvider SessionManagerFacts SessionFlow.

Lemma getSessionByRefreshToken_outcome now token
    (t : gmap string SessionManager.Item) sessionId session :
  outcome (SessionManager.getSessionByRefreshToken now token t)
    = Returned (Some (sessionId, session)) ->
  SessionManager.getSessionByRefreshToken now token t
    = (Returned (Some (sessionId, session)), t).
Proof.
  destruct (SessionManager.getSessionByRefreshToken now token t)
    as [o t'] eqn:E.
  unfold outcome. simpl. intros ->.
  apply getSessionByRefreshToken_Some in E as (-> & _). reflexivity.
Qed.

Lemma getSessionByRefreshToken_never_throws now token
    (t : gmap string SessionManager.Item) :
  exists found t',
    SessionManager.getSessionByRefreshToken now token t
    = (Returned found, t').
Proof.
  rewrite getSessionByRefreshToken_eq.
  destruct (t !! SessionManager.refreshKey token) as [m|]; [|eauto].
  destruct (SessionManager.accessTokenSessionId m) as [k|]; [|eauto].
  destruct (String.eqb k ""); [eauto|].
  rewrite getSession_eq.
  destruct (t !! k) as [s|]; [|eauto].
  destruct (Js.lt _ _); eauto.
Qed.

(** The three ways [exchangeRefreshToken] ends once the session is found:
    all three throw and write nothing.  When Google answers with an
    access token, the update of the old session is rejected by DynamoDB
    and the new session is never saved. *)
Lemma exchangeRefreshToken_found now refreshToken refreshed ab st
    sessionId session :
  SessionManager.getSessionByRefreshToken now refreshToken (sessions st)
    = (Returned (Some (sessionId, session)), sessions st) ->
  exchangeRefreshToken now refreshToken refreshed ab st =
  match refreshed with
  | inl f => (Thrown (Rejected f), st)
  | inr credentials =>
      if Js.truthy (Google.access_token credentials)
      then (Thrown ValidationException, st)
      else (Thrown FailedToRefreshGoogleAccessToken, st)
  end.
Proof.
  intros Hfound. unfold exchangeRefreshToken. run_monad.
  rewrite Hfound. destruct st as [t a]. simpl.
  destruct refreshed as [f | c]; simpl; [reflexivity|].
  destruct (Js.truthy (Google.access_token c)); reflexivity.
Qed.

Lemma exchangeRefreshToken_not_found now refreshToken refreshed ab st :
  outcome (SessionManager.getSessionByRefreshToken now refreshToken
             (sessions st)) = Returned None ->
  outcome (exchangeRefreshToken now refreshToken refreshed ab st)
    = Thrown InvalidRefreshToken.
Proof.
  unfold exchangeRefreshToken. run_monad.
  destruct (SessionManager.getSessionByRefreshToken _ _ _) as [o t'].
  unfold outcome. simpl. intros ->. reflexivity.
Qed.

(** C4, as stated, fails: Google reports the refresh token revoked, the
    rejection is propagated, and the store, session included, is what it
    was. *)
Lemma refresh_revoked_upstream_keeps_session :
  let r := exchangeRefreshToken 3000 Scenario.R1 (inl TokenRevoked)
             Scenario.bytesB Scenario.issued in
  outcome r = Thrown (Rejected TokenRevoked) /\
  store_of r = Scenario.issued /\
  (exists session,
     sessions (store_of r) !! Scenario.A1 = Some session /\
     SessionManager.mcpRefreshToken session = Some Scenario.R1).
Proof.
  intros r. split; [reflexivity|]. split; [reflexivity|].
  eexists. split; reflexivity.
Qed.

(** C4 (amended). When the refresh token resolves to a session and the
    upstream refresh inside [exchangeRefreshToken] fails, the failure is
    thrown to the caller and the store is left as it was, session
    included, whatever the failure is: Google reporting the refresh token
    revoked or invalid, a transient failure, or an answer without access
    token. *)
Theorem refresh_upstream_failure_leaves_store
    now refreshToken ab st sessionId session :
  outcome (SessionManager.getSessionByRefreshToken now refreshToken
             (sessions st)) = Returned (Some (sessionId, session)) ->
  (forall f : UpstreamFailure,
     exchangeRefreshToken now refreshToken (inl f) ab st
     = (Thrown (Rejected f), st)) /\
  (forall credentials,
     Js.truthy (Google.access_token credentials) = false ->
     exchangeRefreshToken now refreshToken (inr credentials) ab st
     = (Thrown FailedToRefreshGoogleAccessToken, st)) /\
  sessions st !! sessionId = Some session.
Proof.
  intros Hfound.
  pose proof (getSessionByRefreshToken_outcome _ _ _ _ _ Hfound) as Hrun.
  split; [|split].
  - intros f. rewrite (exchangeRefreshToken_found _ _ _ _ _ _ _ Hrun).
    reflexivity.
  - intros c Hc. rewrite (exchangeRefreshToken_found _ _ _ _ _ _ _ Hrun), Hc.
    reflexivity.
  - apply getSessionByRefreshToken_Some in Hrun. tauto.
Qed.

Lemma refresh_upstream_failure_leaves_store_witness :
  exchangeRefreshToken 3000 Scenario.R1 (inl Transient) Scenario.bytesB
    Scenario.issued
  = (Thrown (Rejected Transient), Scenario.issued) /\
  exchangeRefreshToken 3000 Scenario.R1 (inl TokenRevoked) Scenario.bytesB
    Scenario.issued
  = (Thrown (Rejected TokenRevoked), Scenario.issued).
Proof.
  destruct (refresh_upstream_failure_leaves_store 3000 Scenario.R1
              Scenario.bytesB Scenario.issued Scenario.A1
              Scenario.issuedItem)
    as (Hrejected & _ & _).
  - reflexivity.
  - split; apply Hrejected.
Defined.

(** The older [OAuthService.refreshAccessToken] does the opposite, again
    without looking at the kind of failure: every failure of the upstream
    refresh deletes the session. *)
Lemma refreshAccessToken_failure_deletes_session now sessionId
    (f : UpstreamFailure) (t : gmap string SessionManager.Item) session :
  t !! sessionId = Some session ->
  Js.lt (SessionManager.expiresAt session) now = false ->
  Js.truthy (SessionManager.refreshToken session) = true ->
  OAuthService.refreshAccessToken now sessionId (inr tt) (inl f) t
  = (Thrown FailedToRefreshToken, delete sessionId t).
Proof.
  intros Hs Hlive Hrefresh. unfold OAuthService.refreshAccessToken.
  run_monad. rewrite (getSession_live _ _ _ _ Hs Hlive), Hrefresh.
  reflexivity.
Qed.

End RefreshClaims.

Module RotationClaims.
Import GoogleOAuthProvider SessionManagerFacts SessionFlow RefreshClaims.

(** C7: the code at the failing input.  The refresh token [R1] of the
    scenario resolves to the live session [A1], and Google answers the
    refresh with a new access token.  The refresh does not return:
    [updateAccessToken] on the old session is rejected by DynamoDB (its
    expression names the reserved word [ttl]), the error is thrown to the
    caller, and [saveSession], which comes after it, never runs.  The
    store is what it was: no session under the new access token [A2],
    the mapping of [R1] still pointing at [A1], and [A1] with the Google
    token it had. *)
Theorem refresh_throws_before_rotating :
  let r := exchangeRefreshToken 3000 Scenario.R1
             (inr Scenario.nextCredentials) Scenario.bytesB
             Scenario.issued in
  outcome (SessionManager.getSessionByRefreshToken 3000 Scenario.R1
             (sessions Scenario.issued))
    = Returned (Some (Scenario.A1, Scenario.issuedItem)) /\
  Js.truthy (Google.access_token Scenario.nextCredentials) = true /\
  outcome r = Thrown ValidationException /\
  store_of r = Scenario.issued /\
  sessions (store_of r) !! Scenario.A2 = None /\
  (exists mapping,
     sessions (store_of r) !! SessionManager.refreshKey Scenario.R1
       = Some mapping /\
     SessionManager.accessTokenSessionId mapping = Some Scenario.A1) /\
  (exists session,
     sessions (store_of r) !! Scenario.A1 = Some session /\
     SessionManager.accessToken session = Some "ya29.first").
Proof.
  intros r. split; [reflexivity|]. split; [reflexivity|].
  split; [reflexivity|]. split; [reflexivity|]. split; [reflexivity|].
  split; eexists; split; reflexivity.
Qed.

(** The same at every input: no refresh returns. *)
Lemma exchangeRefreshToken_throws now refreshToken refreshed ab st :
  exists e,
    outcome (exchangeRefreshToken now refreshToken refreshed ab st)
    = Thrown e.
Proof.
  destruct (getSessionByRefreshToken_never_throws now refreshToken
              (sessions st)) as ([[k s]|] & t' & Hfound).
  - pose proof Hfound as Hinv.
    apply getSessionByRefreshToken_Some in Hinv as (-> & _).
    rewrite (exchangeRefreshToken_found _ _ _ _ _ _ _ Hfound).
    destruct refreshed as [f | c]; [eauto|].
    destruct (Js.truthy (Google.access_token c)); eauto.
  - exists InvalidRefreshToken.
    apply exchangeRefreshToken_not_found. rewrite Hfound. reflexivity.
Qed.

End RotationClaims.

(** ** Revocation *)

Module RevokeClaims.
Import GoogleOAuthProvider SessionManagerFacts SessionFlow.

(** Nothing thrown inside [revokeToken] reaches the caller. *)
Lemma revokeToken_never_throws now token revoked st :
  outcome (revokeToken now token revoked st) = Returned tt.
Proof.
  unfold revokeToken. run_monad.
  destruct (getSession_never_throws now token (sessions st)) as [found H].
  destruct (SessionManager.getSession now token (sessions st)) as [o t].
  unfold outcome in H. simpl in H. subst o.
  destruct found as [s|]; simpl; [|reflexivity].
  destruct revoked as [f | []]; reflexivity.
Qed.

(** When Google accepts the revocation the session is deleted. *)
Lemma revokeToken_upstream_success_deletes now token st session :
  outcome (SessionManager.getSession now token (sessions st))
    = Returned (Some session) ->
  revokeToken now token (inr tt) st
  = (Returned tt, mkStore (delete token (sessions st)) (authCodes st)).
Proof.
  intros H. apply getSession_outcome in H as (Hrun & _).
  unfold revokeToken, SessionManager.deleteSession. run_monad.
  rewrite Hrun. reflexivity.
Qed.

(** When the call to Google is rejected, [deleteSession], which follows
    it inside the same [try], is skipped: the store is left as it was. *)
Lemma revokeToken_upstream_failure_keeps now token (f : UpstreamFailure)
    st session :
  outcome (SessionManager.getSession now token (sessions st))
    = Returned (Some session) ->
  revokeToken now token (inl f) st = (Returned tt, st).
Proof.
  intros H. apply getSession_outcome in H as (Hrun & _).
  unfold revokeToken. run_monad. rewrite Hrun. destruct st; reflexivity.
Qed.

(** C5: the code at the failing input.  The token of the session issued
    in the scenario is revoked while the call to Google fails: the caller
    sees no failure, but the session is still stored, and a verification
    of the revoked token right after succeeds. *)
Theorem revoke_upstream_failure_keeps_session :
  let r := revokeToken 3000 Scenario.A1 (inl Transient) Scenario.issued in
  outcome r = Returned tt /\
  store_of r = Scenario.issued /\
  (exists session, sessions (store_of r) !! Scenario.A1 = Some session) /\
  (exists info,
     outcome (verifyAccessToken 4000 Scenario.A1 (inl Transient) (store_of r))
     = Returned info).
Proof.
  intros r. split; [reflexivity|]. split; [reflexivity|]. split.
  - eexists. reflexivity.
  - eexists. reflexivity.
Qed.

(** The older [OAuthService.revokeSession] catches the rejection around
    the call to Google alone, and deletes the session in both cases. *)
Lemma revokeSession_deletes_in_both_cases now sessionId revoked
    (t : gmap string SessionManager.Item) session :
  t !! sessionId = Some session ->
  Js.lt (SessionManager.expiresAt session) now = false ->
  OAuthService.revokeSession now sessionId revoked t
  = (Returned tt, delete sessionId t).
Proof.
  intros Hs Hlive. unfold OAuthService.revokeSession.
  unfold SessionManager.deleteSession. run_monad.
  rewrite (getSession_live _ _ _ _ Hs Hlive).
  destruct revoked as [f | []]; reflexivity.
Qed.

End RevokeClaims.

(** ** The scenario of the specification, run *)

Module Lifecycle.
Import GoogleOAuthProvider.

(** authorize, callback with [U1] for [C1], exchange: tokens [(A1, R1)];
    the refresh of [R1] throws; [A1] still verifies; [A1] is revoked and
    no longer verifies. *)
Example refresh_then_revoke :
  let refreshed := exchangeRefreshToken 3000 Scenario.R1
                     (inr Scenario.nextCredentials) Scenario.bytesB
                     Scenario.issued in
  let verified := verifyAccessToken 4000 Scenario.A1 (inl Transient)
                    (store_of refreshed) in
  let revoked := revokeToken 5000 Scenario.A1 (inr tt) (store_of verified) in
  let verified' := verifyAccessToken 6000 Scenario.A1 (inl Transient)
                     (store_of revoked) in
  outcome refreshed = Thrown ValidationException /\
  outcome verified
    = Returned (mkAuthInfo Scenario.A1 "client-1" [GOOGLE_SCOPE]) /\
  outcome revoked = Returned tt /\
  outcome verified' = Thrown InvalidOrExpiredAccessToken.
Proof.
  intros refreshed verified revoked verified'.
  repeat split; reflexivity.
Qed.

End Lifecycle.

(** * Further properties of the code *)

(** ** The two stores *)

Module StoreProperties.
Import SessionManagerFacts AuthCodeStoreFacts.

(** X1. A code saved at [now] is found, with the data given, [createdAt = now]
    and [ttl = floor(now / 1000) + 600], at every instant up to ten
    minutes later, that instant included; at any later instant the lookup
    returns nothing and deletes the record. *)
Theorem saved_code_is_found_for_ten_minutes now authCode data later
    (t : gmap string AuthCodeStore.AuthorizationCodeData) :
  let t' := store_of (AuthCodeStore.saveAuthCode now authCode data t) in
  (later - now <= 10 * 60 * 1000 ->
   exists d,
     AuthCodeStore.getAuthCode later authCode t' = (Returned (Some d), t') /\
     AuthCodeStore.clientId d = AuthCodeStore.clientId data /\
     AuthCodeStore.codeChallenge d = AuthCodeStore.codeChallenge data /\
     AuthCodeStore.redirectUri d = AuthCodeStore.redirectUri data /\
     AuthCodeStore.state d = AuthCodeStore.state data /\
     AuthCodeStore.scopes d = AuthCodeStore.scopes data /\
     AuthCodeStore.createdAt d = now /\
     AuthCodeStore.ttl d = now / 1000 + 600) /\
  (10 * 60 * 1000 < later - now ->
   AuthCodeStore.getAuthCode later authCode t'
   = (Returned None, delete authCode t)).
Proof.
  intros t'. subst t'. unfold AuthCodeStore.saveAuthCode, store_of.
  run_monad. simpl. split.
  - intros Hage. eexists. split.
    + apply getAuthCode_live; [apply lookup_insert_eq | exact Hage].
    + repeat split.
  - intros Hage.
    erewrite getAuthCode_expired; [|apply lookup_insert_eq | exact Hage].
    rewrite delete_insert_eq. reflexivity.
Qed.

Lemma saved_code_is_found_for_ten_minutes_witness :
  let t' := store_of (AuthCodeStore.saveAuthCode 1000 "C1"
                        Scenario.pendingCode ∅) in
  (exists d,
     AuthCodeStore.getAuthCode 601000 "C1" t' = (Returned (Some d), t') /\
     AuthCodeStore.createdAt d = 1000) /\
  AuthCodeStore.getAuthCode 601001 "C1" t' = (Returned None, delete "C1" ∅).
Proof.
  intros t'.
  destruct (saved_code_is_found_for_ten_minutes 1000 "C1"
              Scenario.pendingCode 601000 ∅) as (Hlive & _).
  destruct (saved_code_is_found_for_ten_minutes 1000 "C1"
              Scenario.pendingCode 601001 ∅) as (_ & Hexpired).
  split.
  - destruct Hlive as (d & Hd & _ & _ & _ & _ & _ & Hcreated & _);
      [vm_compute; discriminate|].
    exists d. split; [exact Hd | exact Hcreated].
  - apply Hexpired. reflexivity.
Defined.

(** X2. The [ttl] that [saveAuthCode] hands to DynamoDB and the ten minutes
    that [getAuthCode] counts from [createdAt] agree to the second: the
    [ttl] instant is not after the end of the ten minutes, and less than
    one second before it. *)
Theorem code_ttl_within_a_second_of_expiry now authCode data
    (t : gmap string AuthCodeStore.AuthorizationCodeData) :
  exists d,
    store_of (AuthCodeStore.saveAuthCode now authCode data t) !! authCode
      = Some d /\
    1000 * AuthCodeStore.ttl d
      <= AuthCodeStore.createdAt d + AuthCodeStore.TEN_MINUTES_MS /\
    AuthCodeStore.createdAt d + AuthCodeStore.TEN_MINUTES_MS
      < 1000 * AuthCodeStore.ttl d + 1000.
Proof.
  unfold AuthCodeStore.saveAuthCode, store_of. run_monad. simpl.
  eexists. rewrite lookup_insert_eq. split; [reflexivity|]. simpl.
  unfold AuthCodeStore.TEN_MINUTES, AuthCodeStore.TEN_MINUTES_MS.
  pose proof (Z.mul_div_le now 1000 ltac:(lia)) as Hle.
  pose proof (Z.mul_succ_div_gt now 1000 ltac:(lia)) as Hgt.
  lia.
Qed.

(** X3. A session saved under an id that is not the key of its own refresh
    mapping is returned by [getSession] under that id, stamped with
    [ttl], [createdAt] and [updatedAt], at every instant at which its
    [expiresAt] has not passed; and when it carries a non-empty MCP
    refresh token, [getSessionByRefreshToken] returns the same session
    for that token. *)
Theorem saved_session_is_found now sessionId sessionData later
    (t : gmap string SessionManager.Item) :
  (forall r, SessionManager.mcpRefreshToken sessionData = Some r ->
             sessionId <> SessionManager.refreshKey r) ->
  Js.lt (SessionManager.expiresAt sessionData) later = false ->
  let t' := store_of (SessionManager.saveSession now sessionId sessionData t) in
  SessionManager.getSession later sessionId t'
    = (Returned (Some (SessionManager.stamp now sessionData)), t') /\
  (forall r, SessionManager.mcpRefreshToken sessionData = Some r ->
     r <> "" -> sessionId <> "" ->
     SessionManager.getSessionByRefreshToken later r t'
     = (Returned (Some (sessionId, SessionManager.stamp now sessionData)),
        t')).
Proof.
  intros Hkey Hlive t'. subst t'. rewrite saveSession_eq. unfold store_of.
  simpl.
  assert (Hstored :
    (if Js.truthy (SessionManager.mcpRefreshToken sessionData)
     then <[SessionManager.refreshKey
              (default "" (SessionManager.mcpRefreshToken sessionData))
            := SessionManager.refreshMapping now sessionId]>
            (<[sessionId := SessionManager.stamp now sessionData]> t)
     else <[sessionId := SessionManager.stamp now sessionData]> t)
    !! sessionId = Some (SessionManager.stamp now sessionData)).
  { destruct (Js.truthy (SessionManager.mcpRefreshToken sessionData)) eqn:E.
    - apply JsFacts.truthy_is_Some in E as (r & Hr & _).
      rewrite Hr. simpl.
      rewrite lookup_insert_ne by (intros E; symmetry in E; exact (Hkey r Hr E)).
      apply lookup_insert_eq.
    - apply lookup_insert_eq. }
  split.
  - apply getSession_live; [exact Hstored | exact Hlive].
  - intros r Hr Hne Hid.
    apply (getSessionByRefreshToken_live later r _
             (SessionManager.refreshMapping now sessionId) sessionId);
      [| reflexivity | exact Hid | exact Hstored | exact Hlive].
    rewrite Hr. apply JsFacts.truthy_Some_iff in Hne. rewrite Hne. simpl.
    apply lookup_insert_eq.
Qed.

Lemma saved_session_is_found_witness :
  let t' := store_of (SessionManager.saveSession 2000 "A1"
                        Scenario.someSession ∅) in
  SessionManager.getSession 3601000 "A1" t'
    = (Returned (Some (SessionManager.stamp 2000 Scenario.someSession)), t') /\
  SessionManager.getSessionByRefreshToken 3601000 "R1" t'
    = (Returned (Some ("A1", SessionManager.stamp 2000 Scenario.someSession)),
       t').
Proof.
  intros t'.
  destruct (saved_session_is_found 2000 "A1" Scenario.someSession 3601000 ∅)
    as (Hget & Hrefresh).
  - intros r Hr. injection Hr as <-. discriminate.
  - reflexivity.
  - split; [exact Hget|]. apply Hrefresh; [reflexivity | | ]; discriminate.
Defined.

(** X4. [deleteSession] removes the session and nothing else: the mapping of
    a refresh token that points at it stays in the table, and from then
    on the lookup by that refresh token returns nothing, at any instant,
    without throwing and without writing. *)
Theorem deleted_session_leaves_dangling_mapping later token sessionId
    (t : gmap string SessionManager.Item) mapping :
  t !! SessionManager.refreshKey token = Some mapping ->
  SessionManager.accessTokenSessionId mapping = Some sessionId ->
  sessionId <> SessionManager.refreshKey token ->
  let t' := store_of (SessionManager.deleteSession sessionId t) in
  t' !! SessionManager.refreshKey token = Some mapping /\
  SessionManager.getSession later sessionId t' = (Returned None, t') /\
  SessionManager.getSessionByRefreshToken later token t'
    = (Returned None, t').
Proof.
  intros Hm Hk Hne t'. subst t'.
  unfold SessionManager.deleteSession, store_of. run_monad. simpl.
  assert (Hgone : delete sessionId t !! sessionId = None)
    by apply lookup_delete_eq.
  assert (Hkept : delete sessionId t !! SessionManager.refreshKey token
                  = Some mapping)
    by (rewrite lookup_delete_ne by exact Hne; exact Hm).
  split; [exact Hkept|]. split.
  - rewrite getSession_eq, Hgone. reflexivity.
  - rewrite getSessionByRefreshToken_eq, Hkept, Hk.
    destruct (String.eqb sessionId ""); [reflexivity|].
    rewrite getSession_eq, Hgone. reflexivity.
Qed.

Lemma deleted_session_leaves_dangling_mapping_witness :
  let t := store_of (SessionManager.saveSession 2000 "A1"
                       Scenario.someSession ∅) in
  let t' := store_of (SessionManager.deleteSession "A1" t) in
  is_Some (t' !! "refresh:R1") /\
  SessionManager.getSessionByRefreshToken 3000 "R1" t' = (Returned None, t').
Proof.
  intros t t'.
  destruct (deleted_session_leaves_dangling_mapping 3000 "R1" "A1" t
              (SessionManager.refreshMapping 2000 "A1"))
    as (Hkept & _ & Hrefresh);
    [reflexivity | reflexivity | discriminate |].
  split; [eexists; exact Hkept | exact Hrefresh].
Defined.

End StoreProperties.

(** ** The handshake: authorize, callback, exchange *)

Module HandshakeProperties.
Import GoogleOAuthProvider AuthCodeStoreFacts Observed.

(** A callback on a record that is not older than ten minutes, neither
    when the state is looked up nor when Google has answered, with an
    access token, a refresh token and an email in the answers. *)
Lemma handleGoogleCallback_live
    now later code state credentials email st d :
  authCodes st !! state = Some d ->
  now - AuthCodeStore.createdAt d <= AuthCodeStore.TEN_MINUTES_MS ->
  later - AuthCodeStore.createdAt d <= AuthCodeStore.TEN_MINUTES_MS ->
  Js.truthy (Google.access_token credentials) = true ->
  Js.truthy (Google.refresh_token credentials) = true ->
  Js.truthy email = true ->
  handleGoogleCallback now later code state (inr credentials) (inr email) st
  = (Returned tt,
     mkStore (sessions st)
       (<[state := AuthCodeStore.withGoogleTokens code
                     (callbackTokens later credentials email) d]>
          (authCodes st))).
Proof.
  intros Hd Hnow Hlater Haccess Hrefresh Hemail.
  rewrite Reachability.handleGoogleCallback_eq, Hd, Haccess, Hrefresh, Hemail.
  destruct (Z.ltb_spec AuthCodeStore.TEN_MINUTES_MS
              (now - AuthCodeStore.createdAt d)); [lia|].
  destruct (Z.ltb_spec AuthCodeStore.TEN_MINUTES_MS
              (later - AuthCodeStore.createdAt d)); [lia|].
  reflexivity.
Qed.

(** X5. [authorize] stores the request under the code drawn and touches no
    session; for ten minutes [challengeForAuthorizationCode] then returns
    the challenge of the request to the client that made it, and throws
    'Invalid authorization code' for any other client.  When the Google
    client cannot be loaded nothing is stored. *)
Theorem authorize_binds_challenge_to_client
    now client_id codeChallenge redirectUri state scopes authCode st :
  let r := authorize now client_id codeChallenge redirectUri state scopes
             (inr tt) authCode st in
  outcome r = Returned authCode /\
  sessions (store_of r) = sessions st /\
  (forall other, other <> authCode ->
     authCodes (store_of r) !! other = authCodes st !! other) /\
  (forall later, later - now <= 10 * 60 * 1000 ->
     challengeForAuthorizationCode later client_id authCode (store_of r)
     = (Returned codeChallenge, store_of r)) /\
  (forall later other_client,
     later - now <= 10 * 60 * 1000 -> other_client <> client_id ->
     challengeForAuthorizationCode later other_client authCode (store_of r)
     = (Thrown InvalidAuthorizationCode, store_of r)) /\
  (forall f : UpstreamFailure,
     authorize now client_id codeChallenge redirectUri state scopes
       (inl f) authCode st = (Thrown (Rejected f), st)).
Proof.
  intros r. subst r. unfold authorize, AuthCodeStore.saveAuthCode.
  run_monad. unfold outcome, store_of. simpl.
  split; [reflexivity|]. split; [reflexivity|]. split; [|split; [|split]].
  - intros other Hne. apply lookup_insert_ne. congruence.
  - intros later Hage. unfold challengeForAuthorizationCode. run_monad.
    simpl. erewrite getAuthCode_live; [|apply lookup_insert_eq | exact Hage].
    simpl. rewrite String.eqb_refl. reflexivity.
  - intros later other Hage Hne. unfold challengeForAuthorizationCode.
    run_monad. simpl.
    erewrite getAuthCode_live; [|apply lookup_insert_eq | exact Hage].
    simpl. apply not_eq_sym, String.eqb_neq in Hne. rewrite Hne.
    reflexivity.
  - intros f. reflexivity.
Qed.

Lemma authorize_binds_challenge_to_client_witness :
  challengeForAuthorizationCode 600000 "client-1" "C1"
    (Scenario.authorized "challenge-1")
  = (Returned "challenge-1", Scenario.authorized "challenge-1") /\
  challengeForAuthorizationCode 600000 "client-2" "C1"
    (Scenario.authorized "challenge-1")
  = (Thrown InvalidAuthorizationCode, Scenario.authorized "challenge-1").
Proof.
  destruct (authorize_binds_challenge_to_client 0 "client-1" "challenge-1"
              "https://app/callback" (Some "xyz")
              (Some ["contacts.readonly"; "profile"]) "C1" (mkStore ∅ ∅))
    as (_ & _ & _ & Hsame & Hother & _).
  split.
  - apply Hsame. vm_compute. discriminate.
  - apply Hother; [vm_compute|]; discriminate.
Defined.

Section WithDigest.
Variable sha256_b64url : string -> string.

(** X6. An exchange that throws on a record not older than ten minutes
    leaves the whole store as it was, so the code can still be exchanged;
    the error tells why: another client ('Invalid authorization code'),
    Google tokens not there yet ('Google authentication not completed'),
    or a non-empty verifier with another digest ('Invalid code
    verifier'). *)
Theorem failed_exchange_keeps_live_code
    now client_id code codeVerifier ab rb st d e :
  authCodes st !! code = Some d ->
  now - AuthCodeStore.createdAt d <= 10 * 60 * 1000 ->
  outcome (exchangeAuthorizationCode sha256_b64url now client_id code
             codeVerifier ab rb st) = Thrown e ->
  store_of (exchangeAuthorizationCode sha256_b64url now client_id code
              codeVerifier ab rb st) = st /\
  (e = InvalidAuthorizationCode /\ AuthCodeStore.clientId d <> client_id \/
   e = GoogleAuthenticationNotCompleted /\
     AuthCodeStore.clientId d = client_id /\
     AuthCodeStore.googleTokens d = None \/
   e = InvalidCodeVerifier /\
     AuthCodeStore.clientId d = client_id /\
     exists v, codeVerifier = Some v /\ v <> "" /\
               sha256_b64url v <> AuthCodeStore.codeChallenge d).
Proof.
  intros Hd Hage. unfold exchangeAuthorizationCode. run_monad.
  rewrite (getAuthCode_live _ _ _ _ Hd Hage). destruct st as [ss cs].
  simpl in *.
  destruct (String.eqb_spec (AuthCodeStore.clientId d) client_id)
    as [Hclient | Hclient]; simpl.
  - destruct (AuthCodeStore.googleTokens d) as [g|] eqn:Hg; simpl.
    + destruct (pkceAccepted sha256_b64url codeVerifier
                  (AuthCodeStore.codeChallenge d)) eqn:Hpkce; simpl.
      * destruct (Js.truthy (AuthCodeStore.userEmail g)); simpl;
          rewrite ?SessionManagerFacts.saveSession_eq; simpl; discriminate.
      * intros H. injection H as <-. split; [reflexivity|].
        right. right. split; [reflexivity|]. split; [exact Hclient|].
        unfold pkceAccepted in Hpkce.
        destruct (Js.truthy codeVerifier) eqn:Hv; [|discriminate].
        apply JsFacts.truthy_is_Some in Hv as (v & -> & Hne).
        exists v. split; [reflexivity|]. split; [exact Hne|].
        simpl in Hpkce. apply String.eqb_neq. exact Hpkce.
    + intros H. injection H as <-. split; [reflexivity|].
      right. left. auto.
  - intros H. injection H as <-. split; [reflexivity|]. left. auto.
Qed.

(** X7. A code older than ten minutes cannot be exchanged, whoever asks and
    whatever verifier is given: the exchange throws 'Invalid
    authorization code', the record is deleted and no session is
    written. *)
Theorem exchange_of_expired_code_deletes_it
    now client_id code codeVerifier ab rb st d :
  authCodes st !! code = Some d ->
  10 * 60 * 1000 < now - AuthCodeStore.createdAt d ->
  exchangeAuthorizationCode sha256_b64url now client_id code codeVerifier
    ab rb st
  = (Thrown InvalidAuthorizationCode,
     mkStore (sessions st) (delete code (authCodes st))).
Proof.
  intros Hd Hage. unfold exchangeAuthorizationCode. run_monad.
  rewrite (getAuthCode_expired _ _ _ _ Hd Hage). reflexivity.
Qed.

End WithDigest.

Lemma failed_exchange_keeps_live_code_witness :
  store_of (exchangeAuthorizationCode Scenario.digest 500 "client-1" "C1"
              (Some "v") Scenario.bytesA Scenario.bytesR
              (Scenario.authorized (Scenario.digest "v")))
  = Scenario.authorized (Scenario.digest "v").
Proof.
  destruct (failed_exchange_keeps_live_code Scenario.digest 500 "client-1"
              "C1" (Some "v") Scenario.bytesA Scenario.bytesR
              (Scenario.authorized (Scenario.digest "v"))
              (AuthCodeStore.mkAuthorizationCodeData "client-1"
                 (Scenario.digest "v") "https://app/callback" (Some "xyz")
                 None None (Some ["contacts.readonly"; "profile"]) 0 600)
              GoogleAuthenticationNotCompleted) as (Hstore & _).
  - reflexivity.
  - vm_compute. discriminate.
  - reflexivity.
  - exact Hstore.
Defined.

Lemma exchange_of_expired_code_deletes_it_witness :
  exchangeAuthorizationCode Scenario.digest 600001 "client-1" "C1"
    (Some "v") Scenario.bytesA Scenario.bytesR
    (Scenario.completed (Scenario.digest "v") (Some "ada@example.com"))
  = (Thrown InvalidAuthorizationCode, mkStore ∅ ∅).
Proof.
  rewrite (exchange_of_expired_code_deletes_it Scenario.digest 600001
             "client-1" "C1" (Some "v") Scenario.bytesA Scenario.bytesR
             (Scenario.completed (Scenario.digest "v")
                (Some "ada@example.com"))
             (Scenario.completedRecord (Scenario.digest "v")));
    [reflexivity | reflexivity | reflexivity].
Defined.

End HandshakeProperties.

Module CallbackProperties.
Import GoogleOAuthProvider AuthCodeStoreFacts Observed HandshakeProperties.

(** X8. A callback that throws stores no Google tokens.  On a record that
    is not older than ten minutes when the state is looked up, a callback
    that throws either leaves the store as it was, the error being the
    rejection of Google (token exchange or user info), 'No access token
    received from Google', or the refusal of the document client to
    store an answer that lacks a refresh token or an email; or it finds
    the record older than ten minutes once Google has answered, deletes
    it and throws 'Authorization code not found or expired'.  When no
    record is stored under the state, for instance because the code was
    exchanged already, the callback throws 'Invalid state parameter'
    before Google is asked anything.  And an answer without refresh
    token or without email does make the callback of a live record
    throw. *)
Theorem failed_callback_stores_no_tokens
    now later code state tokens userEmail st :
  let r := handleGoogleCallback now later code state tokens userEmail st in
  (forall d e,
     authCodes st !! state = Some d ->
     now - AuthCodeStore.createdAt d <= 10 * 60 * 1000 ->
     outcome r = Thrown e ->
     store_of r = st /\
       (e = NoAccessTokenReceivedFromGoogle \/
        (exists f, e = Rejected f) \/
        e = UndefinedValue /\
          exists credentials email,
            tokens = inr credentials /\ userEmail = inr email /\
            Js.truthy (Google.refresh_token credentials) && Js.truthy email
              = false) \/
     e = AuthorizationCodeNotFoundOrExpired /\
       10 * 60 * 1000 < later - AuthCodeStore.createdAt d /\
       store_of r = mkStore (sessions st) (delete state (authCodes st))) /\
  (authCodes st !! state = None -> r = (Thrown InvalidStateParameter, st)) /\
  (forall d credentials email,
     authCodes st !! state = Some d ->
     now - AuthCodeStore.createdAt d <= 10 * 60 * 1000 ->
     later - AuthCodeStore.createdAt d <= 10 * 60 * 1000 ->
     tokens = inr credentials -> userEmail = inr email ->
     Js.truthy (Google.access_token credentials) = true ->
     Js.truthy (Google.refresh_token credentials) && Js.truthy email = false ->
     r = (Thrown UndefinedValue, st)).
Proof.
  intros r. subst r. rewrite Reachability.handleGoogleCallback_eq.
  split; [|split].
  - intros d e Hd Hage. rewrite Hd.
    destruct (Z.ltb_spec AuthCodeStore.TEN_MINUTES_MS
                (now - AuthCodeStore.createdAt d)) as [Hold | _];
      [unfold AuthCodeStore.TEN_MINUTES_MS in Hold; lia|].
    destruct tokens as [f | c]; simpl.
    { intros H. injection H as <-. left. eauto. }
    destruct (Js.truthy (Google.access_token c)); simpl.
    2:{ intros H. injection H as <-. left. auto. }
    destruct userEmail as [f | email]; simpl.
    { intros H. injection H as <-. left. eauto. }
    destruct (Z.ltb_spec AuthCodeStore.TEN_MINUTES_MS
                (later - AuthCodeStore.createdAt d)) as [Hold | _]; simpl.
    { intros H. injection H as <-. right.
      unfold AuthCodeStore.TEN_MINUTES_MS in Hold. auto. }
    destruct (Js.truthy (Google.refresh_token c) && Js.truthy email) eqn:Hb;
      simpl; [discriminate|].
    intros H. injection H as <-. left. split; [reflexivity|].
    right. right. split; [reflexivity|]. exists c, email. auto.
  - intros Hnone. rewrite Hnone. reflexivity.
  - intros d c email Hd Hnow Hlater -> -> Haccess Hb.
    rewrite Hd, Haccess, Hb.
    destruct (Z.ltb_spec AuthCodeStore.TEN_MINUTES_MS
                (now - AuthCodeStore.createdAt d)) as [Hold | _];
      [unfold AuthCodeStore.TEN_MINUTES_MS in Hold; lia|].
    destruct (Z.ltb_spec AuthCodeStore.TEN_MINUTES_MS
                (later - AuthCodeStore.createdAt d)) as [Hold | _];
      [unfold AuthCodeStore.TEN_MINUTES_MS in Hold; lia|].
    reflexivity.
Qed.

Lemma failed_callback_stores_no_tokens_witness :
  store_of (handleGoogleCallback 1000 1500 "U1" "C1" (inl Transient)
              (inr (Some "ada@example.com"))
              (Scenario.authorized "challenge-1"))
  = Scenario.authorized "challenge-1" /\
  handleGoogleCallback 1000 1500 "U1" "C1" (inr Scenario.nextCredentials)
    (inr (Some "ada@example.com")) (Scenario.authorized "challenge-1")
  = (Thrown UndefinedValue, Scenario.authorized "challenge-1") /\
  handleGoogleCallback 3000 3500 "U1" "C1" (inr Scenario.firstCredentials)
    (inr (Some "ada@example.com")) Scenario.issued
  = (Thrown InvalidStateParameter, Scenario.issued).
Proof.
  pose (d := AuthCodeStore.mkAuthorizationCodeData "client-1"
               "challenge-1" "https://app/callback" (Some "xyz")
               None None (Some ["contacts.readonly"; "profile"]) 0 600).
  split; [|split].
  - destruct (failed_callback_stores_no_tokens 1000 1500 "U1" "C1"
                (inl Transient) (inr (Some "ada@example.com"))
                (Scenario.authorized "challenge-1")) as (Hthrown & _).
    destruct (Hthrown d (Rejected Transient)) as [(Hstore & _) | (H & _)];
      [reflexivity | vm_compute; discriminate | reflexivity
      | exact Hstore | discriminate H].
  - destruct (failed_callback_stores_no_tokens 1000 1500 "U1" "C1"
                (inr Scenario.nextCredentials)
                (inr (Some "ada@example.com"))
                (Scenario.authorized "challenge-1")) as (_ & _ & Hundefined).
    apply (Hundefined d Scenario.nextCredentials (Some "ada@example.com"));
      try reflexivity; vm_compute; discriminate.
  - destruct (failed_callback_stores_no_tokens 3000 3500 "U1" "C1"
                (inr Scenario.firstCredentials)
                (inr (Some "ada@example.com")) Scenario.issued)
      as (_ & Habsent & _).
    apply Habsent. reflexivity.
Defined.

Section WithDigest.
Variable sha256_b64url : string -> string.

(** X9. What Google answers at the callback is what the session holds after
    the exchange.  For a record completed by a callback whose answers
    have an access token, a refresh token and a user email, and then
    exchanged by its client with a verifier that matches (the record
    being not older than ten minutes at any of the three lookups), the
    session stored under the new access token has the access token of
    Google, its refresh token, the expiry Google gave, or one hour after
    its answer when it gave none, the user email and the client id.
    When the answers lack the refresh token or the email, the callback
    throws, and the exchange of the code of a record that had no tokens
    is refused with 'Google authentication not completed'. *)
Theorem callback_then_exchange_stores_google_tokens
    now later exchanged googleCode code credentials email client_id
    codeVerifier ab rb st d :
  authCodes st !! code = Some d ->
  now - AuthCodeStore.createdAt d <= 10 * 60 * 1000 ->
  later - AuthCodeStore.createdAt d <= 10 * 60 * 1000 ->
  exchanged - AuthCodeStore.createdAt d <= 10 * 60 * 1000 ->
  Js.truthy (Google.access_token credentials) = true ->
  AuthCodeStore.clientId d = client_id ->
  (forall v, codeVerifier = Some v ->
             sha256_b64url v = AuthCodeStore.codeChallenge d) ->
  let st1 := store_of (handleGoogleCallback now later googleCode code
                         (inr credentials) (inr email) st) in
  let r := exchangeAuthorizationCode sha256_b64url exchanged client_id code
             codeVerifier ab rb st1 in
  (Js.truthy (Google.refresh_token credentials) = true ->
   Js.truthy email = true ->
   (exists tokens, outcome r = Returned tokens /\
                   access_token tokens = Base64Url.encode ab) /\
   exists session,
     sessions (store_of r) !! Base64Url.encode ab = Some session /\
     SessionManager.accessToken session = Google.access_token credentials /\
     SessionManager.refreshToken session
       = Google.refresh_token credentials /\
     SessionManager.expiresAt session
       = Some (Js.or_number (Google.expiry_date credentials)
                 (later + 3600 * 1000)) /\
     SessionManager.userEmail session = email /\
     SessionManager.clientId session = Some client_id) /\
  (Js.truthy (Google.refresh_token credentials) && Js.truthy email = false ->
   AuthCodeStore.googleTokens d = None ->
   st1 = st /\ r = (Thrown GoogleAuthenticationNotCompleted, st)).
Proof.
  intros Hd Hnow Hlater Hexchanged Htoken Hclient Hpkce st1 r.
  split.
  - intros Hrefresh Hemail. subst r st1.
    rewrite (handleGoogleCallback_live _ _ _ _ _ _ _ _ Hd Hnow Hlater
               Htoken Hrefresh Hemail).
    unfold store_of. cbn [snd].
    set (g := callbackTokens later credentials email).
    set (d' := AuthCodeStore.withGoogleTokens googleCode g d).
    set (st1 := mkStore _ _).
    assert (Hd' : authCodes st1 !! code = Some d') by apply lookup_insert_eq.
    assert (Hacc : pkceAccepted sha256_b64url codeVerifier
                     (AuthCodeStore.codeChallenge d') = true).
    { apply ExchangeCode.pkceAccepted_iff.
      destruct (Js.truthy codeVerifier) eqn:E; [right | left; reflexivity].
      apply JsFacts.truthy_is_Some in E as (v & -> & _). eauto. }
    rewrite (ExchangeCode.exchange_live_code sha256_b64url exchanged
               client_id code codeVerifier ab rb st1 d' g Hd' Hexchanged
               Hclient eq_refl).
    rewrite Hacc.
    assert (Hmail : Js.truthy (AuthCodeStore.userEmail g) = true).
    { subst g. simpl. unfold Js.or_undefined. rewrite Hemail. exact Hemail. }
    rewrite Hmail, SessionManagerFacts.saveSession_eq.
    unfold outcome. cbn [fst snd sessions].
    split; [eexists; split; reflexivity|].
    exists (SessionManager.stamp exchanged
              (issuedSession exchanged client_id g (Base64Url.encode rb))).
    split.
    + change (SessionManager.mcpRefreshToken
                (issuedSession exchanged client_id g (Base64Url.encode rb)))
        with (Some (Base64Url.encode rb)).
      unfold store_of.
      destruct (Js.truthy (Some (Base64Url.encode rb))); cbn [snd default].
      * rewrite lookup_insert_ne, lookup_insert_eq; [reflexivity|].
        intros E. symmetry in E.
        exact (Base64UrlFacts.encode_not_refreshKey _ _ E).
      * apply lookup_insert_eq.
    + subst g. simpl. unfold Js.or_undefined. rewrite Hemail, Hrefresh.
      repeat split.
      apply JsFacts.truthy_is_Some in Htoken as (v & -> & _). reflexivity.
  - intros Hb Hnone.
    assert (Hst1 : st1 = st).
    { subst st1. rewrite Reachability.handleGoogleCallback_eq, Hd, Htoken, Hb.
      destruct (Z.ltb_spec AuthCodeStore.TEN_MINUTES_MS
                  (now - AuthCodeStore.createdAt d)) as [Hold | _];
        [unfold AuthCodeStore.TEN_MINUTES_MS in Hold; lia|].
      destruct (Z.ltb_spec AuthCodeStore.TEN_MINUTES_MS
                  (later - AuthCodeStore.createdAt d)) as [Hold | _];
        [unfold AuthCodeStore.TEN_MINUTES_MS in Hold; lia|].
      reflexivity. }
    split; [exact Hst1|]. subst r. rewrite Hst1.
    unfold exchangeAuthorizationCode. run_monad.
    rewrite (getAuthCode_live _ _ _ _ Hd Hexchanged).
    rewrite Hclient, String.eqb_refl, Hnone. destruct st; reflexivity.
Qed.

End WithDigest.

Lemma callback_then_exchange_stores_google_tokens_witness :
  (exists session,
     sessions Scenario.issued !! Scenario.A1 = Some session /\
     SessionManager.accessToken session = Some "ya29.first" /\
     SessionManager.refreshToken session = Some "1//refresh" /\
     SessionManager.expiresAt session = Some 3601000) /\
  exchangeAuthorizationCode Scenario.digest 2000 "client-1" "C1" (Some "v")
    Scenario.bytesA Scenario.bytesR
    (store_of (handleGoogleCallback 1000 1500 "U1" "C1"
                 (inr Scenario.nextCredentials)
                 (inr (Some "ada@example.com"))
                 (Scenario.authorized (Scenario.digest "v"))))
  = (Thrown GoogleAuthenticationNotCompleted,
     Scenario.authorized (Scenario.digest "v")).
Proof.
  pose (d := AuthCodeStore.mkAuthorizationCodeData "client-1"
               (Scenario.digest "v") "https://app/callback" (Some "xyz")
               None None (Some ["contacts.readonly"; "profile"]) 0 600).
  split.
  - destruct (callback_then_exchange_stores_google_tokens Scenario.digest
                1000 1500 2000 "U1" "C1" Scenario.firstCredentials
                (Some "ada@example.com") "client-1" (Some "v")
                Scenario.bytesA Scenario.bytesR
                (Scenario.authorized (Scenario.digest "v")) d)
      as (Hcomplete & _);
      [reflexivity | vm_compute; discriminate | vm_compute; discriminate
      | vm_compute; discriminate | reflexivity | reflexivity
      | intros v Hv; injection Hv as <-; reflexivity |].
    destruct Hcomplete as (_ & session & Hs & Htoken & Hrefresh & Hexpiry & _);
      [reflexivity | reflexivity |].
    exists session. auto.
  - destruct (callback_then_exchange_stores_google_tokens Scenario.digest
                1000 1500 2000 "U1" "C1" Scenario.nextCredentials
                (Some "ada@example.com") "client-1" (Some "v")
                Scenario.bytesA Scenario.bytesR
                (Scenario.authorized (Scenario.digest "v")) d)
      as (_ & Hincomplete);
      [reflexivity | vm_compute; discriminate | vm_compute; discriminate
      | vm_compute; discriminate | reflexivity | reflexivity
      | intros v Hv; injection Hv as <-; reflexivity |].
    destruct Hincomplete as (Hst1 & Hr); [reflexivity | reflexivity |].
    exact Hr.
Defined.

End CallbackProperties.

(** ** The tokens handed to the client *)

Module TokenProperties.
Import GoogleOAuthProvider Base64UrlFacts.

Lemma encodeN_length (bs : list N) :
  String.length (Base64Url.encodeN bs) = ((4 * length bs + 2) / 3)%nat.
Proof.
  induction bs as [|a|a b|a b c l IH] using list_ind3.
  - reflexivity.
  - reflexivity.
  - reflexivity.
  - change (String.length (Base64Url.encodeN (a :: b :: c :: l)))
      with (4 + String.length (Base64Url.encodeN l))%nat.
    rewrite IH.
    replace (4 * length (a :: b :: c :: l) + 2)%nat
      with (4 * 3 + (4 * length l + 2))%nat by (simpl; lia).
    rewrite Nat.div_add_l by lia. reflexivity.
Qed.

Lemma encode_32_bytes_length (bs : list byte) :
  length bs = 32%nat -> String.length (Base64Url.encode bs) = 43%nat.
Proof.
  intros H. unfold Base64Url.encode.
  rewrite encodeN_length, length_map, H. reflexivity.
Qed.

(** The tokens of an exchange that returns are the encodings of the
    bytes drawn. *)
Lemma exchange_Returned_tokens (sha256_b64url : string -> string)
    now client_id code codeVerifier ab rb st tokens :
  outcome (exchangeAuthorizationCode sha256_b64url now client_id code
             codeVerifier ab rb st) = Returned tokens ->
  access_token tokens = Base64Url.encode ab /\
  refresh_token tokens = Some (Base64Url.encode rb) /\
  expires_in tokens = 30 * 24 * 60 * 60.
Proof.
  unfold exchangeAuthorizationCode. run_monad.
  rewrite AuthCodeStoreFacts.getAuthCode_eq.
  destruct (authCodes st !! code) as [d|]; [|discriminate].
  destruct (Z.ltb _ _); [discriminate|]. simpl.
  destruct (String.eqb _ client_id); [|discriminate]. simpl.
  destruct (AuthCodeStore.googleTokens d) as [g|]; [|discriminate].
  destruct (pkceAccepted _ _ _); [|discriminate]. simpl.
  destruct (Js.truthy (AuthCodeStore.userEmail g)); simpl;
    rewrite ?SessionManagerFacts.saveSession_eq; simpl;
    intros H; injection H as <-; auto.
Qed.

Lemma refresh_Returned_tokens now refreshToken refreshed ab st tokens :
  outcome (exchangeRefreshToken now refreshToken refreshed ab st)
    = Returned tokens ->
  access_token tokens = Base64Url.encode ab /\
  refresh_token tokens = Some refreshToken /\
  expires_in tokens = 30 * 24 * 60 * 60.
Proof.
  destruct (RefreshClaims.getSessionByRefreshToken_never_throws now
              refreshToken (sessions st)) as ([[k s]|] & t' & Hfound).
  - pose proof Hfound as Hinv.
    apply SessionManagerFacts.getSessionByRefreshToken_Some
      in Hinv as (-> & _).
    rewrite (RefreshClaims.exchangeRefreshToken_found _ _ _ _ _ _ _ Hfound).
    destruct refreshed as [f | c]; [discriminate|].
    destruct (Js.truthy _); discriminate.
  - rewrite RefreshClaims.exchangeRefreshToken_not_found;
      [discriminate | rewrite Hfound; reflexivity].
Qed.

(** X10. Every token the provider hands out is 43 characters of the base64url
    alphabet: the access and refresh tokens of an exchange and the access
    token of a refresh, each the encoding of 32 random bytes.  No such
    token is the key of a refresh mapping, which starts with 'refresh:',
    and both operations announce a lifetime of 30 days in seconds.  (The
    part on the refresh is about a refresh that returns, and in the code
    as it is none does, the update of the old session being rejected.) *)
Theorem issued_tokens_are_43_url_safe_characters
    (sha256_b64url : string -> string)
    now client_id code codeVerifier refreshToken refreshed ab rb st :
  length ab = 32%nat ->
  length rb = 32%nat ->
  (forall tokens,
     outcome (exchangeAuthorizationCode sha256_b64url now client_id code
                codeVerifier ab rb st) = Returned tokens ->
     String.length (access_token tokens) = 43%nat /\
     Base64Url.all_digits (access_token tokens) /\
     (forall r, access_token tokens <> SessionManager.refreshKey r) /\
     (exists r, refresh_token tokens = Some r /\
                String.length r = 43%nat /\ Base64Url.all_digits r) /\
     expires_in tokens = 2592000) /\
  (forall tokens,
     outcome (exchangeRefreshToken now refreshToken refreshed ab st)
       = Returned tokens ->
     String.length (access_token tokens) = 43%nat /\
     Base64Url.all_digits (access_token tokens) /\
     (forall r, access_token tokens <> SessionManager.refreshKey r) /\
     expires_in tokens = 2592000).
Proof.
  intros Hab Hrb. split.
  - intros tokens H.
    apply exchange_Returned_tokens in H as (-> & -> & ->).
    split; [apply encode_32_bytes_length, Hab|].
    split; [apply encode_all_digits|].
    split; [intros r; apply encode_not_refreshKey|].
    split; [|reflexivity].
    eexists. split; [reflexivity|].
    split; [apply encode_32_bytes_length, Hrb | apply encode_all_digits].
  - intros tokens H.
    apply refresh_Returned_tokens in H as (-> & _ & ->).
    split; [apply encode_32_bytes_length, Hab|].
    split; [apply encode_all_digits|].
    split; [intros r; apply encode_not_refreshKey | reflexivity].
Qed.

Lemma issued_tokens_are_43_url_safe_characters_witness :
  String.length Scenario.A1 = 43%nat /\
  exists r, Some Scenario.R1 = Some r /\ String.length r = 43%nat.
Proof.
  destruct (issued_tokens_are_43_url_safe_characters Scenario.digest 2000
              "client-1" "C1" (Some "v") Scenario.R1
              (inr Scenario.nextCredentials) Scenario.bytesA Scenario.bytesR
              (Scenario.completed (Scenario.digest "v")
                 (Some "ada@example.com")))
    as (Hexchange & _); [reflexivity | reflexivity |].
  destruct (Hexchange
              (mkOAuthTokens Scenario.A1 "Bearer" 2592000
                 (Some Scenario.R1) (Some "contacts.readonly profile")))
    as (Hlength & _ & _ & (r & Hr & Hrlength & _) & _); [reflexivity|].
  split; [exact Hlength|]. exists r. split; [exact Hr | exact Hrlength].
Defined.

End TokenProperties.

(** ** Refresh and revocation *)

Module SessionProperties.
Import GoogleOAuthProvider SessionManagerFacts SessionFlow.

(** A refresh token whose mapping points at a session that is not
    stored is refused. *)
Lemma exchangeRefreshToken_dangling
    now refreshToken refreshed ab st mapping sessionId :
  sessions st !! SessionManager.refreshKey refreshToken = Some mapping ->
  SessionManager.accessTokenSessionId mapping = Some sessionId ->
  sessions st !! sessionId = None ->
  exchangeRefreshToken now refreshToken refreshed ab st
  = (Thrown InvalidRefreshToken, st).
Proof.
  intros Hm Hk Hgone. unfold exchangeRefreshToken. run_monad.
  rewrite getSessionByRefreshToken_eq, Hm, Hk.
  destruct (String.eqb sessionId ""); [destruct st; reflexivity|].
  rewrite getSession_eq, Hgone. destruct st; reflexivity.
Qed.

(** X11. A refresh token that no mapping knows, or whose mapping points at a
    session that is no longer stored, is refused with 'Invalid refresh
    token': Google is not asked, and nothing is written. *)
Theorem refresh_with_unknown_token_is_refused
    now refreshToken refreshed ab st :
  sessions st !! SessionManager.refreshKey refreshToken = None \/
  (exists mapping sessionId,
     sessions st !! SessionManager.refreshKey refreshToken = Some mapping /\
     SessionManager.accessTokenSessionId mapping = Some sessionId /\
     sessions st !! sessionId = None) ->
  exchangeRefreshToken now refreshToken refreshed ab st
  = (Thrown InvalidRefreshToken, st).
Proof.
  intros [Hnone | (m & k & Hm & Hk & Hgone)].
  - unfold exchangeRefreshToken. run_monad.
    rewrite getSessionByRefreshToken_eq, Hnone. destruct st; reflexivity.
  - exact (exchangeRefreshToken_dangling _ _ _ _ _ m k Hm Hk Hgone).
Qed.

Lemma refresh_with_unknown_token_is_refused_witness :
  exchangeRefreshToken 3000 "R0" (inr Scenario.nextCredentials)
    Scenario.bytesB Scenario.issued
  = (Thrown InvalidRefreshToken, Scenario.issued).
Proof.
  apply (refresh_with_unknown_token_is_refused 3000 "R0"
           (inr Scenario.nextCredentials) Scenario.bytesB Scenario.issued).
  left. reflexivity.
Defined.

(** X12. Whatever token is presented and whatever Google answers,
    [revokeToken] writes nothing but the deletion of the item stored
    under the token itself: no authorization code and no other session
    or mapping changes.  In particular a token under which nothing is
    stored, such as the value of a refresh token (whose mapping is
    stored under 'refresh:' + token), revokes nothing. *)
Theorem revokeToken_touches_only_its_session now token revoked st :
  let st' := store_of (revokeToken now token revoked st) in
  authCodes st' = authCodes st /\
  (forall other, other <> token ->
     sessions st' !! other = sessions st !! other) /\
  (sessions st !! token = None -> st' = st).
Proof.
  intros st'. subst st'. unfold revokeToken, SessionManager.deleteSession.
  run_monad. rewrite getSession_eq. unfold store_of.
  destruct (sessions st !! token) as [s|] eqn:Hs.
  - destruct (Js.lt (SessionManager.expiresAt s) now); simpl.
    + split; [reflexivity|]. split; [|discriminate].
      intros other Hne. apply lookup_delete_ne. congruence.
    + destruct revoked as [f | []]; simpl.
      * split; [reflexivity|]. split; [reflexivity | discriminate].
      * split; [reflexivity|]. split; [|discriminate].
        intros other Hne. apply lookup_delete_ne. congruence.
  - simpl. split; [reflexivity|]. split; [reflexivity|].
    intros _. destruct st; reflexivity.
Qed.

(** X13. Once a live session has been revoked with Google accepting the
    revocation, it is gone for good: its token no longer verifies at any
    later instant, and every refresh token whose mapping points at it is
    refused, although the mapping itself is still stored. *)
Theorem revoked_session_cannot_be_verified_or_refreshed
    now token st session :
  outcome (SessionManager.getSession now token (sessions st))
    = Returned (Some session) ->
  let st' := store_of (revokeToken now token (inr tt) st) in
  sessions st' !! token = None /\
  (forall later refreshed,
     verifyAccessToken later token refreshed st'
     = (Thrown InvalidOrExpiredAccessToken, st')) /\
  (forall refreshToken mapping,
     sessions st !! SessionManager.refreshKey refreshToken = Some mapping ->
     SessionManager.accessTokenSessionId mapping = Some token ->
     token <> SessionManager.refreshKey refreshToken ->
     sessions st' !! SessionManager.refreshKey refreshToken = Some mapping /\
     forall later refreshed ab,
       exchangeRefreshToken later refreshToken refreshed ab st'
       = (Thrown InvalidRefreshToken, st')).
Proof.
  intros Hfound st'. subst st'.
  rewrite (RevokeClaims.revokeToken_upstream_success_deletes _ _ _ _ Hfound).
  unfold store_of. cbn [snd sessions].
  assert (Hgone : delete token (sessions st) !! token = None)
    by apply lookup_delete_eq.
  split; [exact Hgone|]. split.
  - intros later refreshed. unfold verifyAccessToken. run_monad.
    cbn [sessions authCodes]. rewrite getSession_eq, Hgone. reflexivity.
  - intros refreshToken mapping Hm Hk Hne.
    assert (Hkept : delete token (sessions st)
                      !! SessionManager.refreshKey refreshToken
                    = Some mapping)
      by (rewrite lookup_delete_ne by exact Hne; exact Hm).
    split; [exact Hkept|].
    intros later refreshed ab.
    apply (exchangeRefreshToken_dangling _ _ _ _ _ mapping token); auto.
Qed.

Lemma revoked_session_cannot_be_verified_or_refreshed_witness :
  let st' := store_of (revokeToken 3000 Scenario.A1 (inr tt)
                         Scenario.issued) in
  verifyAccessToken 4000 Scenario.A1 (inl Transient) st'
  = (Thrown InvalidOrExpiredAccessToken, st') /\
  exchangeRefreshToken 4000 Scenario.R1 (inr Scenario.nextCredentials)
    Scenario.bytesB st'
  = (Thrown InvalidRefreshToken, st').
Proof.
  intros st'.
  destruct (revoked_session_cannot_be_verified_or_refreshed 3000
              Scenario.A1 Scenario.issued Scenario.issuedItem)
    as (_ & Hverify & Hrefresh); [reflexivity|].
  split; [apply Hverify|].
  destruct (Hrefresh Scenario.R1
              (SessionManager.refreshMapping 2000 Scenario.A1))
    as (_ & Hrefused); [reflexivity | reflexivity | discriminate |].
  apply Hrefused.
Defined.

(** The lookup by refresh token writes nothing: at most it deletes the
    session it finds expired. *)
Lemma getSessionByRefreshToken_writes_nothing now token
    (t : gmap string SessionManager.Item) k item :
  store_of (SessionManager.getSessionByRefreshToken now token t) !! k
    = Some item ->
  t !! k = Some item.
Proof.
  rewrite getSessionByRefreshToken_eq. unfold store_of.
  destruct (t !! SessionManager.refreshKey token) as [m|]; [|auto].
  destruct (SessionManager.accessTokenSessionId m) as [sessionId|]; [|auto].
  destruct (String.eqb sessionId ""); [auto|].
  rewrite getSession_eq.
  destruct (t !! sessionId) as [session|]; [|auto].
  destruct (Js.lt _ _); [|auto]. simpl.
  intros H. apply lookup_delete_Some in H as [_ H]. exact H.
Qed.

(** X14. No refresh completes.  Whatever refresh token is presented and
    whatever Google answers, [exchangeRefreshToken] throws, and it writes
    no authorization code and no session: every item of the sessions
    table after the call was there before it, unchanged.  In particular,
    when the refresh token resolves to a live session and Google answers
    with a new access token, the error is the rejection, by DynamoDB, of
    the update of that session, and the store is what it was: the token
    of Google is lost and no new session is created. *)
Theorem refresh_never_completes now refreshToken refreshed ab st :
  let r := exchangeRefreshToken now refreshToken refreshed ab st in
  (exists e, outcome r = Thrown e) /\
  authCodes (store_of r) = authCodes st /\
  (forall k item,
     sessions (store_of r) !! k = Some item ->
     sessions st !! k = Some item) /\
  (forall old session credentials,
     outcome (SessionManager.getSessionByRefreshToken now refreshToken
                (sessions st)) = Returned (Some (old, session)) ->
     refreshed = inr credentials ->
     Js.truthy (Google.access_token credentials) = true ->
     r = (Thrown ValidationException, st)).
Proof.
  intros r. subst r.
  split; [apply RotationClaims.exchangeRefreshToken_throws|].
  split; [apply Reachability.exchangeRefreshToken_authCodes|].
  split.
  - intros k item.
    pose proof (getSessionByRefreshToken_writes_nothing now refreshToken
                  (sessions st) k item) as Hlookup.
    unfold exchangeRefreshToken. run_monad.
    destruct (SessionManager.getSessionByRefreshToken now refreshToken
                (sessions st)) as [[found | e] t'] eqn:Hfound;
      unfold store_of in *; simpl in *; [|exact Hlookup].
    destruct found as [[old session]|]; simpl; [|exact Hlookup].
    destruct refreshed as [f | c]; simpl; [exact Hlookup|].
    destruct (Js.truthy (Google.access_token c)); simpl; exact Hlookup.
  - intros old session c Hfound -> Htoken.
    apply RefreshClaims.getSessionByRefreshToken_outcome in Hfound.
    rewrite (RefreshClaims.exchangeRefreshToken_found _ _ _ _ _ _ _ Hfound).
    rewrite Htoken. reflexivity.
Qed.

Lemma refresh_never_completes_witness :
  exchangeRefreshToken 3400000 Scenario.R1 (inr Scenario.nextCredentials)
    Scenario.bytesB Scenario.issued
  = (Thrown ValidationException, Scenario.issued).
Proof.
  destruct (refresh_never_completes 3400000 Scenario.R1
              (inr Scenario.nextCredentials) Scenario.bytesB Scenario.issued)
    as (_ & _ & _ & Hrejected).
  apply (Hrejected Scenario.A1 Scenario.issuedItem Scenario.nextCredentials);
    reflexivity.
Defined.

End SessionProperties.

(** ** The older session flow and the tool calls *)

Ltac run_service :=
  unfold Svc_bind, Svc_ret, fail, run, rethrow_as in *; run_monad.

Module ServiceProperties.
Import SessionManagerFacts.

(** X15. [getValidAccessToken] by the clock alone.  With five minutes or more
    left on the Google token it returns the stored access token, writes
    nothing and does not depend on Google.  Once the token has expired it
    does not refresh: the lookup deletes the session and the call throws
    'Session not found. Please authenticate.', again whatever Google
    would answer. *)
Theorem getValidAccessToken_outside_refresh_window
    now sessionId oauth2Client refreshed
    (t : gmap string SessionManager.Item) session e :
  t !! sessionId = Some session ->
  SessionManager.expiresAt session = Some e ->
  (now + 5 * 60 * 1000 <= e ->
   OAuthServiceFlow.getValidAccessToken now sessionId oauth2Client
     refreshed t
   = (Done (SessionManager.accessToken session), t)) /\
  (e < now ->
   OAuthServiceFlow.getValidAccessToken now sessionId oauth2Client
     refreshed t
   = (Failed SessionNotFoundPleaseAuthenticate, delete sessionId t)).
Proof.
  intros Hs He. unfold OAuthServiceFlow.getValidAccessToken.
  unfold mbind, mret. run_service. rewrite getSession_eq, Hs, He. simpl.
  split.
  - intros Hfresh.
    destruct (Z.ltb_spec e now); [lia|].
    unfold GoogleOAuthProvider.needsRefresh,
      GoogleOAuthProvider.expiryBuffer. rewrite He.
    destruct (Z.ltb_spec (e - now) (5 * 60 * 1000)); [lia | reflexivity].
  - intros Hexpired.
    destruct (Z.ltb_spec e now); [reflexivity | lia].
Qed.

Lemma getValidAccessToken_outside_refresh_window_witness :
  let t := sessions Scenario.issued in
  OAuthServiceFlow.getValidAccessToken 3000 Scenario.A1 (inl Transient)
    (inl Transient) t
  = (Done (Some "ya29.first"), t) /\
  OAuthServiceFlow.getValidAccessToken 3601001 Scenario.A1 (inr tt)
    (inr Scenario.nextCredentials) t
  = (Failed SessionNotFoundPleaseAuthenticate, delete Scenario.A1 t).
Proof.
  intros t.
  destruct (getValidAccessToken_outside_refresh_window 3000 Scenario.A1
              (inl Transient) (inl Transient) t Scenario.issuedItem 3601000)
    as (Hfresh & _); [reflexivity | reflexivity |].
  destruct (getValidAccessToken_outside_refresh_window 3601001 Scenario.A1
              (inr tt) (inr Scenario.nextCredentials) t Scenario.issuedItem
              3601000)
    as (_ & Hexpired); [reflexivity | reflexivity |].
  split.
  - apply Hfresh. vm_compute. discriminate.
  - apply Hexpired. reflexivity.
Defined.




(** X17. [exchangeCodeForTokens] writes all or nothing.  When it returns, the
    only write is the session under the id drawn, which it returns with
    the Google access token stored in it; the session has no client and
    no MCP refresh token, so no refresh mapping is written.  When it
    throws, because the Google client, the exchange or the user info
    failed or Google sent no access token, the table is untouched. *)
Theorem exchangeCodeForTokens_writes_one_session_or_nothing
    now oauth2Client tokens userEmail uuid
    (t : gmap string SessionManager.Item) :
  match OAuthServiceFlow.exchangeCodeForTokens now oauth2Client tokens
          userEmail uuid t with
  | (Done exchanged, t') =>
      OAuthServiceFlow.sessionId exchanged = uuid /\
      (exists session,
         t' !! uuid = Some session /\
         SessionManager.accessToken session
           = Some (OAuthServiceFlow.accessToken exchanged) /\
         SessionManager.expiresAt session
           = Some (OAuthServiceFlow.expiresAt exchanged) /\
         SessionManager.clientId session = None /\
         SessionManager.mcpRefreshToken session = None /\
         SessionManager.ttl session
           = Some (now / 1000 + 90 * 24 * 60 * 60)) /\
      (forall other, other <> uuid -> t' !! other = t !! other)
  | (Failed e, t') =>
      t' = t /\
      (e = FailedToExchangeCodeForTokens \/
       exists f, oauth2Client = inl f /\ e = ProviderError (Rejected f))
  end.
Proof.
  unfold OAuthServiceFlow.exchangeCodeForTokens.
  unfold mbind, mret. run_service.
  destruct oauth2Client as [f | []]; simpl; [eauto|].
  destruct tokens as [f | tk]; simpl; [auto|].
  destruct (Js.truthy _); simpl; [|auto].
  destruct userEmail as [f | email]; simpl; [auto|].
  split; [reflexivity|]. split.
  - eexists. rewrite lookup_insert_eq. repeat split.
  - intros other Hne. apply lookup_insert_ne. congruence.
Qed.

End ServiceProperties.

Module ToolCallProperties.
Import SessionManagerFacts.

(** The code exchange of the older flow on Google's full answer. *)
Example exchangeCodeForTokens_run :
  OAuthServiceFlow.exchangeCodeForTokens 1000 (inr tt)
    (inr (OAuthServiceFlow.mkTokens Scenario.firstCredentials None None))
    (inr (Some "ada@example.com")) "uuid-1" ∅
  = (Done (OAuthServiceFlow.mkExchangedTokens "uuid-1" "ya29.first"
             "1//refresh" 3601000),
     {[ "uuid-1" :=
          SessionManager.mkItem None (Some "ada@example.com")
            (Some "ya29.first") (Some "1//refresh") None (Some 3601000)
            None (Some "Bearer")
            (Some "https://www.googleapis.com/auth/contacts.readonly")
            None (Some 7776001) (Some 1000) (Some 1000) ]}).
Proof. reflexivity. Qed.

(** X18. The credentials a tool call reaches Google with, for a live session
    under the bearer token.  With five minutes or more left on the
    Google token they are the stored ones and nothing is written,
    whatever Google would answer to a refresh.  Inside the last five
    minutes, with a Google refresh token, the session is never updated:
    an answer of Google with a new access token aborts the call with
    'Failed to refresh access token', the update that is to store the
    token being rejected by DynamoDB inside the [try], and so does a
    rejected refresh; only an answer without access token lets the call
    go on, with the stored credentials. *)
Theorem tool_call_credentials now token
    (t : gmap string SessionManager.Item) session e :
  token <> "" ->
  t !! token = Some session ->
  SessionManager.expiresAt session = Some e ->
  now <= e ->
  let stored :=
    Google.mkCredentials (SessionManager.accessToken session)
      (SessionManager.refreshToken session) None in
  (now + 5 * 60 * 1000 <= e ->
   forall refreshed,
     McpService.toolCallCredentials now (Some token) (inr tt) refreshed t
     = (Done stored, t)) /\
  (e < now + 5 * 60 * 1000 ->
   Js.truthy (SessionManager.refreshToken session) = true ->
   (forall r,
      Js.truthy (Google.access_token (McpService.credentials r)) = true ->
      McpService.toolCallCredentials now (Some token) (inr tt) (inr r) t
      = (Failed FailedToRefreshAccessToken, t)) /\
   (forall f,
      McpService.toolCallCredentials now (Some token) (inr tt) (inl f) t
      = (Failed FailedToRefreshAccessToken, t)) /\
   (forall r,
      Js.truthy (Google.access_token (McpService.credentials r)) = false ->
      McpService.toolCallCredentials now (Some token) (inr tt) (inr r) t
      = (Done stored, t))).
Proof.
  intros Hne Hs He Hlo stored.
  assert (Hlive : Js.lt (SessionManager.expiresAt session) now = false).
  { rewrite He. simpl. apply Z.ltb_ge. exact Hlo. }
  apply JsFacts.truthy_Some_iff in Hne.
  unfold McpService.toolCallCredentials. rewrite Hne.
  cbv [mbind mret Svc_bind Svc_ret M_bind M_ret fail run rethrow_as throw
       await default id negb].
  rewrite (getSession_live _ _ _ _ Hs Hlive).
  unfold GoogleOAuthProvider.needsRefresh, GoogleOAuthProvider.expiryBuffer.
  rewrite He. split.
  - intros Hfresh refreshed.
    destruct (Z.ltb_spec (e - now) (5 * 60 * 1000)); [lia | reflexivity].
  - intros Hwindow Hrefresh.
    destruct (Z.ltb_spec (e - now) (5 * 60 * 1000)); [|lia].
    rewrite Hrefresh. cbn [andb]. split; [|split].
    + intros r Haccess. rewrite Haccess.
      rewrite updateAccessToken_eq. reflexivity.
    + intros f. reflexivity.
    + intros r Haccess. rewrite Haccess. reflexivity.
Qed.

Lemma tool_call_credentials_witness :
  let t := sessions Scenario.issued in
  McpService.toolCallCredentials 3000 (Some Scenario.A1) (inr tt)
    (inl Transient) t
  = (Done (Google.mkCredentials (Some "ya29.first") (Some "1//refresh")
             None), t) /\
  McpService.toolCallCredentials 3400000 (Some Scenario.A1) (inr tt)
    (inr (McpService.mkRefreshed Scenario.nextCredentials (Some 3600))) t
  = (Failed FailedToRefreshAccessToken, t).
Proof.
  intros t.
  destruct (tool_call_credentials 3000 Scenario.A1 t Scenario.issuedItem
              3601000) as (Hfresh & _);
    [discriminate | reflexivity | reflexivity | vm_compute; discriminate |].
  destruct (tool_call_credentials 3400000 Scenario.A1 t Scenario.issuedItem
              3601000) as (_ & Hwindow);
    [discriminate | reflexivity | reflexivity | vm_compute; discriminate |].
  split.
  - apply Hfresh. vm_compute. discriminate.
  - destruct Hwindow as (Hanswer & _); [reflexivity | reflexivity |].
    apply Hanswer. reflexivity.
Defined.

End ToolCallProperties.

(** ** The routes *)

Module RouteProperties.
Import GoogleOAuthProvider AuthCodeStoreFacts Observed HandshakeProperties.

Lemma prefix_append (p t : string) : String.prefix p (p ++ t) = true.
Proof.
  induction p as [|c p IH]; simpl.
  - destruct t; reflexivity.
  - destruct (ascii_dec c c); [exact IH | contradiction].
Qed.

Lemma prefix_inv (p h : string) :
  String.prefix p h = true -> exists t, h = p ++ t.
Proof.
  revert h. induction p as [|c p IH]; intros h H.
  - exists h. reflexivity.
  - destruct h as [|c' h]; simpl in H; [discriminate|].
    destruct (ascii_dec c c') as [<- | _]; [|discriminate].
    destruct (IH h H) as [t ->]. exists t. reflexivity.
Qed.

Lemma substring_whole (s : string) :
  String.substring 0 (String.length s) s = s.
Proof. induction s as [|c s IH]; simpl; [reflexivity | now rewrite IH]. Qed.

Lemma substring_after_prefix (p t : string) :
  String.substring (String.length p)
    (String.length (p ++ t) - String.length p) (p ++ t) = t.
Proof.
  induction p as [|c p IH]; simpl.
  - rewrite Nat.sub_0_r. apply substring_whole.
  - exact IH.
Qed.

(** A header that yields a token is 'Bearer ' followed by it. *)
Lemma bearerToken_Some authHeader token :
  App.bearerToken authHeader = Some token ->
  authHeader = Some ("Bearer " ++ token).
Proof.
  unfold App.bearerToken.
  destruct authHeader as [h|]; [|discriminate].
  destruct (String.eqb h ""); [discriminate|].
  destruct (String.prefix "Bearer " h) eqn:Hp; [|discriminate].
  apply prefix_inv in Hp as [t ->].
  intros H. injection H as <-. do 2 f_equal. symmetry.
  exact (substring_after_prefix "Bearer " t).
Qed.

Lemma bearerToken_of_header token :
  App.bearerToken (Some ("Bearer " ++ token)) = Some token.
Proof.
  unfold App.bearerToken.
  change (("Bearer " ++ token) =? "")%string with false.
  rewrite (prefix_append "Bearer " token). f_equal.
  exact (substring_after_prefix "Bearer " token).
Qed.

(** X19. The bearer token read from the [Authorization] header is exactly
    what follows the seven characters 'Bearer ': a header yields a token
    if and only if it is 'Bearer ' followed by that token.  The scheme is
    matched with its capital and its space, so 'bearer x', 'Bearer' and a
    missing header yield none. *)
Theorem bearerToken_is_the_rest_of_the_header authHeader token :
  App.bearerToken authHeader = Some token
  <-> authHeader = Some ("Bearer " ++ token).
Proof.
  split.
  - apply bearerToken_Some.
  - intros ->. apply bearerToken_of_header.
Qed.

Example bearerToken_rejects_other_schemes :
  App.bearerToken (Some "bearer abc") = None /\
  App.bearerToken (Some "Bearer") = None /\
  App.bearerToken (Some "Basic abc") = None /\
  App.bearerToken None = None /\
  App.bearerToken (Some "Bearer abc") = Some "abc".
Proof. repeat split. Qed.

(** X20. [POST /mcp] lets a request through only with a header 'Bearer '
    followed by the id of a session that is stored and whose [expiresAt]
    has not passed.  A missing or malformed header is answered
    'unauthorized', and a well-formed header whose token is the id of no
    session 'invalid_token'; in both cases nothing is written. *)
Theorem mcp_access_requires_live_session now authHeader refreshed st :
  (forall authInfo st',
     App.mcpAccess now authHeader refreshed st
       = (App.Authorized authInfo, st') ->
     authHeader = Some ("Bearer " ++ token authInfo) /\
     exists session,
       sessions st !! token authInfo = Some session /\
       Js.lt (SessionManager.expiresAt session) now = false) /\
  (App.bearerToken authHeader = None ->
   App.mcpAccess now authHeader refreshed st = (App.Unauthorized, st)) /\
  (forall unknown,
     authHeader = Some ("Bearer " ++ unknown) ->
     sessions st !! unknown = None ->
     App.mcpAccess now authHeader refreshed st = (App.InvalidToken, st)).
Proof.
  unfold App.mcpAccess. split; [|split].
  - intros authInfo st'.
    destruct (App.bearerToken authHeader) as [t|] eqn:Hbearer;
      [|discriminate].
    apply bearerToken_Some in Hbearer.
    destruct (sessions st !! t) as [s|] eqn:Hs.
    + destruct (Js.lt (SessionManager.expiresAt s) now) eqn:Hlive.
      * unfold verifyAccessToken. run_monad.
        rewrite SessionManagerFacts.getSession_eq, Hs, Hlive. discriminate.
      * rewrite (SessionFlow.verifyAccessToken_found _ _ _ _ _ Hs Hlive).
        destruct (SessionManager.scope s); [|discriminate].
        intros H. injection H as <- _. simpl. eauto.
    + unfold verifyAccessToken. run_monad.
      rewrite SessionManagerFacts.getSession_eq, Hs. discriminate.
  - intros ->. reflexivity.
  - intros unknown -> Hnone.
    rewrite (bearerToken_of_header unknown).
    unfold verifyAccessToken. run_monad.
    rewrite SessionManagerFacts.getSession_eq, Hnone.
    destruct st; reflexivity.
Qed.

Lemma mcp_access_requires_live_session_witness :
  App.mcpAccess 3000 (Some "Bearer unknown") (inl Transient) Scenario.issued
  = (App.InvalidToken, Scenario.issued) /\
  App.mcpAccess 3000 (Some Scenario.A1) (inl Transient) Scenario.issued
  = (App.Unauthorized, Scenario.issued).
Proof.
  destruct (mcp_access_requires_live_session 3000 (Some "Bearer unknown")
              (inl Transient) Scenario.issued) as (_ & _ & Hunknown).
  destruct (mcp_access_requires_live_session 3000 (Some Scenario.A1)
              (inl Transient) Scenario.issued) as (_ & Hmalformed & _).
  split.
  - apply (Hunknown "unknown"); reflexivity.
  - apply Hmalformed. reflexivity.
Defined.

End RouteProperties.

Module CallbackRouteProperties.
Import GoogleOAuthProvider AuthCodeStoreFacts Observed HandshakeProperties.

(** A callback that returns found a record not older than ten minutes,
    also once Google had answered, and got an access token, a refresh
    token and an email from Google; the record is then completed. *)
Lemma handleGoogleCallback_Returned
    now later code state tokens userEmail st u st' :
  handleGoogleCallback now later code state tokens userEmail st
    = (Returned u, st') ->
  exists d credentials email,
    authCodes st !! state = Some d /\
    later - AuthCodeStore.createdAt d <= AuthCodeStore.TEN_MINUTES_MS /\
    tokens = inr credentials /\ userEmail = inr email /\
    Js.truthy (Google.refresh_token credentials) = true /\
    Js.truthy email = true /\
    st' = mkStore (sessions st)
            (<[state := AuthCodeStore.withGoogleTokens code
                          (callbackTokens later credentials email) d]>
               (authCodes st)).
Proof.
  rewrite Reachability.handleGoogleCallback_eq.
  destruct (authCodes st !! state) as [d|] eqn:Hd; [|discriminate].
  destruct (Z.ltb _ (now - _)); [discriminate|].
  destruct tokens as [f | c]; [discriminate|].
  destruct (Js.truthy (Google.access_token c)); [|discriminate].
  destruct userEmail as [f | email]; [discriminate|].
  destruct (Z.ltb_spec AuthCodeStore.TEN_MINUTES_MS
              (later - AuthCodeStore.createdAt d)) as [_ | Hlater];
    [discriminate|].
  destruct (Js.truthy (Google.refresh_token c)) eqn:Hr; [|discriminate].
  destruct (Js.truthy email) eqn:He; [|discriminate].
  intros H. injection H as _ <-. exists d, c, email. auto 10.
Qed.

Section WithUrl.
Variable isUrl : string -> bool.

(** X21. [GET /google/callback].  A request with an [error] parameter, or
    without a non-empty string for [code] or for [state], is answered 400
    before the store or Google is touched.  When the route redirects,
    the code it hands to the client is the [state] it received, the
    record of that code is completed with Google tokens that have a
    refresh token and an email, the target is the redirect URI stored at
    authorization and the state is the one the client sent then (empty
    when it sent none); no session has been written yet.  It does
    redirect whenever the record is not older than ten minutes at any of
    its three lookups, Google answers with an access token, a refresh
    token and an email, and the stored redirect URI is a URL.  When the
    record passes ten minutes between its completion and the last
    lookup, the answer is the error page 'Authorization session
    expired' and the record, just completed, is deleted.  When Google
    sends no refresh token or no email, the answer is the error page of
    the refusal to store them, and the store is what it was. *)
Theorem google_callback_route
    now later last code state error tokens userEmail st :
  let r := App.googleCallback isUrl now later last code state error tokens
             userEmail st in
  (App.present error = true \/ App.nonEmptyString code = None
   \/ App.nonEmptyString state = None ->
   r = (App.BadRequest, st)) /\
  (forall uri authCode clientState st',
     r = (App.RedirectTo uri authCode clientState, st') ->
     App.nonEmptyString state = Some authCode /\
     sessions st' = sessions st /\
     exists d g,
       authCodes st' !! authCode = Some d /\
       AuthCodeStore.googleTokens d = Some g /\
       completeTokens g /\
       AuthCodeStore.redirectUri d = uri /\
       Js.or_string (AuthCodeStore.state d) "" = clientState /\
       (exists before, authCodes st !! authCode = Some before /\
          AuthCodeStore.redirectUri before = uri /\
          AuthCodeStore.state before = AuthCodeStore.state d /\
          AuthCodeStore.clientId before = AuthCodeStore.clientId d)) /\
  (forall googleCode authCode d credentials email,
     App.present error = false ->
     App.nonEmptyString code = Some googleCode ->
     App.nonEmptyString state = Some authCode ->
     authCodes st !! authCode = Some d ->
     now - AuthCodeStore.createdAt d <= 10 * 60 * 1000 ->
     later - AuthCodeStore.createdAt d <= 10 * 60 * 1000 ->
     tokens = inr credentials ->
     Js.truthy (Google.access_token credentials) = true ->
     userEmail = inr email ->
     (Js.truthy (Google.refresh_token credentials) = true ->
      Js.truthy email = true ->
      last - AuthCodeStore.createdAt d <= 10 * 60 * 1000 ->
      isUrl (AuthCodeStore.redirectUri d) = true ->
      exists st',
        r = (App.RedirectTo (AuthCodeStore.redirectUri d) authCode
               (Js.or_string (AuthCodeStore.state d) ""), st')) /\
     (Js.truthy (Google.refresh_token credentials) = true ->
      Js.truthy email = true ->
      10 * 60 * 1000 < last - AuthCodeStore.createdAt d ->
      r = (App.AuthenticationErrorPage App.AuthorizationSessionExpired,
           mkStore (sessions st) (delete authCode (authCodes st)))) /\
     (Js.truthy (Google.refresh_token credentials) && Js.truthy email
        = false ->
      r = (App.AuthenticationErrorPage (App.ProviderThrew UndefinedValue),
           st))).
Proof.
  intros r. subst r. unfold App.googleCallback. split; [|split].
  - intros [H | [H | H]].
    + rewrite H. reflexivity.
    + rewrite H. destruct (App.present error); reflexivity.
    + rewrite H. destruct (App.present error); [reflexivity|].
      destruct (App.nonEmptyString code); reflexivity.
  - intros uri authCode clientState st'.
    destruct (App.present error); [discriminate|].
    destruct (App.nonEmptyString code) as [c|]; [|discriminate].
    destruct (App.nonEmptyString state) as [s|]; [|discriminate].
    destruct (handleGoogleCallback now later c s tokens userEmail st)
      as [[u|e] st1] eqn:Hcallback; [|discriminate].
    apply handleGoogleCallback_Returned in Hcallback
      as (d & cr & email & Hd & Hage & _ & _ & Hrefresh & Hemail & ->).
    unfold getAuthCodeData. run_monad. cbn [authCodes sessions].
    rewrite getAuthCode_eq, lookup_insert_eq.
    cbn [AuthCodeStore.createdAt AuthCodeStore.withGoogleTokens].
    destruct (Z.ltb _ _); [discriminate|].
    destruct (isUrl _); [|discriminate].
    intros H. injection H as <- <- <- <-.
    split; [reflexivity|]. split; [reflexivity|].
    eexists. eexists. cbn [authCodes]. rewrite lookup_insert_eq.
    split; [reflexivity|]. split; [reflexivity|].
    split.
    { split; simpl; unfold Js.or_undefined;
        [rewrite Hrefresh | rewrite Hemail]; assumption. }
    split; [reflexivity|]. split; [reflexivity|].
    exists d. auto.
  - intros googleCode authCode d cr email Herror Hcode Hstate Hd Hnow Hlater
      -> Htoken ->.
    rewrite Herror, Hcode, Hstate. split; [|split].
    + intros Hrefresh Hemail Hlast Hurl.
      rewrite (handleGoogleCallback_live _ _ _ _ _ _ _ _ Hd Hnow Hlater
                 Htoken Hrefresh Hemail).
      unfold getAuthCodeData. run_monad. cbn [authCodes sessions].
      erewrite getAuthCode_live; [|apply lookup_insert_eq | exact Hlast].
      cbn [AuthCodeStore.redirectUri AuthCodeStore.state
           AuthCodeStore.withGoogleTokens].
      rewrite Hurl. eexists. reflexivity.
    + intros Hrefresh Hemail Hlast.
      rewrite (handleGoogleCallback_live _ _ _ _ _ _ _ _ Hd Hnow Hlater
                 Htoken Hrefresh Hemail).
      unfold getAuthCodeData. run_monad. cbn [authCodes sessions].
      erewrite getAuthCode_expired; [|apply lookup_insert_eq | exact Hlast].
      rewrite delete_insert_eq. reflexivity.
    + intros Hb.
      rewrite Reachability.handleGoogleCallback_eq, Hd, Htoken, Hb.
      destruct (Z.ltb_spec AuthCodeStore.TEN_MINUTES_MS
                  (now - AuthCodeStore.createdAt d)) as [Hold | _];
        [unfold AuthCodeStore.TEN_MINUTES_MS in Hold; lia|].
      destruct (Z.ltb_spec AuthCodeStore.TEN_MINUTES_MS
                  (later - AuthCodeStore.createdAt d)) as [Hold | _];
        [unfold AuthCodeStore.TEN_MINUTES_MS in Hold; lia|].
      reflexivity.
Qed.

End WithUrl.

Lemma google_callback_route_witness :
  (exists st',
     App.googleCallback (fun _ => true) 1000 1500 1600
       (Some (App.QString "U1")) (Some (App.QString "C1")) None
       (inr Scenario.firstCredentials) (inr (Some "ada@example.com"))
       (Scenario.authorized "challenge-1")
     = (App.RedirectTo "https://app/callback" "C1" "xyz", st')) /\
  App.googleCallback (fun _ => true) 599000 600000 600001
    (Some (App.QString "U1")) (Some (App.QString "C1")) None
    (inr Scenario.firstCredentials) (inr (Some "ada@example.com"))
    (Scenario.authorized "challenge-1")
  = (App.AuthenticationErrorPage App.AuthorizationSessionExpired,
     mkStore ∅ ∅) /\
  App.googleCallback (fun _ => true) 1000 1500 1600
    (Some (App.QString "U1")) (Some (App.QString "C1")) None
    (inr Scenario.nextCredentials) (inr (Some "ada@example.com"))
    (Scenario.authorized "challenge-1")
  = (App.AuthenticationErrorPage (App.ProviderThrew UndefinedValue),
     Scenario.authorized "challenge-1") /\
  App.googleCallback (fun _ => true) 1000 1500 1600
    (Some (App.QString "U1")) (Some (App.QString "C1"))
    (Some (App.QString "access_denied"))
    (inr Scenario.firstCredentials) (inr (Some "ada@example.com"))
    (Scenario.authorized "challenge-1")
  = (App.BadRequest, Scenario.authorized "challenge-1").
Proof.
  pose (d := AuthCodeStore.mkAuthorizationCodeData "client-1"
               "challenge-1" "https://app/callback" (Some "xyz")
               None None (Some ["contacts.readonly"; "profile"]) 0 600).
  split; [|split; [|split]].
  - destruct (google_callback_route (fun _ => true) 1000 1500 1600
                (Some (App.QString "U1")) (Some (App.QString "C1")) None
                (inr Scenario.firstCredentials)
                (inr (Some "ada@example.com"))
                (Scenario.authorized "challenge-1")) as (_ & _ & Hlive).
    destruct (Hlive "U1" "C1" d Scenario.firstCredentials
                (Some "ada@example.com")) as (Hredirect & _);
      [reflexivity | reflexivity | reflexivity | reflexivity
      | vm_compute; discriminate | vm_compute; discriminate
      | reflexivity | reflexivity | reflexivity |].
    apply Hredirect; first [reflexivity | vm_compute; discriminate].
  - destruct (google_callback_route (fun _ => true) 599000 600000 600001
                (Some (App.QString "U1")) (Some (App.QString "C1")) None
                (inr Scenario.firstCredentials)
                (inr (Some "ada@example.com"))
                (Scenario.authorized "challenge-1")) as (_ & _ & Hlive).
    destruct (Hlive "U1" "C1" d Scenario.firstCredentials
                (Some "ada@example.com")) as (_ & Hexpired & _);
      [reflexivity | reflexivity | reflexivity | reflexivity
      | vm_compute; discriminate | vm_compute; discriminate
      | reflexivity | reflexivity | reflexivity |].
    apply Hexpired; reflexivity.
  - destruct (google_callback_route (fun _ => true) 1000 1500 1600
                (Some (App.QString "U1")) (Some (App.QString "C1")) None
                (inr Scenario.nextCredentials)
                (inr (Some "ada@example.com"))
                (Scenario.authorized "challenge-1")) as (_ & _ & Hlive).
    destruct (Hlive "U1" "C1" d Scenario.nextCredentials
                (Some "ada@example.com")) as (_ & _ & Hundefined);
      [reflexivity | reflexivity | reflexivity | reflexivity
      | vm_compute; discriminate | vm_compute; discriminate
      | reflexivity | reflexivity | reflexivity |].
    apply Hundefined. reflexivity.
  - destruct (google_callback_route (fun _ => true) 1000 1500 1600
                (Some (App.QString "U1")) (Some (App.QString "C1"))
                (Some (App.QString "access_denied"))
                (inr Scenario.firstCredentials)
                (inr (Some "ada@example.com"))
                (Scenario.authorized "challenge-1")) as (Hbad & _).
    apply Hbad. left. reflexivity.
Defined.

End CallbackRouteProperties.

(** ** The errors reported for the Google API *)

Module ContactsProperties.
Import Contacts Observed.

(** X22. For the statuses 401, 403, 404 and 429 the error thrown says nothing
    of what Google answered: two failures with the same such status give
    the same error, whatever their messages and whatever the operation,
    and the error carries that status. *)
Theorem known_statuses_hide_the_upstream_message
    (error error' : ApiFailure) (operation operation' : string) (n : Z) :
  In n [401; 403; 404; 429] ->
  statusOf error = Some (JsNumber n) ->
  statusOf error' = Some (JsNumber n) ->
  handleGoogleAPIError error operation
    = handleGoogleAPIError error' operation' /\
  statusCode (handleGoogleAPIError error operation) = Some (JsNumber n) /\
  In (errorMessage (handleGoogleAPIError error operation))
    ["Authentication failed. Token may be invalid or expired.";
     "Access forbidden. Check OAuth scopes and permissions.";
     "Resource not found.";
     "Rate limit exceeded. Please try again later."].
Proof.
  intros Hn Hs Hs'. unfold handleGoogleAPIError.
  fold (statusOf error). fold (statusOf error'). rewrite Hs, Hs'.
  simpl in Hn.
  destruct Hn as [<- | [<- | [<- | [<- | []]]]]; simpl; auto 10.
Qed.

Lemma known_statuses_hide_the_upstream_message_witness :
  handleGoogleAPIError
    (mkApiFailure (Some "invalid_grant: account 42") (Some (JsNumber 401))
       None) "List contacts"
  = handleGoogleAPIError
      (mkApiFailure None None (Some (JsNumber 401))) "Get contact".
Proof.
  apply (known_statuses_hide_the_upstream_message _ _ _ _ 401);
    [left; reflexivity | reflexivity | reflexivity].
Defined.

(** Any other failure is reported with the operation and the message of
    Google, or 'Unknown error' when it has none, and with its status
    unchanged; this includes a status given as the string '401', which
    the strict comparisons do not recognise. *)
Lemma other_statuses_carry_the_upstream_message
    (error : ApiFailure) (operation : string) :
  (forall n, statusOf error = Some (JsNumber n) ->
             ~ In n [401; 403; 404; 429]) ->
  handleGoogleAPIError error operation
  = mkGoogleAPIError
      (operation ++ " failed: " ++ Js.or_string (message error) "Unknown error")
      (statusOf error).
Proof.
  intros Hother. unfold handleGoogleAPIError. fold (statusOf error).
  destruct (statusOf error) as [[n | s]|] eqn:Hs; [|reflexivity|reflexivity].
  specialize (Hother n eq_refl). unfold isNumber.
  destruct (Z.eqb_spec n 401) as [-> | _]; [exfalso; apply Hother; simpl; auto|].
  destruct (Z.eqb_spec n 403) as [-> | _]; [exfalso; apply Hother; simpl; auto|].
  destruct (Z.eqb_spec n 404) as [-> | _]; [exfalso; apply Hother; simpl; auto|].
  destruct (Z.eqb_spec n 429) as [-> | _];
    [exfalso; apply Hother; simpl; auto 10|].
  reflexivity.
Qed.

(** The message of [handleGoogleAPIError] for a directory search never
    starts with a 'D'. *)
Lemma handleGoogleAPIError_message (error : ApiFailure) :
  exists c rest,
    errorMessage (handleGoogleAPIError error "Search directory contacts")
      = String c rest /\
    c <> "D"%char.
Proof.
  unfold handleGoogleAPIError.
  repeat match goal with
         | |- context [if ?b then _ else _] => destruct b
         end; simpl; eexists _, _; (split; [reflexivity | discriminate]).
Qed.

(** X23. A failed directory search is reported as a restriction to Google
    Workspace accounts exactly when the [code] of the failure is the
    number 403 or 400, and then with that code and without the message
    of Google.  A 403 that only [response.status] carries is reported as
    any other request reports it, by [handleGoogleAPIError]. *)
Theorem directory_search_reports_workspace_restriction
    (error : ApiFailure) :
  let workspace :=
    "Directory search is only available for Google Workspace accounts." in
  (errorMessage (searchDirectoryError error) = workspace <->
   code error = Some (JsNumber 403) \/ code error = Some (JsNumber 400)) /\
  (errorMessage (searchDirectoryError error) = workspace ->
   statusCode (searchDirectoryError error) = code error) /\
  (errorMessage (searchDirectoryError error) <> workspace ->
   searchDirectoryError error
   = handleGoogleAPIError error "Search directory contacts").
Proof.
  intros workspace.
  assert (Hcode : isNumber (code error) 403 || isNumber (code error) 400 = true
                  <-> code error = Some (JsNumber 403) \/
                      code error = Some (JsNumber 400)).
  { unfold isNumber. destruct (code error) as [[n | s]|]; simpl.
    - destruct (Z.eqb_spec n 403) as [-> | H3]; simpl; [tauto|].
      destruct (Z.eqb_spec n 400) as [-> | H0]; simpl; [tauto|].
      split; [discriminate | intros [H | H]; congruence].
    - split; [discriminate | intros [H | H]; discriminate].
    - split; [discriminate | intros [H | H]; discriminate]. }
  unfold searchDirectoryError.
  destruct (isNumber (code error) 403 || isNumber (code error) 400) eqn:Hb.
  - simpl. repeat split; auto.
    + intros _. apply Hcode. reflexivity.
    + intros H. exfalso. apply H. reflexivity.
  - destruct (handleGoogleAPIError_message error) as (c & rest & Hm & Hc).
    assert (Hne : errorMessage
                    (handleGoogleAPIError error "Search directory contacts")
                  <> workspace).
    { rewrite Hm. subst workspace. intros H. injection H as H _.
      exact (Hc H). }
    repeat split.
    + intros H. exfalso. exact (Hne H).
    + intros H. apply Hcode in H. discriminate H.
    + intros H. exfalso. exact (Hne H).
Qed.

End ContactsProperties.

(** ** The registry of clients *)

Module ClientStoreProperties.
Import OAuthClientStore.

Section WithMetadata.
Variable Metadata : Type.

(** X24. Without an API endpoint in the environment a registration is
    refused and nothing is stored.  With one, the registered client is
    found again under the id it was given, as it was returned: with the
    metadata it asked for, a secret that expires 365 days after the
    second of issue, and the authentication method and
    the logo it asked for, or 'client_secret_post' and the logo of the
    server when it asked for none; no other client is touched. *)
Theorem registered_client_is_found now apiEndpoint
    (client : Registration Metadata) uuid secretBytes
    (t : gmap string (Client Metadata)) :
  let r := registerClient Metadata now apiEndpoint client uuid secretBytes t in
  if Js.truthy apiEndpoint
  then
    exists full,
      r = (Done (uuid, full), <[uuid := full]> t) /\
      getClient Metadata uuid (snd r) = (Returned (Some full), snd r) /\
      client_metadata Metadata full = metadata Metadata client /\
      client_id_issued_at Metadata full = now / 1000 /\
      client_secret_expires_at Metadata full
        = client_id_issued_at Metadata full + 31536000 /\
      client_secret Metadata full = Base64Url.encode secretBytes /\
      token_endpoint_auth_method Metadata full
        = Js.or_string (requested_auth_method Metadata client)
            "client_secret_post" /\
      logo_uri Metadata full
        = Js.or_string (requested_logo_uri Metadata client)
            (default "" apiEndpoint ++ "/logo.png") /\
      (forall other, other <> uuid ->
         getClient Metadata other (snd r) = (Returned (t !! other), snd r))
  else r = (Failed ApiEndpointIsRequired, t).
Proof.
  intros r. subst r. unfold registerClient, getClient.
  destruct (Js.truthy apiEndpoint); simpl; [|reflexivity].
  cbv [mbind mret Svc_bind Svc_ret M_bind M_ret run fail dbPut dbGet].
  simpl.
  eexists. split; [reflexivity|].
  rewrite lookup_insert_eq. split; [reflexivity|].
  repeat split.
  intros other Hne. rewrite lookup_insert_ne by congruence. reflexivity.
Qed.

(** An id that was never registered is not found, and asking changes
    nothing. *)
Lemma unknown_client_is_not_found clientId
    (t : gmap string (Client Metadata)) :
  t !! clientId = None ->
  getClient Metadata clientId t = (Returned None, t).
Proof. intros H. unfold getClient. run_monad. rewrite H. reflexivity. Qed.

End WithMetadata.

End ClientStoreProperties.
